(** * iMigrate: the MPAQ mix converter

    A shallow embedding of [convertMPAQMixes] and of the helpers it calls
    (client/src/converters/mixes/MPAQ.ts), together with the properties of
    the converter that the specification states.

    Layout:
    - [JS]: the part of the ECMAScript runtime the converter relies on
      (strings, IEEE-754 binary64 numbers, [parseFloat], [String(x)],
      truthiness, ordinary objects, insertion-ordered [Map], [console]);
    - [MPAQ]: the converter, function by function, in source order;
    - [Earlier], [CommandSeries], [Home], [Preview], [MaterialFiles]: the
      code around the converter: its earlier revision, the Command Series
      converter, and what the page and the preview compute;
    - [Shared]: the converter once more, with the header row of a returned
      table as what it is, the one array of the module;
    - the results, one section per property. *)

From Stdlib Require Import ZArith List Bool Ascii String Lia.
From Stdlib Require Import Floats.SpecFloat DecimalString.
From stdpp Require Import base option list strings gmap.

Local Open Scope string_scope.
Local Open Scope list_scope.

(* ===================================================================== *)
(** * The ECMAScript runtime, as far as the converter uses it            *)
(* ===================================================================== *)

Module JS.

(** ** Strings

    A string is a sequence of code units; the model keeps the code units
    0..255, which covers every literal the converter compares against. *)

Definition code (c : ascii) : nat := nat_of_ascii c.

(** WhiteSpace and LineTerminator code units: what [trim], [parseFloat]
    and the regular-expression class [\s] skip. *)
Definition isWhiteSpace (c : ascii) : bool :=
  let n := code c in
  (n =? 9)%nat || (n =? 10)%nat || (n =? 11)%nat || (n =? 12)%nat
  || (n =? 13)%nat || (n =? 32)%nat || (n =? 160)%nat.

(** The regular-expression class [\d]. *)
Definition isDigit (c : ascii) : bool :=
  let n := code c in (48 <=? n)%nat && (n <=? 57)%nat.

Definition isEmptyString (s : string) : bool :=
  match s with EmptyString => true | String _ _ => false end.

Fixpoint trimStart (s : string) : string :=
  match s with
  | EmptyString => EmptyString
  | String c s' => if isWhiteSpace c then trimStart s' else s
  end.

Fixpoint trimEnd (s : string) : string :=
  match s with
  | EmptyString => EmptyString
  | String c s' =>
      match trimEnd s' with
      | EmptyString => if isWhiteSpace c then EmptyString else String c EmptyString
      | t => String c t
      end
  end.

(** [String.prototype.trim]. *)
Definition trim (s : string) : string := trimEnd (trimStart s).

(** [s.startsWith(p)]. *)
Fixpoint startsWith (p s : string) : bool :=
  match p, s with
  | EmptyString, _ => true
  | String a p', String b s' => Ascii.eqb a b && startsWith p' s'
  | String _ _, EmptyString => false
  end.

(** [s.includes(needle)]. *)
Fixpoint includes (s needle : string) : bool :=
  startsWith needle s
  || match s with
     | EmptyString => false
     | String _ s' => includes s' needle
     end.

Fixpoint dropChars (n : nat) (s : string) : string :=
  match n, s with
  | S n', String _ s' => dropChars n' s'
  | _, _ => s
  end.

(** The longest prefix of [s] whose code units satisfy [p], and the rest:
    what a greedy [p+] or [p*] consumes. *)
Fixpoint span (p : ascii -> bool) (s : string) : string * string :=
  match s with
  | EmptyString => (EmptyString, EmptyString)
  | String c s' =>
      if p c then let '(a, b) := span p s' in (String c a, b)
      else (EmptyString, s)
  end.

(** Canonicalisation of a code unit under the [i] flag (no [u] flag):
    the ASCII letters fold to upper case.  The patterns of the converter
    contain ASCII letters only, and no other code unit canonicalises to
    an ASCII letter. *)
Definition canonicalize (c : ascii) : ascii :=
  let n := code c in
  if (97 <=? n)%nat && (n <=? 122)%nat then ascii_of_nat (n - 32) else c.

Fixpoint startsWithCI (p s : string) : bool :=
  match p, s with
  | EmptyString, _ => true
  | String a p', String b s' =>
      Ascii.eqb (canonicalize a) (canonicalize b) && startsWithCI p' s'
  | String _ _, EmptyString => false
  end.

(** An unanchored regular expression is tried at position 0, then 1, ...:
    [search f s] is the first success of the anchored matcher [f]. *)
Fixpoint search {A} (f : string -> option A) (s : string) : option A :=
  match f s with
  | Some x => Some x
  | None =>
      match s with
      | EmptyString => None
      | String _ s' => search f s'
      end
  end.

(** ** Numbers: IEEE-754 binary64 *)

Definition prec : Z := 53.
Definition emax : Z := 1024.

Definition number : Type := spec_float.

Definition NaN : number := S754_nan.

(** The global [isNaN], on a number. *)
Definition isNaN (x : number) : bool :=
  match x with S754_nan => true | _ => false end.

(** The number of an integer literal such as [28], rounded to nearest. *)
Definition ofZ (z : Z) : number := binary_normalize prec emax z 0 false.

(** [x === y] and [x > y] on numbers. *)
Definition numEq (x y : number) : bool := SFeqb x y.
Definition numGt (x y : number) : bool := SFltb y x.

(** The decimal digits of a natural number, and how many there are. *)
Definition decString (n : Z) : string :=
  NilEmpty.string_of_uint (N.to_uint (Z.to_N n)).

Definition decimalDigits (m : Z) : Z :=
  Z.of_nat (String.length (decString m)).

(** The number nearest to [m * 10^e10] ([m >= 0]), ties to even: the value
    of a decimal literal.  Beyond 10^310 every literal rounds to an
    infinity and below 10^-330 to a zero; the two guards only keep the
    powers of ten small. *)
Definition ofDecimal (neg : bool) (m e10 : Z) : number :=
  if (m <=? 0)%Z then S754_zero neg
  else if (310 <? decimalDigits m + e10)%Z then S754_infinity neg
  else if (decimalDigits m + e10 <? -330)%Z then S754_zero neg
  else if (0 <=? e10)%Z then
    binary_normalize prec emax (cond_Zopp neg (m * 10 ^ e10)) 0 neg
  else
    let '(q, e, l) := SFdiv_core_binary prec emax m 0 (10 ^ (- e10)) 0 in
    binary_round_aux prec emax neg q e l.

(** *** [parseFloat] on a string

    Leading white space is skipped, then the longest prefix that is a
    StrDecimalLiteral is converted; what follows the prefix is ignored.
    Without such a prefix the result is [NaN]. *)

Fixpoint digitsValue (acc : Z) (s : string) : Z :=
  match s with
  | EmptyString => acc
  | String c s' => digitsValue (10 * acc + Z.of_nat (code c - 48)) s'
  end.

Definition parseSign (s : string) : bool * string :=
  match s with
  | String "-" r => (true, r)
  | String "+" r => (false, r)
  | _ => (false, s)
  end.

(** An ExponentPart at the head of [s]: its value and what follows it.
    Without one the value is 0 and nothing is consumed (an [e] that no
    digit follows is not part of the literal). *)
Definition parseExponent (s : string) : Z * string :=
  match s with
  | String c r =>
      if Ascii.eqb c "e" || Ascii.eqb c "E" then
        let '(neg, r1) := parseSign r in
        let '(d, r2) := span isDigit r1 in
        if isEmptyString d then (0%Z, s) else (cond_Zopp neg (digitsValue 0 d), r2)
      else (0%Z, s)
  | EmptyString => (0%Z, s)
  end.

(** The longest StrDecimalLiteral at the head of [s]: its value and what
    follows it. *)
Definition strDecimalLiteral (s : string) : option (number * string) :=
  let '(neg, r) := parseSign s in
  if startsWith "Infinity" r then Some (S754_infinity neg, dropChars 8 r)
  else
    let '(ip, r1) := span isDigit r in
    let '(fp, r2) :=
      match r1 with
      | String "." r' => span isDigit r'
      | _ => (EmptyString, r1)
      end in
    if isEmptyString ip && isEmptyString fp then None
    else
      let '(e, r3) := parseExponent r2 in
      Some (ofDecimal neg (digitsValue 0 (ip +:+ fp)) (e - Z.of_nat (String.length fp)),
            r3).

Definition parseFloatString (s : string) : number :=
  match strDecimalLiteral (trimStart s) with
  | Some (n, _) => n
  | None => NaN
  end.

(** *** [Number::toString] (radix 10)

    For a finite non-zero [v] the digits are those of the integer [s]
    with the fewest digits [k] such that [s * 10^(n-k)] rounds to [v];
    among several such [s], the one closest to [v].  The positive number
    [m * 2^e] is kept as the fraction [V / D], its rounding interval as
    [L / D .. H / D] (closed when [m] is even). *)

Definition scaleNum (p x : Z) : Z := if (p <? 0)%Z then (x * 10 ^ (- p))%Z else x.
Definition scaleDen (p d : Z) : Z := if (p <? 0)%Z then d else (d * 10 ^ p)%Z.

(** [n] with [10^(n-1) <= V/D < 10^n], reached from an estimate. *)
Fixpoint decimalExponent (fuel : nat) (V D n : Z) : Z :=
  match fuel with
  | O => n
  | S fuel' =>
      if (scaleNum (n - 1) V <? scaleDen (n - 1) D)%Z
      then decimalExponent fuel' V D (n - 1)%Z
      else if (scaleDen n D <=? scaleNum n V)%Z
      then decimalExponent fuel' V D (n + 1)%Z
      else n
  end.

Definition inInterval (incl : bool) (L H Dp s : Z) : bool :=
  if incl then (L <=? s * Dp)%Z && (s * Dp <=? H)%Z
  else (L <? s * Dp)%Z && (s * Dp <? H)%Z.

(** The digits [s] for the digit count [k], if some [k]-digit decimal
    lies in the rounding interval. *)
Definition digitsFor (incl : bool) (V L H D n0 k : Z) : option Z :=
  let p := (n0 - k)%Z in
  let Dp := scaleDen p D in
  let V' := scaleNum p V in
  let lo := (V' / Dp)%Z in
  let hi := (lo + 1)%Z in
  let okLo := inInterval incl (scaleNum p L) (scaleNum p H) Dp lo in
  let okHi := inInterval incl (scaleNum p L) (scaleNum p H) Dp hi in
  match okLo, okHi with
  | true, true =>
      match (2 * V' ?= (2 * lo + 1) * Dp)%Z with
      | Lt => Some lo
      | Gt => Some hi
      | Eq => Some (if Z.even lo then lo else hi)
      end
  | true, false => Some lo
  | false, true => Some hi
  | false, false => None
  end.

Fixpoint shortestDigits (fuel : nat) (incl : bool) (V L H D n0 k : Z) : Z * Z :=
  match fuel with
  | O => ((scaleNum (n0 - k) V / scaleDen (n0 - k) D)%Z, k)
  | S fuel' =>
      match digitsFor incl V L H D n0 k with
      | Some s => (s, k)
      | None => shortestDigits fuel' incl V L H D n0 (k + 1)%Z
      end
  end.

Fixpoint zeros (n : nat) : string :=
  match n with O => EmptyString | S n' => String "0" (zeros n') end.

Definition takeChars (n : nat) (s : string) : string := String.substring 0 n s.

Definition formatDigits (ds : string) (k n : Z) : string :=
  if (k <=? n)%Z && (n <=? 21)%Z then ds +:+ zeros (Z.to_nat (n - k))
  else if (0 <? n)%Z && (n <=? 21)%Z then
    takeChars (Z.to_nat n) ds +:+ "." +:+ dropChars (Z.to_nat n) ds
  else if (-6 <? n)%Z && (n <=? 0)%Z then "0." +:+ zeros (Z.to_nat (- n)) +:+ ds
  else
    let e := (n - 1)%Z in
    let es := (if (e <? 0)%Z then "-" else "+") +:+ decString (Z.abs e) in
    if (k =? 1)%Z then ds +:+ "e" +:+ es
    else takeChars 1 ds +:+ "." +:+ dropChars 1 ds +:+ "e" +:+ es.

Definition positiveToString (m : positive) (e : Z) : string :=
  let e2 := (e - 2)%Z in
  let narrow := (Z.pos m =? 2 ^ (prec - 1))%Z && (emin prec emax <? e)%Z in
  let C := if (0 <=? e2)%Z then (2 ^ e2)%Z else 1%Z in
  let D := if (0 <=? e2)%Z then 1%Z else (2 ^ (- e2))%Z in
  let V := (4 * Z.pos m * C)%Z in
  let L := ((4 * Z.pos m - (if narrow then 1 else 2)) * C)%Z in
  let H := ((4 * Z.pos m + 2) * C)%Z in
  let est := (((Z.log2 V - Z.log2 D) * 30103) / 100000)%Z in
  let n0 := decimalExponent 8 V D est in
  let '(s, k) := shortestDigits 20 (Z.even (Z.pos m)) V L H D n0 1 in
  if (s =? 10 ^ k)%Z then formatDigits "1" 1 (n0 + 1)
  else formatDigits (decString s) k n0.

Definition numberToString (x : number) : string :=
  match x with
  | S754_nan => "NaN"
  | S754_zero _ => "0"
  | S754_infinity s => if s then "-Infinity" else "Infinity"
  | S754_finite s m e => (if s then "-" else "") +:+ positiveToString m e
  end.

(** ** Values

    A cell of an uploaded sheet is a string, a number, a boolean, [null],
    or missing ([undefined]). *)

Inductive value : Type :=
  | VUndefined
  | VNull
  | VBool (b : bool)
  | VNum (n : number)
  | VStr (s : string).

(** [String(v)], also the property key of [obj[v]] and the text of
    [${v}] in a template literal. *)
Definition ToString (v : value) : string :=
  match v with
  | VUndefined => "undefined"
  | VNull => "null"
  | VBool b => if b then "true" else "false"
  | VNum n => numberToString n
  | VStr s => s
  end.

(** ToBoolean: the test of [if (v)], [v || w] and [!v]. *)
Definition truthy (v : value) : bool :=
  match v with
  | VUndefined | VNull => false
  | VBool b => b
  | VNum n => negb (isNaN n || numEq n (ofZ 0))
  | VStr s => negb (isEmptyString s)
  end.

(** [a || b]. *)
Definition logicalOr (a b : value) : value := if truthy a then a else b.

(** [v === s] for a string [s], and [v === n] for a number [n]. *)
Definition strictEqStr (v : value) (s : string) : bool :=
  match v with VStr t => String.eqb t s | _ => false end.

Definition strictEqNum (v : value) (n : number) : bool :=
  match v with VNum m => numEq m n | _ => false end.

(** [parseFloat(v)]: the argument is first converted with [String]. *)
Definition parseFloat (v : value) : number := parseFloatString (ToString v).

(** Arrays are lists: every index below the length holds a value (a hole
    of a sparse array is not modelled).  [arr[i]]: reading past the end
    gives [undefined]. *)
Definition elementAt (arr : list value) (i : nat) : value := nth i arr VUndefined.

(** [arr.findIndex(p)]; [None] stands for -1. *)
Fixpoint findIndexFrom {A} (p : A -> bool) (arr : list A) (i : nat) : option nat :=
  match arr with
  | [] => None
  | x :: arr' => if p x then Some i else findIndexFrom p arr' (S i)
  end.

Definition findIndex {A} (p : A -> bool) (arr : list A) : option nat :=
  findIndexFrom p arr 0.

(** [arr.push(x)]. *)
Definition push {A} (arr : list A) (x : A) : list A := arr ++ [x].

(** ** Ordinary objects

    [const obj = {}] has no own property and inherits from
    [Object.prototype].  The converter stores cells under keys taken from
    a header row, so two keys are special:
    - [obj["__proto__"] = v] runs the inherited setter: it cuts the
      prototype link when [v] is [null] and does nothing for any other
      cell; once the link is cut the assignment creates an own property;
    - an own property [hasOwnProperty] shadows the inherited method with
      a cell, which is not callable.
    [protoNull] records that the prototype link was cut. *)

Record object : Type := mkObject {
  own : gmap string value;
  protoNull : bool
}.

Definition emptyObject : object := mkObject ∅ false.

(** [obj[key] = v]. *)
Definition assign (obj : object) (key : string) (v : value) : object :=
  if String.eqb key "__proto__" && negb (protoNull obj) then
    match v with
    | VNull => mkObject (own obj) true
    | _ => obj
    end
  else mkObject (<[key := v]> (own obj)) (protoNull obj).

(** ** Exceptions and completion of a call *)

Inductive exception : Type :=
  | Error (message : string)
  | TypeError.

Inductive completion (A : Type) : Type :=
  | Return (a : A)
  | Throw (e : exception).
Arguments Return {A} a.
Arguments Throw {A} e.

(** [obj.hasOwnProperty(key)]: the method is found through the prototype
    link unless an own property shadows it; calling anything else is a
    [TypeError]. *)
Definition hasOwnProperty (obj : object) (key : string) : completion bool :=
  if protoNull obj then Throw TypeError
  else match own obj !! "hasOwnProperty" with
       | Some _ => Throw TypeError
       | None =>
           Return (match own obj !! key with Some _ => true | None => false end)
       end.

(** [obj[key]] for a key that is an own property. *)
Definition getProp (obj : object) (key : string) : value :=
  default VUndefined (own obj !! key).

(** ** [Map<string, string>]

    A [Map] keeps its entries in insertion order, and [entries()] shows
    that order; [set] on a present key keeps the key's place. *)

Module Map.
Definition t : Type := list (string * string).

Definition empty : t := [].

Fixpoint get (m : t) (k : string) : option string :=
  match m with
  | [] => None
  | (k', v) :: m' => if String.eqb k' k then Some v else get m' k
  end.

Definition has (m : t) (k : string) : bool :=
  match get m k with Some _ => true | None => false end.

Fixpoint set (m : t) (k v : string) : t :=
  match m with
  | [] => [(k, v)]
  | (k', v') :: m' =>
      if String.eqb k' k then (k', v) :: m' else (k', v') :: set m' k v
  end.

Definition size (m : t) : nat := length m.

Definition entries (m : t) : list (string * string) := m.
End Map.

(** ** The console

    [console.log] and [console.warn] append to a transcript that the
    program can never read back.  An entry keeps the level and the
    arguments of the call. *)

Inductive level : Type := Log | Warn.

Inductive logarg : Type :=
  | AStr (s : string)
  | AInt (n : Z)
  | ARow (r : list value)
  | AEntries (l : list (string * string)).

Definition console : Type := list (level * list logarg).

(** ** Computations: a call runs on the console it finds, completes
    normally or throws, and leaves the console it wrote to. *)

Definition M (A : Type) : Type := console -> completion A * console.

Definition ret {A} (a : A) : M A := fun c => (Return a, c).

Definition throw {A} (e : exception) : M A := fun c => (Throw e, c).

Definition bind {A B} (m : M A) (k : A -> M B) : M B :=
  fun c =>
    match m c with
    | (Return a, c') => k a c'
    | (Throw e, c') => (Throw e, c')
    end.

Definition lift {A} (r : completion A) : M A := fun c => (r, c).

Definition console_log (args : list logarg) : M unit :=
  fun c => (Return tt, c ++ [(Log, args)]).

Definition console_warn (args : list logarg) : M unit :=
  fun c => (Return tt, c ++ [(Warn, args)]).

(** [for (const x of l) { s = body(s, x) }] with the loop's variables
    gathered in [s]. *)
Fixpoint forOf {A St} (l : list A) (body : St -> A -> M St) (s : St) : M St :=
  match l with
  | [] => ret s
  | x :: l' => bind (body s x) (forOf l' body)
  end.

(** Code that does not log completes without touching the console. *)
Definition bindC {A B} (r : completion A) (k : A -> completion B) : completion B :=
  match r with
  | Return a => k a
  | Throw e => Throw e
  end.

Fixpoint forOfC {A St} (l : list A) (body : St -> A -> completion St) (s : St)
  : completion St :=
  match l with
  | [] => Return s
  | x :: l' => bindC (body s x) (forOfC l' body)
  end.

(** [arr.filter(p)] for a predicate that may throw. *)
Fixpoint filterC {A} (p : A -> completion bool) (arr : list A) : completion (list A) :=
  match arr with
  | [] => Return []
  | x :: arr' =>
      bindC (p x) (fun keep =>
      bindC (filterC p arr') (fun rest =>
      Return (if keep then x :: rest else rest)))
  end.

(** [for (let i = from; i <= to; i++)]: the values [i] takes. *)
Definition range (from to : nat) : list nat := seq from (S to - from).

(** [arr.slice(0, n)]. *)
Definition sliceTo {A} (n : nat) (arr : list A) : list A := firstn n arr.

Declare Scope js_scope.
Delimit Scope js_scope with js.
Notation "'let*' x := m 'in' k" := (bind m (fun x => k))
  (at level 10, x pattern, m at level 100, k at level 200) : js_scope.
Notation "m ;; k" := (bind m (fun _ => k))
  (at level 100, k at level 200, right associativity) : js_scope.
Notation "'let?' x := r 'in' k" := (bindC r (fun x => k))
  (at level 10, x pattern, r at level 100, k at level 200) : js_scope.

End JS.

(* ===================================================================== *)
(** * The converter                                                      *)
(* ===================================================================== *)

Module MPAQ.
Import JS.
Local Open Scope js_scope.

(** ** Configuration *)

Definition PLANTS : list string := ["01"; "02"; "03"; "05"; "06"].

Definition AGG_COUNT : nat := 6.
Definition CEM_COUNT : nat := 4.
Definition ADM_COUNT : nat := 8.

Definition FINAL_COLUMNS : list string :=
  [ "Plant Code";
    "Mix Name";
    "Description";
    "Short Description";
    "Item Category";
    "Strength Age (Default 28)";
    "Strength (MPA)";
    "Design Air Content (%)";
    "Min Air Content (%)";
    "Max Air Content (%)";
    "Design Slump (in)";
    "Min Slump (in)";
    "Max Slump (in)";
    "Max Batch Size";
    "Max Water Gallons";
    "Max W/C+P";
    "Max W/C";
    "Mix Class Names, separate with semicolon";
    "Mix Usage";
    "Dispatch Slump Range";
    "Dispatch";
    "Constituent Item Code";
    "Constituent Item Description";
    "Quantity";
    "Unit Name" ].

(** ** Helper functions *)

(** The regular expression of [extractStrength], anchored at position 0:
    one or more digits, an optional point, digits.  Its first group. *)
Definition reLeadingNumber (s : string) : option string :=
  let '(d1, r1) := span isDigit s in
  if isEmptyString d1 then None
  else match r1 with
       | String "." r2 => let '(d2, _) := span isDigit r2 in Some (d1 +:+ "." +:+ d2)
       | _ => Some d1
       end.

Definition extractStrength (name : value) : value :=
  match name with
  | VNull | VUndefined => VStr ""
  | _ =>
      let s := ToString name in
      match reLeadingNumber s with
      | Some m1 => VNum (parseFloatString m1)
      | None => VStr ""
      end
  end.

(** Pattern 1 of [extractSlump] at the head of [s]: an apostrophe, one or
    more digits, an apostrophe, [mm].  Its first group. *)
Definition reQuotedMmAt (s : string) : option string :=
  match s with
  | String "'" r =>
      let '(d, r') := span isDigit r in
      if negb (isEmptyString d) && startsWith "'mm" r' then Some d else None
  | _ => None
  end.

(** Pattern 2 at the head of [s], under the [i] flag: [Slump], one or
    more white-space code units, one or more digits, [mm]. *)
Definition reSlumpMmAt (s : string) : option string :=
  if startsWithCI "Slump" s then
    let '(w, r1) := span isWhiteSpace (dropChars 5 s) in
    let '(d, r2) := span isDigit r1 in
    if negb (isEmptyString w) && negb (isEmptyString d) && startsWithCI "mm" r2
    then Some d else None
  else None.

Definition extractSlump (slumpValue : value) : value :=
  match slumpValue with
  | VNull | VUndefined => VStr ""
  | _ =>
      let slumpStr := ToString slumpValue in
      match search reQuotedMmAt slumpStr with
      | Some m1 => VNum (parseFloatString m1)
      | None =>
          match search reSlumpMmAt slumpStr with
          | Some m2 => VNum (parseFloatString m2)
          | None =>
              let num := parseFloatString slumpStr in
              if negb (isNaN num) then VNum num else VStr ""
          end
      end
  end.

Definition getUnitForMaterialType (matType : string) : string :=
  if String.eqb matType "Aggregate" || String.eqb matType "Cement" then "kg/m^3"
  else if String.eqb matType "Admixture" then "mL/100kg CM"
  else if String.eqb matType "Water" then "L"
  else "".

Definition safeGet (row : object) (col : string) : completion value :=
  let? has := hasOwnProperty row col in
  Return (if has then getProp row col else VStr "").

Definition isEmptyValue (val : value) : bool :=
  match val with
  | VNull | VUndefined => true
  | VStr s => isEmptyString s
  | VNum n => isNaN n
  | VBool _ => false
  end.

Definition isZeroOrEmpty (val : value) : bool :=
  isEmptyValue val || strictEqNum val (ofZ 0) || strictEqStr val "0".

(** ** Main conversion function *)

(** The text of an array index in a template literal; [-1] for "not
    found". *)
Definition indexText (i : option nat) : string :=
  match i with
  | Some n => decString (Z.of_nat n)
  | None => "-1"
  end.

Definition natText (n : nat) : string := decString (Z.of_nat n).

(** The body of the loop over the data rows of the materials file. *)
Definition lookupStep (materialTypeIndex productionCodeIndex : nat)
    (lookup : Map.t) (row : list value) : Map.t :=
  let materialType := elementAt row materialTypeIndex in
  let productionCode := elementAt row productionCodeIndex in
  if truthy materialType && truthy productionCode then
    let matTypeStr := trim (ToString materialType) in
    let prodCodeStr := trim (ToString productionCode) in
    if negb (Map.has lookup matTypeStr)
    then Map.set lookup matTypeStr prodCodeStr
    else lookup
  else lookup.

Definition createMaterialsLookup (materialsData : list (list value)) : M Map.t :=
  let lookup := Map.empty in
  match materialsData with
  | [] => ret lookup
  | headers :: dataRows =>
      console_log [AStr "Materials file headers:"; ARow headers] ;;
      let materialTypeIndex :=
        findIndex (fun h => includes (ToString h) "Material Type"
                            && includes (ToString h) "Required") headers in
      let productionCodeIndex :=
        findIndex (fun h => includes (ToString h) "Production Item Code") headers in
      console_log [AStr ("Found Material Type column at index: "
                         +:+ indexText materialTypeIndex)] ;;
      console_log [AStr ("Found Production Item Code column at index: "
                         +:+ indexText productionCodeIndex)] ;;
      match materialTypeIndex, productionCodeIndex with
      | Some ti, Some ci =>
          let lookup := fold_left (lookupStep ti ci) dataRows lookup in
          console_log [AStr ("Created materials lookup with "
                             +:+ natText (Map.size lookup) +:+ " entries")] ;;
          console_log [AStr "Sample lookup entries:";
                       AEntries (sliceTo 10 (Map.entries lookup))] ;;
          ret lookup
      | _, _ =>
          console_warn [AStr "Could not find required columns in materials file"] ;;
          console_warn [AStr "Looking for: 'Material Type (Required)' and 'Production Item Code'"] ;;
          ret lookup
      end
  end.

(** [headers.forEach((header, index) => { obj[header] = row[index]; })],
    from [index] on. *)
Fixpoint assignCells (headers : list value) (index : nat) (row : list value)
    (obj : object) : object :=
  match headers with
  | [] => obj
  | header :: headers' =>
      assignCells headers' (S index) row
                  (assign obj (ToString header) (elementAt row index))
  end.

(** The callback of [mixData.slice(1).map(...)]. *)
Definition rowToObject (headers row : list value) : object :=
  assignCells headers 0 row emptyObject.

(** The callback of [data.filter(...)]. *)
Definition isValidMix (row : object) : completion bool :=
  let? waterTarget := safeGet row "WaterTarget" in
  Return (negb (isZeroOrEmpty waterTarget) && numGt (parseFloat waterTarget) (ofZ 0)).

(** The three column names of one material slot. *)
Definition slotCols (prefix : string) (i : nat) : string * string * string :=
  (prefix +:+ natText i +:+ "Id",
   prefix +:+ natText i +:+ "Name",
   prefix +:+ natText i +:+ "Target").

Definition materialCols (prefix : string) (count : nat)
  : list (string * string * string) :=
  fold_left (fun cols i => push cols (slotCols prefix i)) (range 1 count) [].

Definition aggCols : list (string * string * string) := materialCols "Agg" AGG_COUNT.
Definition cemCols : list (string * string * string) := materialCols "Cem" CEM_COUNT.
Definition admCols : list (string * string * string) := materialCols "Adm" ADM_COUNT.

Record BaseData : Type := mkBaseData {
  mixName : value;
  description : value;
  shortDescription : value;
  itemCategory : value;
  strengthAge : value;
  strengthMpa : value;
  airContent : value;
  slump : value;
  maxWater : value
}.

Definition buildBaseData (row : object) : completion BaseData :=
  let? mixId := safeGet row "MixId" in
  let? nameVal := safeGet row "Name" in
  let? externalId := safeGet row "ExternalId" in
  let? airFactor := safeGet row "AirFactor" in
  let? slumpVal := safeGet row "Slump" in
  let? waterTarget := safeGet row "WaterTarget" in
  let strengthMpa := extractStrength nameVal in
  let slumpMm := extractSlump slumpVal in
  Return {|
    mixName := mixId;
    description := logicalOr nameVal (VStr "");
    shortDescription := mixId;
    itemCategory := logicalOr externalId (VStr "");
    strengthAge := VNum (ofZ 28);
    strengthMpa := strengthMpa;
    airContent := logicalOr airFactor (VStr "");
    slump := slumpMm;
    maxWater := logicalOr waterTarget (VStr "")
  |}.

(** A constituent: [[matType, matId, matName, matTarget]]. *)
Definition Constituent : Type := string * value * value * value.

(** One of the three loops over material slots. *)
Definition collectSlots (matType : string) (cols : list (string * string * string))
    (row : object) (constituents : list Constituent) : completion (list Constituent) :=
  forOfC cols (fun constituents '(cid, cname, ctarget) =>
    let? matId := safeGet row cid in
    let? matName := safeGet row cname in
    let? matTarget := safeGet row ctarget in
    Return (if negb (isEmptyValue matId) && negb (isZeroOrEmpty matTarget)
            then push constituents (matType, matId, matName, matTarget)
            else constituents)) constituents.

Definition collectConstituents (row : object) : completion (list Constituent) :=
  let constituents := [] in
  let? constituents := collectSlots "Aggregate" aggCols row constituents in
  let? constituents := collectSlots "Cement" cemCols row constituents in
  let? constituents := collectSlots "Admixture" admCols row constituents in
  let? waterTarget := safeGet row "WaterTarget" in
  Return (if negb (isZeroOrEmpty waterTarget)
          then push constituents ("Water", VStr "WATER", VStr "Water", waterTarget)
          else constituents).

(** The body of the loop over the constituents of one plant.  The two
    marks that open the console messages are kept as their UTF-8 bytes. *)
Definition emitRow (materialsLookup : Map.t) (baseData : BaseData) (plant : string)
    (outRows : list (list value)) (c : Constituent) : M (list (list value)) :=
  let '(matType, matId, matName, matTarget) := c in
  let unitName := getUnitForMaterialType matType in
  let matNameStr := trim (ToString (logicalOr matName (VStr ""))) in
  let* productionCode :=
    if negb (isEmptyString matNameStr) && Map.has materialsLookup matNameStr then
      let productionCode := VStr (default "" (Map.get materialsLookup matNameStr)) in
      console_log [AStr ("✓ Mapped " +:+ matNameStr +:+ " (" +:+ ToString matId
                         +:+ ") -> " +:+ ToString productionCode)] ;;
      ret productionCode
    else if negb (String.eqb matType "Water") && negb (isEmptyString matNameStr) then
      console_warn [AStr ("✗ No lookup found for material: " +:+ matNameStr
                          +:+ " (ID: " +:+ ToString matId +:+ ")")] ;;
      console_warn [AStr ("  Lookup has " +:+ natText (Map.size materialsLookup)
                          +:+ " entries. First 5:");
                    AEntries (sliceTo 5 (Map.entries materialsLookup))] ;;
      ret matId
    else ret matId in
  let outRow :=
    [ VStr plant;
      mixName baseData;
      description baseData;
      shortDescription baseData;
      itemCategory baseData;
      strengthAge baseData;
      strengthMpa baseData;
      airContent baseData;
      VStr "";
      VStr "";
      slump baseData;
      VStr "";
      VStr "";
      VStr "";
      maxWater baseData;
      VStr "";
      VStr "";
      VStr "";
      VStr "";
      VStr "";
      VStr "";
      productionCode;
      logicalOr matName (VStr "");
      logicalOr matTarget (VStr "");
      VStr unitName ] in
  ret (push outRows outRow).

(** The body of the loop over the valid mixes; [idx] is the loop index. *)
Definition processMix (materialsLookup : Map.t) (total : nat)
    (outRows : list (list value)) (ir : nat * object) : M (list (list value)) :=
  let '(idx, row) := ir in
  let* baseData := lift (buildBaseData row) in
  let* constituents := lift (collectConstituents row) in
  let* outRows :=
    forOf PLANTS (fun outRows plant =>
      forOf constituents (emitRow materialsLookup baseData plant) outRows) outRows in
  (if ((idx + 1) mod 50 =? 0)%nat
   then console_log [AStr ("Processed " +:+ natText (idx + 1) +:+ "/"
                           +:+ natText total +:+ " valid mixes...")]
   else ret tt) ;;
  ret outRows.

(** [arr] with the index of each element, as a counting loop visits it. *)
Definition indexed {A} (arr : list A) : list (nat * A) :=
  combine (seq 0 (length arr)) arr.

(** The header row pushed first is the constant [FINAL_COLUMNS] itself;
    the converter never assigns to a cell of it. *)
Definition convertMPAQMixes (mixData : list (list value))
    (materialsData : option (list (list value))) : M (list (list value)) :=
  console_log [AStr "Starting MPAQ Mixes conversion..."] ;;
  console_log [AStr "Mix data rows:"; AInt (Z.of_nat (length mixData))] ;;
  match materialsData with
  | Some md => console_log [AStr "Materials data rows:"; AInt (Z.of_nat (length md))]
  | None => ret tt
  end ;;
  let* materialsLookup :=
    match materialsData with
    | Some md => createMaterialsLookup md
    | None => ret Map.empty
    end in
  (if (Map.size materialsLookup =? 0)%nat
   then console_warn [AStr "Warning: No materials lookup available. Using raw material IDs."]
   else ret tt) ;;
  match mixData with
  | [] => throw (Error "Mix data is empty")
  | headers :: dataRows =>
      console_log [AStr "Mix headers:"; ARow headers] ;;
      let data := map (rowToObject headers) dataRows in
      console_log [AStr "Converted to objects:"; AInt (Z.of_nat (length data)); AStr "rows"] ;;
      let* validMixes := lift (filterC isValidMix data) in
      console_log [AStr ("Filtered to " +:+ natText (length validMixes)
                         +:+ " valid mixes (WaterTarget > 0)")] ;;
      match validMixes with
      | [] => throw (Error "No valid mixes found with WaterTarget > 0")
      | first :: _ =>
          let* hasMixId := lift (hasOwnProperty first "MixId") in
          let* hasName := if hasMixId then lift (hasOwnProperty first "Name") else ret false in
          if negb hasMixId || negb hasName then
            throw (Error "Input file must contain 'MixId' and 'Name' columns.")
          else
            let outRows := [] in
            let outRows := push outRows (map VStr FINAL_COLUMNS) in
            let* outRows :=
              forOf (indexed validMixes)
                    (processMix materialsLookup (length validMixes)) outRows in
            console_log [AStr "Conversion complete. Output rows:";
                         AInt (Z.of_nat (length outRows) - 1)] ;;
            ret outRows
      end
  end.

End MPAQ.

(* ===================================================================== *)
(** * What a call computes                                               *)
(* ===================================================================== *)

Import JS MPAQ.
Local Open Scope js_scope.

Definition table : Type := list (list value).

(** The completion of a call started on the console [c]. *)
Definition completionOf {A} (m : M A) (c : console) : completion A := (m c).1.

(** [completes m r]: from every console, [m] completes with [r] and
    leaves the console it found, extended by one and the same transcript. *)
Definition completes {A} (m : M A) (r : completion A) : Prop :=
  exists t : console, forall c, m c = (r, c ++ t).

(** ** Records read without side conditions *)

(** The cell of a record under a column name; the empty string when the
    record has no such key (what [safeGet] returns when it returns). *)
Definition cell (row : object) (col : string) : value :=
  match own row !! col with Some v => v | None => VStr "" end.

Definition hasColumn (row : object) (col : string) : bool :=
  match own row !! col with Some _ => true | None => false end.

(** [row.hasOwnProperty] is the inherited method. *)
Definition callable (row : object) : bool :=
  negb (protoNull row) && negb (hasColumn row "hasOwnProperty").

(** The filter, as the specification words it: [WaterTarget] parses to a
    number greater than 0. *)
Definition keptByFilter (row : object) : bool :=
  numGt (parseFloat (cell row "WaterTarget")) (ofZ 0).

Definition baseDataOf (row : object) : BaseData :=
  {| mixName := cell row "MixId";
     description := logicalOr (cell row "Name") (VStr "");
     shortDescription := cell row "MixId";
     itemCategory := logicalOr (cell row "ExternalId") (VStr "");
     strengthAge := VNum (ofZ 28);
     strengthMpa := extractStrength (cell row "Name");
     airContent := logicalOr (cell row "AirFactor") (VStr "");
     slump := extractSlump (cell row "Slump");
     maxWater := logicalOr (cell row "WaterTarget") (VStr "") |}.

(** The constituent of one material slot, if the slot is in use. *)
Definition slotConstituent (matType : string) (row : object)
    (cols : string * string * string) : option Constituent :=
  let '(cid, cname, ctarget) := cols in
  if negb (isEmptyValue (cell row cid)) && negb (isZeroOrEmpty (cell row ctarget))
  then Some (matType, cell row cid, cell row cname, cell row ctarget)
  else None.

Definition slotsOf (matType : string) (cols : list (string * string * string))
    (row : object) : list Constituent :=
  omap (slotConstituent matType row) cols.

Definition waterOf (row : object) : Constituent :=
  ("Water", VStr "WATER", VStr "Water", cell row "WaterTarget").

Definition constituentsOf (row : object) : list Constituent :=
  slotsOf "Aggregate" aggCols row
  ++ slotsOf "Cement" cemCols row
  ++ slotsOf "Admixture" admCols row
  ++ (if negb (isZeroOrEmpty (cell row "WaterTarget")) then [waterOf row] else []).

(** The name under which a constituent is looked up. *)
Definition lookupName (c : Constituent) : string :=
  let '(_, _, matName, _) := c in trim (ToString (logicalOr matName (VStr ""))).

Definition rawId (c : Constituent) : value :=
  let '(_, matId, _, _) := c in matId.

Definition productionCodeOf (lookup : Map.t) (c : Constituent) : value :=
  if negb (isEmptyString (lookupName c)) && Map.has lookup (lookupName c)
  then VStr (default "" (Map.get lookup (lookupName c)))
  else rawId c.

(** The cells of an output row after the plant code. *)
Definition rowTail (lookup : Map.t) (b : BaseData) (c : Constituent) : list value :=
  let '(matType, matId, matName, matTarget) := c in
  [ mixName b; description b; shortDescription b; itemCategory b;
    strengthAge b; strengthMpa b; airContent b;
    VStr ""; VStr ""; slump b; VStr ""; VStr ""; VStr "";
    maxWater b; VStr ""; VStr ""; VStr ""; VStr ""; VStr ""; VStr "";
    productionCodeOf lookup c;
    logicalOr matName (VStr ""); logicalOr matTarget (VStr "");
    VStr (getUnitForMaterialType matType) ].

Definition outRowOf (lookup : Map.t) (b : BaseData) (plant : string)
    (c : Constituent) : list value :=
  VStr plant :: rowTail lookup b c.

(** The rows of one valid mix: plants outside, constituents inside. *)
Definition mixRows (lookup : Map.t) (row : object) : table :=
  flat_map (fun plant => map (outRowOf lookup (baseDataOf row) plant)
                             (constituentsOf row)) PLANTS.

(** The columns of the materials table, found by their header text. *)
Definition materialTypeColumn (headers : list value) : option nat :=
  findIndex (fun h => includes (ToString h) "Material Type"
                      && includes (ToString h) "Required") headers.

Definition productionCodeColumn (headers : list value) : option nat :=
  findIndex (fun h => includes (ToString h) "Production Item Code") headers.

(** The lookup a call builds from its second argument. *)
Definition lookupOf (materialsData : option table) : Map.t :=
  match materialsData with
  | Some (headers :: dataRows) =>
      match materialTypeColumn headers, productionCodeColumn headers with
      | Some ti, Some ci => fold_left (lookupStep ti ci) dataRows Map.empty
      | _, _ => Map.empty
      end
  | _ => Map.empty
  end.

(** The records of a mix table, and those the filter keeps. *)
Definition recordsOf (headers : list value) (dataRows : table) : list object :=
  map (rowToObject headers) dataRows.

Definition validMixesOf (headers : list value) (dataRows : table) : list object :=
  List.filter keptByFilter (recordsOf headers dataRows).

(** The three fatal conditions of the specification, by their message. *)
Definition EmptyInput : exception := Error "Mix data is empty".
Definition NoValidRows : exception := Error "No valid mixes found with WaterTarget > 0".
Definition MissingRequiredColumns : exception :=
  Error "Input file must contain 'MixId' and 'Name' columns.".

(** The completion of [convertMPAQMixes], read off the inputs. *)
Definition convertResult (mixData : table) (materialsData : option table)
  : completion table :=
  match mixData with
  | [] => Throw EmptyInput
  | headers :: dataRows =>
      if forallb callable (recordsOf headers dataRows) then
        match validMixesOf headers dataRows with
        | [] => Throw NoValidRows
        | first :: rest =>
            if hasColumn first "MixId" && hasColumn first "Name" then
              Return (map VStr FINAL_COLUMNS
                      :: flat_map (mixRows (lookupOf materialsData)) (first :: rest))
            else Throw MissingRequiredColumns
        end
      else Throw TypeError
  end.

(* ===================================================================== *)
(** * Notions the properties are stated with                             *)
(* ===================================================================== *)

(** ** Columns of a destination row, by their title *)

Definition columnIndex (title : string) : option nat :=
  findIndex (String.eqb title) FINAL_COLUMNS.

Definition column (title : string) (row : list value) : option value :=
  match columnIndex title with
  | Some i => row !! i
  | None => None
  end.

(** ** Row count *)

(** Slot [i] of a material block is in use: its Id is non-empty and its
    Target is not zero-or-empty. *)
Definition slotInUse (row : object) (prefix : string) (i : nat) : bool :=
  negb (isEmptyValue (cell row (prefix +:+ natText i +:+ "Id")))
  && negb (isZeroOrEmpty (cell row (prefix +:+ natText i +:+ "Target"))).

Definition slotsInUse (row : object) (prefix : string) (count : nat) : nat :=
  length (List.filter (slotInUse row prefix) (seq 1 count)).

(** Aggregate slots 1-6, cement slots 1-4, admixture slots 1-8, and one
    for the water. *)
Definition constituentCount (row : object) : nat :=
  slotsInUse row "Agg" 6 + slotsInUse row "Cem" 4 + slotsInUse row "Adm" 8 + 1.

(** ** Patterns of [extractSlump], said without a matcher *)

Fixpoint allChars (p : ascii -> bool) (s : string) : bool :=
  match s with
  | EmptyString => true
  | String c s' => p c && allChars p s'
  end.

(** What follows a greedy run does not belong to the class. *)
Definition stopsAt (p : ascii -> bool) (s : string) : Prop :=
  match s with
  | EmptyString => True
  | String c _ => p c = false
  end.

(** Equal up to the case of ASCII letters. *)
Fixpoint equalCI (a b : string) : bool :=
  match a, b with
  | EmptyString, EmptyString => true
  | String x a', String y b' =>
      Ascii.eqb (canonicalize x) (canonicalize y) && equalCI a' b'
  | _, _ => false
  end.

(** [suf] begins with an apostrophe, the digits [d], an apostrophe, [mm]. *)
Definition QuotedMmHead (suf d : string) : Prop :=
  exists post, suf = "'" +:+ d +:+ "'mm" +:+ post
               /\ d <> EmptyString /\ allChars isDigit d = true.

(** [suf] begins with the word Slump, white space, the digits [d], [mm],
    letters in either case. *)
Definition SlumpMmHead (suf d : string) : Prop :=
  exists kw ws u post,
    suf = kw +:+ ws +:+ d +:+ u +:+ post
    /\ equalCI "Slump" kw = true
    /\ ws <> EmptyString /\ allChars isWhiteSpace ws = true
    /\ d <> EmptyString /\ allChars isDigit d = true
    /\ equalCI "mm" u = true.

(** The pattern [head] occurs in [s] after the prefix [pre], with the
    digits [d]; occurs first there; occurs nowhere. *)
Definition OccursIn (head : string -> string -> Prop) (s pre d : string) : Prop :=
  exists suf, s = pre +:+ suf /\ head suf d.

Definition FirstOccurrence (head : string -> string -> Prop) (s d : string) : Prop :=
  exists pre, OccursIn head s pre d
              /\ forall pre' d', OccursIn head s pre' d'
                                 -> String.length pre <= String.length pre'.

Definition NoOccurrence (head : string -> string -> Prop) (s : string) : Prop :=
  forall pre d, ~ OccursIn head s pre d.

(** The number a run of digits denotes. *)
Definition numberOfDigits (d : string) : number := ofDecimal false (digitsValue 0 d) 0.

(** Step (c) as the specification words it: the entire trimmed string is
    a bare number. *)
Definition wholeNumberSpec (s : string) : option number :=
  match strDecimalLiteral (trim s) with
  | Some (n, EmptyString) => Some n
  | _ => None
  end.

(** The extraction ladder as the specification words it. *)
Definition extractSlumpSpec (slumpValue : value) : value :=
  match slumpValue with
  | VNull | VUndefined => VStr ""
  | _ =>
      let s := ToString slumpValue in
      match search reQuotedMmAt s with
      | Some d => VNum (numberOfDigits d)
      | None =>
          match search reSlumpMmAt s with
          | Some d => VNum (numberOfDigits d)
          | None =>
              match wholeNumberSpec s with
              | Some n => VNum n
              | None => VStr ""
              end
          end
      end
  end.

(** ** Materials table *)

(** The name a data row of the materials table bears, if its name cell is
    truthy, and the code such a row carries. *)
Definition rowName (ti : nat) (row : list value) : option string :=
  if truthy (elementAt row ti) then Some (trim (ToString (elementAt row ti)))
  else None.

Definition rowCode (ci : nat) (row : list value) : string :=
  trim (ToString (elementAt row ci)).

(** The code of the first row bearing the name [k], as the specification
    words it. *)
Definition firstRowCodeSpec (ti ci : nat) (rows : table) (k : string) : option string :=
  match List.find (fun row => bool_decide (rowName ti row = Some k)) rows with
  | Some row => Some (rowCode ci row)
  | None => None
  end.

(** The same among the rows whose code cell is truthy: not the empty
    text, null, undefined, false, 0 or NaN. *)
Definition firstStoredCode (ti ci : nat) (rows : table) (k : string) : option string :=
  match List.find (fun row => bool_decide (rowName ti row = Some k)
                              && truthy (elementAt row ci)) rows with
  | Some row => Some (rowCode ci row)
  | None => None
  end.

(** ** Item code *)

(** The Constituent Item Code as the specification words it: the entry
    under the trimmed material name when there is one, else the raw id. *)
Definition itemCodeSpec (lookup : Map.t) (c : Constituent) : value :=
  let '(_, matId, matName, _) := c in
  match Map.get lookup (trim (ToString matName)) with
  | Some code => VStr code
  | None => matId
  end.

(** ** Sample inputs *)

Definition str (s : string) : value := VStr s.

(** The scenario of the specification: one mix, water only. *)
Definition sampleMixes : table :=
  [ [str "MixId"; str "Name"; str "WaterTarget"; str "Slump"];
    [str "M1"; str "30 MPA"; str "180"; str "Slump 90mm"] ].

(** Two mixes around a record without water; the first has an aggregate
    and a cement. *)
Definition sampleMixes2 : table :=
  [ [str "MixId"; str "Name"; str "WaterTarget"; str "Agg1Id"; str "Agg1Name";
     str "Agg1Target"; str "Cem1Id"; str "Cem1Name"; str "Cem1Target"];
    [str "M1"; str "25 MPA"; VNum (ofZ 180); str "A1"; str "Sand"; VNum (ofZ 800);
     str "C1"; str "Cement"; VNum (ofZ 300)];
    [str "M2"; str "Void"; VNum (ofZ 0); str "A1"; str "Sand"; VNum (ofZ 800);
     str "C1"; str "Cement"; VNum (ofZ 300)];
    [str "M3"; str "0.4 Mpa fill"; str "150.5"; str ""; str ""; VNum (ofZ 0);
     VNull; VNull; VNull] ].

Definition sampleMaterials : table :=
  [ [str "Material Type (Required)"; str "Production Item Code"];
    [str "Cement"; str "CEM-1"];
    [str " Cement "; str "CEM-2"];
    [str "Sand"; str " AGG-7 "] ].

(** A table without the MixId column and without a valid record. *)
Definition noMixIdNoWater : table :=
  [ [str "Name"; str "WaterTarget"];
    [str "30 MPA"; str "0"] ].

(** A table without the MixId column, with a valid record. *)
Definition noMixIdWater : table :=
  [ [str "Name"; str "WaterTarget"];
    [str "30 MPA"; str "180"] ].

(** A materials table whose first Cement row has no code. *)
Definition codelessFirst : table :=
  [ [str "Material Type (Required)"; str "Production Item Code"];
    [str "Cement"; str ""];
    [str "Cement"; str "C2"] ].

(** A materials table whose first Cement row has the number 0 for a
    code: a cell that is not empty, and falsy. *)
Definition zeroCodeFirst : table :=
  [ [str "Material Type (Required)"; str "Production Item Code"];
    [str "Cement"; VNum (ofZ 0)];
    [str "Cement"; str "C2"] ].

(** A materials table with a blank name, and a mix with an unnamed
    aggregate. *)
Definition blankNameMaterials : table :=
  [ [str "Material Type (Required)"; str "Production Item Code"];
    [str " "; str "X"] ].

Definition unnamedAggregate : table :=
  [ [str "MixId"; str "Name"; str "WaterTarget"; str "Agg1Id"; str "Agg1Target"];
    [str "M1"; str "30 MPA"; str "180"; str "A1"; str "800"] ].

(* ===================================================================== *)
(** * Further notions: cells, columns and constituents                   *)
(* ===================================================================== *)

(** ** Numbers at the head of a text *)

(** The number that the digits [d], a point and the digits [f] denote. *)
Definition decimalNumber (d f : string) : number :=
  ofDecimal false (digitsValue 0 (d +:+ f)) (- Z.of_nat (String.length f)).

(** [m] is the number text at the head of [s], as the pattern of
    [extractStrength] takes it: the digits [d] when neither a digit nor a
    point follows them, or the digits [d], a point and the digits [f]
    when no digit follows. *)
Definition LeadingNumber (s m : string) : Prop :=
  (exists d rest,
      s = d +:+ rest /\ d <> "" /\ allChars isDigit d = true
      /\ stopsAt isDigit rest /\ stopsAt (Ascii.eqb ".") rest /\ m = d)
  \/ (exists d f rest,
        s = d +:+ "." +:+ f +:+ rest /\ d <> "" /\ allChars isDigit d = true
        /\ allChars isDigit f = true /\ stopsAt isDigit rest
        /\ m = d +:+ "." +:+ f).

(** ** Constituents *)

Definition matTypeOf (c : Constituent) : string :=
  let '(matType, _, _, _) := c in matType.

Definition matNameOf (c : Constituent) : value :=
  let '(_, _, matName, _) := c in matName.

Definition matTargetOf (c : Constituent) : value :=
  let '(_, _, _, matTarget) := c in matTarget.

(** The Unit Name cells of one plant block of a mix: aggregates and
    cements, then admixtures, then the water. *)
Definition unitsOfBlock (mix : object) : list (option value) :=
  replicate (slotsInUse mix "Agg" 6 + slotsInUse mix "Cem" 4) (Some (VStr "kg/m^3"))
  ++ replicate (slotsInUse mix "Adm" 8) (Some (VStr "mL/100kg CM"))
  ++ [Some (VStr "L")].

(** ** Header rows *)

Definition isNull (v : value) : bool :=
  match v with VNull => true | _ => false end.

(** The last column whose header text is [col], from [index] on. *)
Fixpoint lastColumnFrom (col : string) (headers : list value) (index : nat)
  : option nat :=
  match headers with
  | [] => None
  | h :: headers' =>
      match lastColumnFrom col headers' (S index) with
      | Some i => Some i
      | None => if String.eqb (ToString h) col then Some index else None
      end
  end.

Definition lastColumnOf (headers : list value) (col : string) : option nat :=
  lastColumnFrom col headers 0.

(** A header cell reads [__proto__] over a [null] cell of the data row:
    the assignment cuts the prototype link of the record. *)
Definition cutsPrototype (headers row : list value) : Prop :=
  exists i h, headers !! i = Some h /\ ToString h = "__proto__" /\ elementAt row i = VNull.

(** ** The lookup *)

(** What the loop over the materials rows keeps true of the lookup after
    [rows] rows: distinct keys, keys and codes without white space around
    them, no more entries than rows. *)
Definition lookupInvariant (rows : nat) (lookup : Map.t) : Prop :=
  NoDup (map fst (Map.entries lookup))
  /\ Forall (fun kv : string * string => trim kv.1 = kv.1 /\ trim kv.2 = kv.2)
            (Map.entries lookup)
  /\ Map.size lookup <= rows.

(** ** Columns the converter reads *)

(** The column names under which the converter reads a record. *)
Definition readColumns : list string :=
  ["MixId"; "Name"; "ExternalId"; "AirFactor"; "Slump"; "WaterTarget"]
  ++ flat_map (fun cols : string * string * string =>
                 let '(cid, cname, ctarget) := cols in [cid; cname; ctarget])
              (aggCols ++ cemCols ++ admCols).

(** Two records that the converter cannot tell apart. *)
Definition sameForConverter (a b : object) : Prop :=
  callable a = callable b
  /\ forall col, In col readColumns ->
       cell a col = cell b col /\ hasColumn a col = hasColumn b col.

(* ===================================================================== *)
(** * The earlier revision of the converter

    The second document of client/src/components/PreviewSection.tsx holds
    the revision of [convertMPAQMixes] that precedes the materials lookup:
    the constants and helper functions are those of [MPAQ], letter for
    letter; the main function logs the size of the materials table and
    otherwise leaves it unused, and a row carries the raw material id. *)
(* ===================================================================== *)

Module Earlier.

(** The body of the loop over the constituents of one plant. *)
Definition emitRow (baseData : BaseData) (plant : string)
    (outRows : list (list value)) (c : Constituent) : M (list (list value)) :=
  let '(matType, matId, matName, matTarget) := c in
  let unitName := getUnitForMaterialType matType in
  let outRow :=
    [ VStr plant;
      mixName baseData;
      description baseData;
      shortDescription baseData;
      itemCategory baseData;
      strengthAge baseData;
      strengthMpa baseData;
      airContent baseData;
      VStr "";
      VStr "";
      slump baseData;
      VStr "";
      VStr "";
      VStr "";
      maxWater baseData;
      VStr "";
      VStr "";
      VStr "";
      VStr "";
      VStr "";
      VStr "";
      matId;
      logicalOr matName (VStr "");
      logicalOr matTarget (VStr "");
      VStr unitName ] in
  ret (push outRows outRow).

(** The body of the loop over the valid mixes. *)
Definition processMix (total : nat)
    (outRows : list (list value)) (ir : nat * object) : M (list (list value)) :=
  let '(idx, row) := ir in
  let* baseData := lift (buildBaseData row) in
  let* constituents := lift (collectConstituents row) in
  let* outRows :=
    forOf PLANTS (fun outRows plant =>
      forOf constituents (emitRow baseData plant) outRows) outRows in
  (if ((idx + 1) mod 50 =? 0)%nat
   then console_log [AStr ("Processed " +:+ natText (idx + 1) +:+ "/"
                           +:+ natText total +:+ " valid mixes...")]
   else ret tt) ;;
  ret outRows.

Definition convertMPAQMixes (mixData : list (list value))
    (materialsData : option (list (list value))) : M (list (list value)) :=
  console_log [AStr "Starting MPAQ Mixes conversion..."] ;;
  console_log [AStr "Mix data rows:"; AInt (Z.of_nat (length mixData))] ;;
  match materialsData with
  | Some md => console_log [AStr "Materials data rows:"; AInt (Z.of_nat (length md))]
  | None => ret tt
  end ;;
  match mixData with
  | [] => throw (Error "Mix data is empty")
  | headers :: dataRows =>
      console_log [AStr "Mix headers:"; ARow headers] ;;
      let data := map (rowToObject headers) dataRows in
      console_log [AStr "Converted to objects:"; AInt (Z.of_nat (length data)); AStr "rows"] ;;
      let* validMixes := lift (filterC isValidMix data) in
      console_log [AStr ("Filtered to " +:+ natText (length validMixes)
                         +:+ " valid mixes (WaterTarget > 0)")] ;;
      match validMixes with
      | [] => throw (Error "No valid mixes found with WaterTarget > 0")
      | first :: _ =>
          let* hasMixId := lift (hasOwnProperty first "MixId") in
          let* hasName := if hasMixId then lift (hasOwnProperty first "Name") else ret false in
          if negb hasMixId || negb hasName then
            throw (Error "Input file must contain 'MixId' and 'Name' columns.")
          else
            let outRows := [] in
            let outRows := push outRows (map VStr FINAL_COLUMNS) in
            let* outRows :=
              forOf (indexed validMixes) (processMix (length validMixes)) outRows in
            console_log [AStr "Conversion complete. Output rows:";
                         AInt (Z.of_nat (length outRows) - 1)] ;;
            ret outRows
      end
  end.

End Earlier.

(* ===================================================================== *)
(** * The Command Series converter

    [processData] of the first revision of client/src/pages/Home.tsx: the
    rows of a Command Series export, projected onto the 25 columns of the
    import sheet, without the air components. *)
(* ===================================================================== *)

Module CommandSeries.

(** The four header rows of the template. *)
Definition headers : list (list value) :=
  [ [VNull; VNull; VNull; VNull; VNull; VNull; VNull; VNull; VNull; VNull; VNull;
     VNull; VNull; VNull; VNull; VNull; VNull; VNull; VNull; VStr "Dispatch"; VNull;
     VNull; VNull; VNull; VNull];
    [VNull; VNull; VNull; VNull; VNull; VStr "Strength Age"; VNull; VStr "Design";
     VStr "Minimum"; VStr "Maximum"; VStr "Design"; VStr "Minimum"; VStr "Maximum";
     VStr "Max"; VStr "Max"; VStr "Max"; VStr "Max"; VStr "Mix Class Names"; VNull;
     VStr "Slump"; VNull; VStr "Constituent"; VStr "Constituent"; VNull; VStr "Unit"];
    [VStr "Plant Code"; VStr "Mix Name"; VStr "Description"; VStr "Short Description";
     VStr "Item Category"; VStr "(Default - 28)"; VStr "Strength"; VStr "Air Content";
     VStr "Air Content"; VStr "Air Content"; VStr "Slump"; VStr "Slump"; VStr "Slump";
     VStr "Batch Size"; VStr "Water"; VStr "W/C+P"; VStr "W/C";
     VStr "(Separate Mix Classes With A Semicolon (;))"; VStr "Mix Usage"; VStr "Range";
     VNull; VStr "Item Code"; VStr "Item Description"; VStr "Quantity"; VStr "Name"];
    [VStr "(Required)"; VStr "(Required)"; VNull; VNull; VNull; VStr "(Days)";
     VStr "(PSI)"; VStr "(%)"; VStr "(%)"; VStr "(%)"; VStr "(in)"; VStr "(in)";
     VStr "(in)"; VStr "(Unitless)"; VStr "(gal)"; VStr "(Ratio)"; VStr "(Ratio)";
     VNull; VNull; VStr "(Text)"; VNull; VStr "(Required)"; VNull; VStr "(Required)";
     VStr "(Required)"] ].

(** One number of the pattern of [parseRange] at the head of [s]: one or
    more digits, an optional point, digits.  Its text and what follows.
    Taking the longest run at each step loses no match: what must come
    next (white space, the hyphen, the end of the text) is neither a
    digit nor a point. *)
Definition reNumberAt (s : string) : option (string * string) :=
  let '(d1, r1) := span isDigit s in
  if isEmptyString d1 then None
  else match r1 with
       | String "." r2 =>
           let '(d2, r3) := span isDigit r2 in Some (d1 +:+ "." +:+ d2, r3)
       | _ => Some (d1, r1)
       end.

(** The pattern of [parseRange], anchored at both ends of the text: a
    number, white space if any, a hyphen, white space if any, a number.
    Its two groups. *)
Definition reRange (s : string) : option (string * string) :=
  match reNumberAt s with
  | Some (m1, r1) =>
      let '(_, r2) := span isWhiteSpace r1 in
      match r2 with
      | String "-" r3 =>
          let '(_, r4) := span isWhiteSpace r3 in
          match reNumberAt r4 with
          | Some (m2, r5) => if isEmptyString r5 then Some (m1, m2) else None
          | None => None
          end
      | _ => None
      end
  | None => None
  end.

(** The pair [[min, max]] of a range such as 10-20. *)
Definition parseRange (rangeStr : value) : value * value :=
  if negb (truthy rangeStr) then (VNull, VNull)
  else
    let str := trim (ToString rangeStr) in
    match reRange str with
    | Some (m1, m2) => (VNum (parseFloatString m1), VNum (parseFloatString m2))
    | None => (VNull, VNull)
    end.

(** [String.prototype.toUpperCase] on the strings of the model, code unit
    by code unit.  The upper case of the code units 181 and 255 lies
    beyond code unit 255: the upper case of a text that holds one of them
    is no string of the model, and there is no result. *)
Definition upperOf (c : ascii) : option string :=
  let n := code c in
  if (97 <=? n)%nat && (n <=? 122)%nat then Some (String (ascii_of_nat (n - 32)) "")
  else if (n =? 223)%nat then Some "SS"
  else if (224 <=? n)%nat && (n <=? 254)%nat && negb (n =? 247)%nat
  then Some (String (ascii_of_nat (n - 32)) "")
  else if (n =? 181)%nat || (n =? 255)%nat then None
  else Some (String c "").

Fixpoint toUpperCase (s : string) : option string :=
  match s with
  | EmptyString => Some EmptyString
  | String c s' =>
      match upperOf c, toUpperCase s' with
      | Some u, Some r => Some (u +:+ r)
      | _, _ => None
      end
  end.

(** [x === w] for an upper-cased text [x] and a word [w] of the model: a
    text that is no string of the model holds a code unit beyond 255 and
    is not [w]. *)
Definition strictEqText (x : option string) (w : string) : bool :=
  match x with
  | Some u => String.eqb u w
  | None => false
  end.

(** The body of the loop over the source rows, after the test for an
    empty row: [new Array(25).fill(null)] and the assignments to it. *)
Definition convertRow (row : list value) : list value :=
  let newRow := replicate 25 VNull in
  let newRow := <[0 := elementAt row 0]> newRow in
  let newRow := <[1 := elementAt row 2]> newRow in
  let newRow := <[2 := elementAt row 3]> newRow in
  let newRow := <[6 := elementAt row 7]> newRow in
  let newRow := <[7 := elementAt row 9]> newRow in
  let '(minAir, maxAir) := parseRange (elementAt row 10) in
  let newRow := <[8 := minAir]> newRow in
  let newRow := <[9 := maxAir]> newRow in
  let newRow := <[10 := elementAt row 11]> newRow in
  let '(minSlump, maxSlump) := parseRange (elementAt row 12) in
  let newRow := <[11 := minSlump]> newRow in
  let newRow := <[12 := maxSlump]> newRow in
  let newRow := <[21 := elementAt row 14]> newRow in
  let newRow := <[22 := elementAt row 15]> newRow in
  let newRow := <[23 := elementAt row 18]> newRow in
  let newRow := <[24 := elementAt row 19]> newRow in
  newRow.

(** The callback of [outputData.filter((row, index) => ...)]. *)
Definition keepRow (row : list value) (index : nat) : bool :=
  if (index <? 4)%nat then true
  else
    let colV := elementAt row 21 in
    let colW := elementAt row 22 in
    if truthy colV && truthy colW
       && strictEqText (toUpperCase (trim (ToString colV))) "AIR"
       && strictEqText (toUpperCase (trim (ToString colW))) "AIR"
    then false else true.

(** [arr.filter((x, index) => p(x, index))], from [index] on. *)
Fixpoint filterFrom {A} (p : A -> nat -> bool) (arr : list A) (index : nat) : list A :=
  match arr with
  | [] => []
  | x :: arr' =>
      if p x index then x :: filterFrom p arr' (S index) else filterFrom p arr' (S index)
  end.

(** [processData], up to the table [filteredData] from which the sheet
    Mix Import of the returned workbook is made.  The loop over the source
    starts at index 1. *)
Definition processData (sourceData : list (list value)) : list (list value) :=
  let outputData := headers in
  let outputData :=
    fold_left (fun outputData row =>
                 if (length row =? 0)%nat then outputData
                 else push outputData (convertRow row)) (tl sourceData) outputData in
  let filteredData := filterFrom keepRow outputData 0 in
  filteredData.

End CommandSeries.

(** ** Notions for the Command Series converter *)

(** The text of a number of a range: digits, or digits, a point, digits. *)
Definition NumberText (m : string) : Prop :=
  exists d f, d <> "" /\ allChars isDigit d = true /\ allChars isDigit f = true
              /\ (m = d \/ m = d +:+ "." +:+ f).

(** The text of a range: a number, a hyphen, a number, white space allowed
    around the hyphen. *)
Definition RangeText (s m1 m2 : string) : Prop :=
  exists w1 w2,
    s = m1 +:+ w1 +:+ "-" +:+ w2 +:+ m2
    /\ NumberText m1 /\ NumberText m2
    /\ allChars isWhiteSpace w1 = true /\ allChars isWhiteSpace w2 = true.

(** The test the filter makes on a cell: the cell is truthy and its text,
    trimmed and put in upper case, is the word AIR. *)
Definition readsAIR (v : value) : bool :=
  truthy v
  && CommandSeries.strictEqText (CommandSeries.toUpperCase (trim (ToString v))) "AIR".

(** The source rows [processData] converts: not empty, and not an air
    component (Item Code and Item Description both pass the test). *)
Definition convertedRow (row : list value) : bool :=
  negb (length row =? 0)%nat
  && negb (readsAIR (elementAt row 14) && readsAIR (elementAt row 15)).

(** A Command Series export: the title row, a cement, an air component,
    an empty row, and an admixture that only has Air for a code. *)
Definition seriesRow (code description : string) : list value :=
  replicate 14 VNull ++ [str code; str description].

Definition sampleSeries : table :=
  [ [str "Plant"; str "Mix"];
    seriesRow "C1" "Cement";
    seriesRow " air " "Air";
    [];
    seriesRow "Air" "Air entrainer" ].

(* ===================================================================== *)
(** * The console of a call                                              *)
(* ===================================================================== *)

(** [completesWith m r last]: as [completes], and the transcript ends with
    [last]. *)
Definition completesWith {A} (m : M A) (r : completion A) (last : console) : Prop :=
  exists t : console, forall c, m c = (r, c ++ t ++ last).

(** The entries the converter opens with, its warning about an empty
    lookup, and the entry it closes with. *)
Definition openingEntries (mixData : table) : console :=
  [ (Log, [AStr "Starting MPAQ Mixes conversion..."]);
    (Log, [AStr "Mix data rows:"; AInt (Z.of_nat (length mixData))]) ].

Definition noLookupWarning : level * list logarg :=
  (Warn, [AStr "Warning: No materials lookup available. Using raw material IDs."]).

Definition closingEntry (tbl : table) : level * list logarg :=
  (Log, [AStr "Conversion complete. Output rows:"; AInt (Z.of_nat (length (tl tbl)))]).

(* ===================================================================== *)
(** * The page: the list of uploaded files

    The handlers of client/src/pages/Home.tsx that write the state
    variable [files]: [onDrop], [removeFile], the change of tab and the
    Remove All Files button, with the state variables they write. *)
(* ===================================================================== *)

Module Home.

(** [s.endsWith(suffix)]. *)
Fixpoint endsWith (s suffix : string) : bool :=
  String.eqb s suffix
  || match s with
     | EmptyString => false
     | String _ s' => endsWith s' suffix
     end.

Section Files.
(** A [File] is read through its [name] only; a converted workbook is
    only stored and dropped. *)
Context {File Workbook : Type} (name : File -> string).

Record state : Type := mkState {
  activeTab : string;
  files : list File;
  error : option string;
  success : bool;
  convertedData : option Workbook;
  showInlinePreview : bool
}.

(** [useState] initial values. *)
Definition initial : state :=
  {| activeTab := "materials"; files := []; error := None; success := false;
     convertedData := None; showInlinePreview := false |}.

Definition onDrop (acceptedFiles : list File) (st : state) : state :=
  let validFiles :=
    List.filter (fun file => endsWith (name file) ".xlsx"
                             || endsWith (name file) ".xls"
                             || endsWith (name file) ".csv") acceptedFiles in
  if (length validFiles =? 0)%nat then
    {| activeTab := activeTab st; files := files st;
       error := Some "Please upload valid Excel or CSV files (.xlsx, .xls, .csv)";
       success := false; convertedData := None; showInlinePreview := false |}
  else if String.eqb (activeTab st) "mixes" && (2 <? length validFiles)%nat then
    {| activeTab := activeTab st; files := sliceTo 2 validFiles;
       error := Some "Mix imports support up to 2 files (mix file + materials lookup for MPAQ)";
       success := false; convertedData := None; showInlinePreview := false |}
  else if String.eqb (activeTab st) "materials" && (5 <? length validFiles)%nat then
    {| activeTab := activeTab st; files := sliceTo 5 validFiles;
       error := Some "Maximum 5 files allowed";
       success := false; convertedData := None; showInlinePreview := false |}
  else
    {| activeTab := activeTab st; files := validFiles; error := None;
       success := false; convertedData := None; showInlinePreview := false |}.

(** [prev.filter((_, i) => i !== index)], from position [i] on. *)
Fixpoint removeAt {A} (index i : nat) (l : list A) : list A :=
  match l with
  | [] => []
  | x :: l' => if (i =? index)%nat then removeAt index (S i) l'
               else x :: removeAt index (S i) l'
  end.

Definition removeFile (index : nat) (st : state) : state :=
  {| activeTab := activeTab st; files := removeAt index 0 (files st);
     error := error st; success := false; convertedData := None;
     showInlinePreview := false |}.

(** The [onValueChange] handler of the tabs. *)
Definition switchTab (val : string) (st : state) : state :=
  {| activeTab := val; files := []; error := None; success := false;
     convertedData := None; showInlinePreview := false |}.

(** The Remove All Files button. *)
Definition removeAll (st : state) : state :=
  {| activeTab := activeTab st; files := []; error := error st; success := false;
     convertedData := None; showInlinePreview := showInlinePreview st |}.

Inductive event : Type :=
  | Drop (acceptedFiles : list File)
  | Remove (index : nat)
  | Switch (val : string)
  | RemoveAll.

Definition step (st : state) (e : event) : state :=
  match e with
  | Drop acceptedFiles => onDrop acceptedFiles st
  | Remove index => removeFile index st
  | Switch val => switchTab val st
  | RemoveAll => removeAll st
  end.

(** The state after a sequence of events, from the first render. *)
Definition run (events : list event) : state := fold_left step events initial.

(** A file that [onDrop] accepts, by its name. *)
Definition accepted (file : File) : Prop :=
  endsWith (name file) ".xlsx" = true \/ endsWith (name file) ".xls" = true
  \/ endsWith (name file) ".csv" = true.

(** The most files a tab holds. *)
Definition fileLimit (tab : string) (n : nat) : Prop :=
  (tab = "mixes" -> n <= 2) /\ (tab = "materials" -> n <= 5).

Definition fileInvariant (st : state) : Prop :=
  fileLimit (activeTab st) (length (files st)) /\ Forall accepted (files st).

End Files.
End Home.

(* ===================================================================== *)
(** * The preview: pages and cell edits

    The component of client/src/components/PreviewSection.tsx, as far as
    it computes: the rows of the current page, the two page buttons, and
    the handlers that edit a cell. *)
(* ===================================================================== *)

Module Preview.

Definition rowsPerPage : Z := 100.

(** [arr.slice(start, end)], relative (negative) indices included. *)
Definition slice {A} (start end_ : Z) (arr : list A) : list A :=
  let len := Z.of_nat (length arr) in
  let k := if (start <? 0)%Z then Z.max (len + start) 0 else Z.min start len in
  let final := if (end_ <? 0)%Z then Z.max (len + end_) 0 else Z.min end_ len in
  firstn (Z.to_nat (final - k)) (skipn (Z.to_nat k) arr).

(** [arr[i]]; [None] stands for [undefined]. *)
Definition rowAt {A} (arr : list A) (i : Z) : option A :=
  if (i <? 0)%Z then None else nth_error arr (Z.to_nat i).

(** [arr[i] = x] for an index [i]: past the end the array grows, and the
    places in between are filled with [pad]. *)
Definition setAt {A} (pad : A) (arr : list A) (i : nat) (x : A) : list A :=
  if (i <? length arr)%nat then <[i := x]> arr
  else arr ++ replicate (i - length arr) pad ++ [x].

(** [Math.ceil(n / d)] for integers [0 <= n] and [0 < d]: the quotient of
    two integers of this size is rounded by less than its distance to the
    next integer, so the ceiling is that of the exact quotient. *)
Definition ceilDiv (n d : Z) : Z := (- ((- n) / d))%Z.

Record state : Type := mkState {
  data : list (list value);
  currentPage : Z;
  editingCell : option (Z * nat);
  editValue : string
}.

Definition allRows (st : state) : list (list value) := tl (data st).

Definition totalRows (st : state) : Z := Z.of_nat (length (allRows st)).

Definition totalPages (st : state) : Z := ceilDiv (totalRows st) rowsPerPage.

Definition startIndex (st : state) : Z := ((currentPage st - 1) * rowsPerPage)%Z.

Definition endIndex (st : state) : Z := (startIndex st + rowsPerPage)%Z.

(** The rows of the current page. *)
Definition rows (st : state) : list (list value) :=
  slice (startIndex st) (endIndex st) (allRows st).

(** The Previous and Next buttons; a disabled button does not fire. *)
Definition clickPrevious (st : state) : state :=
  if (currentPage st =? 1)%Z then st
  else {| data := data st; currentPage := Z.max 1 (currentPage st - 1);
          editingCell := editingCell st; editValue := editValue st |}.

Definition clickNext (st : state) : state :=
  if (currentPage st =? totalPages st)%Z then st
  else {| data := data st; currentPage := Z.min (totalPages st) (currentPage st + 1);
          editingCell := editingCell st; editValue := editValue st |}.

(** [handleCellClick]: the cell to edit is recorded first; reading a cell
    of a row that does not exist then throws. *)
Definition handleCellClick (rowIndex colIndex : nat) (st : state)
  : completion unit * state :=
  let actualRowIndex := (startIndex st + Z.of_nat rowIndex)%Z in
  let st := {| data := data st; currentPage := currentPage st;
               editingCell := Some (actualRowIndex, colIndex);
               editValue := editValue st |} in
  match rowAt (allRows st) actualRowIndex with
  | Some row =>
      (Return tt,
       {| data := data st; currentPage := currentPage st;
          editingCell := editingCell st;
          editValue := ToString (logicalOr (elementAt row colIndex) (VStr "")) |})
  | None => (Throw TypeError, st)
  end.

(** The [onChange] handler of the input. *)
Definition typeValue (v : string) (st : state) : state :=
  {| data := data st; currentPage := currentPage st;
     editingCell := editingCell st; editValue := v |}.

(** [handleCellBlur], up to the table [newData] that is stored and from
    which the new workbook is made.  A negative row index names no
    element of the array; a row index past the end cannot come from a
    cell on display, and there the model fills the array with empty rows
    where the source leaves holes. *)
Definition handleCellBlur (st : state) : state :=
  match editingCell st with
  | Some (row, col) =>
      let newData := data st in
      let actualRowIndex := (row + 1)%Z in
      let newData :=
        if (actualRowIndex <? 0)%Z then newData
        else
          let i := Z.to_nat actualRowIndex in
          let newData :=
            match nth_error newData i with
            | Some _ => newData
            | None => setAt [] newData i []
            end in
          setAt [] newData i
                (setAt VUndefined (nth i newData []) col (VStr (editValue st))) in
      {| data := newData; currentPage := currentPage st;
         editingCell := None; editValue := "" |}
  | None => st
  end.

(** The state when a workbook is first shown. *)
Definition initial (data : list (list value)) : state :=
  {| data := data; currentPage := 1; editingCell := None; editValue := "" |}.

Inductive click : Type := Previous | Next.

Definition turn (st : state) (b : click) : state :=
  match b with
  | Previous => clickPrevious st
  | Next => clickNext st
  end.

End Preview.

(** [data[i][j]]; [undefined] where there is no such cell. *)
Definition cellAt (data : table) (i j : nat) : value :=
  elementAt (nth i data []) j.

(** The rows of page [p] of a table. *)
Definition pageOf (data : table) (p : Z) : table :=
  Preview.rows {| Preview.data := data; Preview.currentPage := p;
                  Preview.editingCell := None; Preview.editValue := "" |}.


(* ===================================================================== *)
(** * The page: telling the material files apart

    The loop over the files in the materials branch of [handleConvert]
    (client/src/pages/Home.tsx): a file is an admixture, an aggregate or a
    cement sheet by its name, and failing that by its place. *)
(* ===================================================================== *)

Module MaterialFiles.

(** [String.prototype.toLowerCase], code unit by code unit. *)
Definition lowerOf (c : ascii) : ascii :=
  let n := code c in
  if (65 <=? n)%nat && (n <=? 90)%nat then ascii_of_nat (n + 32)
  else if (192 <=? n)%nat && (n <=? 222)%nat && negb (n =? 215)%nat
  then ascii_of_nat (n + 32)
  else c.

Fixpoint toLowerCase (s : string) : string :=
  match s with
  | EmptyString => EmptyString
  | String c s' => String (lowerOf c) (toLowerCase s')
  end.

(** The three variables the loop over the files assigns; [None] stands
    for [null]. *)
Record sheets : Type := mkSheets {
  admixData : option (list (list value));
  aggregateData : option (list (list value));
  cementData : option (list (list value))
}.

(** The callback of [files.forEach((file, index) => ...)], on the name of
    the file and on [allFileData[index]]. *)
Definition identify (s : sheets) (file : string * list (list value)) : M sheets :=
  let '(name, data) := file in
  let fileName := toLowerCase name in
  if includes fileName "admix" || includes fileName "fiber" then
    console_log [AStr "Identified admix file:"; AStr name] ;;
    ret {| admixData := Some data; aggregateData := aggregateData s;
           cementData := cementData s |}
  else if includes fileName "aggregate" || includes fileName "agg" then
    console_log [AStr "Identified aggregate file:"; AStr name] ;;
    ret {| admixData := admixData s; aggregateData := Some data;
           cementData := cementData s |}
  else if includes fileName "cement" || includes fileName "cem" then
    console_log [AStr "Identified cement file:"; AStr name] ;;
    ret {| admixData := admixData s; aggregateData := aggregateData s;
           cementData := Some data |}
  else
    match admixData s, aggregateData s, cementData s with
    | None, _, _ =>
        console_log [AStr "Assigned to admix (by order):"; AStr name] ;;
        ret {| admixData := Some data; aggregateData := aggregateData s;
               cementData := cementData s |}
    | Some _, None, _ =>
        console_log [AStr "Assigned to aggregate (by order):"; AStr name] ;;
        ret {| admixData := admixData s; aggregateData := Some data;
               cementData := cementData s |}
    | Some _, Some _, None =>
        console_log [AStr "Assigned to cement (by order):"; AStr name] ;;
        ret {| admixData := admixData s; aggregateData := aggregateData s;
               cementData := Some data |}
    | Some _, Some _, Some _ => ret s
    end.

(** The loop, from the three variables at [null]. *)
Definition identifyFiles (files : list (string * list (list value))) : M sheets :=
  forOf files identify {| admixData := None; aggregateData := None; cementData := None |}.

End MaterialFiles.

(** The kind of material a file name tells, if any. *)
Inductive kind : Type := Admix | Aggregate | Cement.

Definition kindOfName (name : string) : option kind :=
  let fileName := MaterialFiles.toLowerCase name in
  if includes fileName "admix" || includes fileName "fiber" then Some Admix
  else if includes fileName "aggregate" || includes fileName "agg" then Some Aggregate
  else if includes fileName "cement" || includes fileName "cem" then Some Cement
  else None.

Definition sheetOf (k : kind) (s : MaterialFiles.sheets) : option table :=
  match k with
  | Admix => MaterialFiles.admixData s
  | Aggregate => MaterialFiles.aggregateData s
  | Cement => MaterialFiles.cementData s
  end.

Definition isKind (k : kind) (file : string * table) : bool :=
  match kindOfName file.1, k with
  | Some Admix, Admix | Some Aggregate, Aggregate | Some Cement, Cement => true
  | _, _ => false
  end.

(** The data of the last file of [files] whose name tells the kind [k]. *)
Definition lastOfKind (k : kind) (files : list (string * table)) : option table :=
  match List.find (isKind k) (rev files) with
  | Some file => Some file.2
  | None => None
  end.

(** What the loop makes of one file. *)
Definition identified (s : MaterialFiles.sheets) (file : string * table) : MaterialFiles.sheets :=
  let '(name, data) := file in
  match kindOfName name with
  | Some Admix =>
      {| MaterialFiles.admixData := Some data;
         MaterialFiles.aggregateData := MaterialFiles.aggregateData s;
         MaterialFiles.cementData := MaterialFiles.cementData s |}
  | Some Aggregate =>
      {| MaterialFiles.admixData := MaterialFiles.admixData s;
         MaterialFiles.aggregateData := Some data;
         MaterialFiles.cementData := MaterialFiles.cementData s |}
  | Some Cement =>
      {| MaterialFiles.admixData := MaterialFiles.admixData s;
         MaterialFiles.aggregateData := MaterialFiles.aggregateData s;
         MaterialFiles.cementData := Some data |}
  | None =>
      match MaterialFiles.admixData s, MaterialFiles.aggregateData s, MaterialFiles.cementData s with
      | None, _, _ =>
          {| MaterialFiles.admixData := Some data;
             MaterialFiles.aggregateData := MaterialFiles.aggregateData s;
             MaterialFiles.cementData := MaterialFiles.cementData s |}
      | Some _, None, _ =>
          {| MaterialFiles.admixData := MaterialFiles.admixData s;
             MaterialFiles.aggregateData := Some data;
             MaterialFiles.cementData := MaterialFiles.cementData s |}
      | Some _, Some _, None =>
          {| MaterialFiles.admixData := MaterialFiles.admixData s;
             MaterialFiles.aggregateData := MaterialFiles.aggregateData s;
             MaterialFiles.cementData := Some data |}
      | Some _, Some _, Some _ => s
      end
  end.

(* ===================================================================== *)
(** * The header row is the array of the module

    [outRows.push(FINAL_COLUMNS)] stores the array [FINAL_COLUMNS] itself,
    not a copy of it: the first row of every table the converter returns
    is that one array, and whoever holds a returned table can write to it.
    In [MPAQ] a row is the list of its cells.  Here the rows of a table
    are told apart: the array of the module, by reference, or an array
    the call made; the cells of the array of the module are kept in a
    store of their own.  The rest is [MPAQ], letter for letter. *)
(* ===================================================================== *)

Module Shared.

Inductive row : Type :=
  | FinalColumns
  | Fresh (cells : list value).



(** The body of the loop over the constituents of one plant. *)
Definition emitRow (materialsLookup : Map.t) (baseData : BaseData) (plant : string)
    (outRows : list row) (c : Constituent) : M (list row) :=
  let '(matType, matId, matName, matTarget) := c in
  let unitName := getUnitForMaterialType matType in
  let matNameStr := trim (ToString (logicalOr matName (VStr ""))) in
  let* productionCode :=
    if negb (isEmptyString matNameStr) && Map.has materialsLookup matNameStr then
      let productionCode := VStr (default "" (Map.get materialsLookup matNameStr)) in
      console_log [AStr ("✓ Mapped " +:+ matNameStr +:+ " (" +:+ ToString matId
                         +:+ ") -> " +:+ ToString productionCode)] ;;
      ret productionCode
    else if negb (String.eqb matType "Water") && negb (isEmptyString matNameStr) then
      console_warn [AStr ("✗ No lookup found for material: " +:+ matNameStr
                          +:+ " (ID: " +:+ ToString matId +:+ ")")] ;;
      console_warn [AStr ("  Lookup has " +:+ natText (Map.size materialsLookup)
                          +:+ " entries. First 5:");
                    AEntries (sliceTo 5 (Map.entries materialsLookup))] ;;
      ret matId
    else ret matId in
  let outRow :=
    [ VStr plant;
      mixName baseData;
      description baseData;
      shortDescription baseData;
      itemCategory baseData;
      strengthAge baseData;
      strengthMpa baseData;
      airContent baseData;
      VStr "";
      VStr "";
      slump baseData;
      VStr "";
      VStr "";
      VStr "";
      maxWater baseData;
      VStr "";
      VStr "";
      VStr "";
      VStr "";
      VStr "";
      VStr "";
      productionCode;
      logicalOr matName (VStr "");
      logicalOr matTarget (VStr "");
      VStr unitName ] in
  ret (push outRows (Fresh outRow)).

(** The body of the loop over the valid mixes. *)
Definition processMix (materialsLookup : Map.t) (total : nat)
    (outRows : list row) (ir : nat * object) : M (list row) :=
  let '(idx, row) := ir in
  let* baseData := lift (buildBaseData row) in
  let* constituents := lift (collectConstituents row) in
  let* outRows :=
    forOf PLANTS (fun outRows plant =>
      forOf constituents (emitRow materialsLookup baseData plant) outRows) outRows in
  (if ((idx + 1) mod 50 =? 0)%nat
   then console_log [AStr ("Processed " +:+ natText (idx + 1) +:+ "/"
                           +:+ natText total +:+ " valid mixes...")]
   else ret tt) ;;
  ret outRows.

(** The call neither reads nor writes a cell of [FINAL_COLUMNS]: it hands
    out the array. *)
Definition convertMPAQMixes (mixData : list (list value))
    (materialsData : option (list (list value))) : M (list row) :=
  console_log [AStr "Starting MPAQ Mixes conversion..."] ;;
  console_log [AStr "Mix data rows:"; AInt (Z.of_nat (length mixData))] ;;
  match materialsData with
  | Some md => console_log [AStr "Materials data rows:"; AInt (Z.of_nat (length md))]
  | None => ret tt
  end ;;
  let* materialsLookup :=
    match materialsData with
    | Some md => createMaterialsLookup md
    | None => ret Map.empty
    end in
  (if (Map.size materialsLookup =? 0)%nat
   then console_warn [AStr "Warning: No materials lookup available. Using raw material IDs."]
   else ret tt) ;;
  match mixData with
  | [] => throw (Error "Mix data is empty")
  | headers :: dataRows =>
      console_log [AStr "Mix headers:"; ARow headers] ;;
      let data := map (rowToObject headers) dataRows in
      console_log [AStr "Converted to objects:"; AInt (Z.of_nat (length data)); AStr "rows"] ;;
      let* validMixes := lift (filterC isValidMix data) in
      console_log [AStr ("Filtered to " +:+ natText (length validMixes)
                         +:+ " valid mixes (WaterTarget > 0)")] ;;
      match validMixes with
      | [] => throw (Error "No valid mixes found with WaterTarget > 0")
      | first :: _ =>
          let* hasMixId := lift (hasOwnProperty first "MixId") in
          let* hasName := if hasMixId then lift (hasOwnProperty first "Name") else ret false in
          if negb hasMixId || negb hasName then
            throw (Error "Input file must contain 'MixId' and 'Name' columns.")
          else
            let outRows := [] in
            let outRows := push outRows FinalColumns in
            let* outRows :=
              forOf (indexed validMixes)
                    (processMix materialsLookup (length validMixes)) outRows in
            console_log [AStr "Conversion complete. Output rows:";
                         AInt (Z.of_nat (length outRows) - 1)] ;;
            ret outRows
      end
  end.




End Shared.



(* ===================================================================== *)
(** * Calls and their completions                                        *)
(* ===================================================================== *)

Section Completes.
Context {A B : Type}.

Lemma completes_ret (a : A) : completes (ret a) (Return a).
Proof. exists []. intros c. unfold ret. by rewrite app_nil_r. Qed.

Lemma completes_throw (e : exception) : completes (@throw A e) (Throw e).
Proof. exists []. intros c. unfold throw. by rewrite app_nil_r. Qed.

Lemma completes_lift (r : completion A) : completes (lift r) r.
Proof. exists []. intros c. unfold lift. by rewrite app_nil_r. Qed.

Lemma completes_bind (m : M A) (k : A -> M B) a r :
  completes m (Return a) -> completes (k a) r -> completes (bind m k) r.
Proof.
  intros [t1 H1] [t2 H2]. exists (t1 ++ t2). intros c.
  unfold bind. by rewrite H1, H2, app_assoc.
Qed.

Lemma completes_bind_throw (m : M A) (k : A -> M B) e :
  completes m (Throw e) -> completes (bind m k) (Throw e).
Proof.
  intros [t1 H1]. exists t1. intros c. unfold bind. by rewrite H1.
Qed.

Lemma completes_completionOf (m : M A) r c :
  completes m r -> completionOf m c = r.
Proof. intros [t H]. unfold completionOf. by rewrite H. Qed.

End Completes.

Lemma completes_log args : completes (console_log args) (Return tt).
Proof. by exists [(Log, args)]. Qed.

Lemma completes_warn args : completes (console_warn args) (Return tt).
Proof. by exists [(Warn, args)]. Qed.

(** A loop whose body always completes normally computes a left fold. *)
Lemma completes_forOf {A St} (body : St -> A -> M St) (f : St -> A -> St) l :
  (forall s x, In x l -> completes (body s x) (Return (f s x))) ->
  forall s, completes (forOf l body s) (Return (fold_left f l s)).
Proof.
  induction l as [|x l IH]; intros Hbody s; cbn [forOf fold_left].
  - apply completes_ret.
  - eapply completes_bind.
    + apply Hbody. by left.
    + apply IH. intros s' y Hy. apply Hbody. by right.
Qed.

(** Straight-line code that only logs is discharged by [eauto]. *)
Create HintDb completes.
#[local] Hint Resolve completes_ret completes_throw completes_lift
  completes_log completes_warn completes_bind : completes.

(** ** Reading a record *)

Lemma hasOwnProperty_callable row key :
  callable row = true -> hasOwnProperty row key = Return (hasColumn row key).
Proof.
  unfold callable, hasOwnProperty, hasColumn. intros H.
  apply andb_true_iff in H as [Hp Hh].
  apply negb_true_iff in Hp. apply negb_true_iff in Hh.
  rewrite Hp. by destruct (own row !! "hasOwnProperty").
Qed.

Lemma hasOwnProperty_not_callable row key :
  callable row = false -> hasOwnProperty row key = Throw TypeError.
Proof.
  unfold callable, hasOwnProperty, hasColumn. intros H.
  destruct (protoNull row); [done|].
  by destruct (own row !! "hasOwnProperty").
Qed.

Lemma safeGet_callable row col :
  callable row = true -> safeGet row col = Return (cell row col).
Proof.
  intros H. unfold safeGet. rewrite (hasOwnProperty_callable _ _ H). simpl.
  unfold hasColumn, cell, getProp. by destruct (own row !! col).
Qed.

Lemma safeGet_not_callable row col :
  callable row = false -> safeGet row col = Throw TypeError.
Proof.
  intros H. unfold safeGet. by rewrite (hasOwnProperty_not_callable _ _ H).
Qed.

Lemma safeGet_Return row col v :
  safeGet row col = Return v -> callable row = true /\ v = cell row col.
Proof.
  intros H. destruct (callable row) eqn:Hc.
  - rewrite (safeGet_callable _ _ Hc) in H. by inversion H.
  - by rewrite (safeGet_not_callable _ _ Hc) in H.
Qed.

(** ** The filter *)

(** A value that [isZeroOrEmpty] rejects never parses to a positive number:
    the second test of the filter subsumes the first. *)
Lemma zeroOrEmpty_not_positive v :
  isZeroOrEmpty v = true -> numGt (parseFloat v) (ofZ 0) = false.
Proof.
  destruct v as [| |b|n|s]; unfold isZeroOrEmpty; simpl.
  - reflexivity.
  - reflexivity.
  - discriminate.
  - destruct n as [sg|sg| |sg m e]; simpl; try reflexivity; try discriminate;
      unfold numEq, SFeqb, SFcompare; by destruct sg.
  - rewrite orb_true_iff. intros [He|He].
    + destruct s; [reflexivity | discriminate].
    + apply String.eqb_eq in He. by subst s.
Qed.

Lemma isValidMix_callable row :
  callable row = true -> isValidMix row = Return (keptByFilter row).
Proof.
  intros H. unfold isValidMix. rewrite (safeGet_callable _ _ H). simpl.
  unfold keptByFilter. f_equal.
  destruct (isZeroOrEmpty (cell row "WaterTarget")) eqn:Hz; [|done].
  by rewrite (zeroOrEmpty_not_positive _ Hz).
Qed.

Lemma isValidMix_not_callable row :
  callable row = false -> isValidMix row = Throw TypeError.
Proof. intros H. unfold isValidMix. by rewrite (safeGet_not_callable _ _ H). Qed.

Lemma filterC_isValidMix data :
  filterC isValidMix data =
  if forallb callable data then Return (List.filter keptByFilter data)
  else Throw TypeError.
Proof.
  induction data as [|row data IH]; [done|]. simpl.
  destruct (callable row) eqn:Hc; simpl.
  - rewrite (isValidMix_callable _ Hc). simpl. rewrite IH.
    by destruct (forallb callable data).
  - by rewrite (isValidMix_not_callable _ Hc).
Qed.

(** ** One valid mix *)

Lemma buildBaseData_callable row :
  callable row = true -> buildBaseData row = Return (baseDataOf row).
Proof.
  intros H. unfold buildBaseData.
  rewrite !(safeGet_callable _ _ H). reflexivity.
Qed.

Lemma collectSlots_callable matType cols row :
  callable row = true ->
  forall acc, collectSlots matType cols row acc
              = Return (acc ++ slotsOf matType cols row).
Proof.
  intros H. unfold collectSlots, slotsOf.
  induction cols as [|[[cid cname] ctarget] cols IH]; intros acc; simpl.
  - by rewrite app_nil_r.
  - rewrite !(safeGet_callable _ _ H). simpl. rewrite IH.
    destruct (negb (isEmptyValue (cell row cid))
              && negb (isZeroOrEmpty (cell row ctarget))); simpl.
    + unfold push. by rewrite <- app_assoc.
    + done.
Qed.

Lemma collectConstituents_callable row :
  callable row = true -> collectConstituents row = Return (constituentsOf row).
Proof.
  intros H. unfold collectConstituents, constituentsOf.
  rewrite (collectSlots_callable _ _ _ H). cbn [bindC app].
  rewrite (collectSlots_callable _ _ _ H). cbn [bindC].
  rewrite (collectSlots_callable _ _ _ H). cbn [bindC].
  rewrite (safeGet_callable _ _ H). cbn [bindC]. unfold push. fold (waterOf row).
  generalize (slotsOf "Aggregate" aggCols row), (slotsOf "Cement" cemCols row),
    (slotsOf "Admixture" admCols row).
  intros a b c.
  destruct (negb (isZeroOrEmpty (cell row "WaterTarget")));
    by rewrite ?app_nil_r, <- ?app_assoc.
Qed.

Lemma emitRow_completes lookup b plant outRows c :
  completes (emitRow lookup b plant outRows c)
            (Return (outRows ++ [outRowOf lookup b plant c])).
Proof.
  destruct c as [[[matType matId] matName] matTarget].
  unfold emitRow, outRowOf, rowTail, productionCodeOf, lookupName, rawId, push.
  set (matNameStr := trim (ToString (logicalOr matName (VStr "")))).
  destruct (negb (isEmptyString matNameStr) && Map.has lookup matNameStr);
    [|destruct (negb (String.eqb matType "Water") && negb (isEmptyString matNameStr))];
    eauto 10 with completes.
Qed.

Lemma fold_left_push {A B} (f : A -> B) l : forall acc,
  fold_left (fun acc x => acc ++ [f x]) l acc = acc ++ map f l.
Proof.
  induction l as [|x l IH]; intros acc; simpl.
  - by rewrite app_nil_r.
  - by rewrite IH, <- app_assoc.
Qed.

Lemma fold_left_append {A B} (f : A -> list B) l : forall acc,
  fold_left (fun acc x => acc ++ f x) l acc = acc ++ flat_map f l.
Proof.
  induction l as [|x l IH]; intros acc; simpl.
  - by rewrite app_nil_r.
  - by rewrite IH, <- app_assoc.
Qed.

Lemma processMix_completes lookup total outRows idx row :
  callable row = true ->
  completes (processMix lookup total outRows (idx, row))
            (Return (outRows ++ mixRows lookup row)).
Proof.
  intros H. unfold processMix.
  rewrite (buildBaseData_callable _ H), (collectConstituents_callable _ H).
  do 2 (eapply completes_bind; [apply completes_lift|]).
  eapply completes_bind.
  - apply (completes_forOf _
      (fun out plant => out ++ map (outRowOf lookup (baseDataOf row) plant)
                                   (constituentsOf row))).
    intros out plant _.
    rewrite <- (fold_left_push (outRowOf lookup (baseDataOf row) plant)).
    apply completes_forOf. intros out' c _. apply emitRow_completes.
  - rewrite fold_left_append. fold (mixRows lookup row).
    destruct ((idx + 1) mod 50 =? 0)%nat; eauto with completes.
Qed.

Lemma In_indexed {A} (l : list A) i x : In (i, x) (indexed l) -> In x l.
Proof. unfold indexed. apply in_combine_r. Qed.

Lemma fold_left_indexed {A B} (f : A -> list B) (l : list A) : forall n acc,
  fold_left (fun acc (ix : nat * A) => acc ++ f ix.2) (combine (seq n (length l)) l) acc
  = acc ++ flat_map f l.
Proof.
  induction l as [|x l IH]; intros n acc; simpl.
  - by rewrite app_nil_r.
  - by rewrite IH, <- app_assoc.
Qed.

(** ** The lookup *)

Lemma createMaterialsLookup_completes materialsData :
  completes (createMaterialsLookup materialsData)
            (Return (lookupOf (Some materialsData))).
Proof.
  destruct materialsData as [|headers dataRows];
    cbn [createMaterialsLookup lookupOf]; [apply completes_ret|].
  unfold materialTypeColumn, productionCodeColumn.
  destruct (findIndex _ headers) as [ti|];
    [destruct (findIndex _ headers) as [ci|]|]; eauto 10 with completes.
Qed.

(** ** The whole call *)

Lemma convert_completes mixData materialsData :
  completes (convertMPAQMixes mixData materialsData)
            (convertResult mixData materialsData).
Proof.
  unfold convertMPAQMixes.
  do 2 (eapply completes_bind; [apply completes_log|]).
  eapply completes_bind; [destruct materialsData; eauto with completes|].
  eapply (completes_bind _ _ (lookupOf materialsData)).
  { destruct materialsData as [md|];
      [apply createMaterialsLookup_completes | apply completes_ret]. }
  eapply completes_bind;
    [destruct (Map.size _ =? 0)%nat; eauto with completes|].
  destruct mixData as [|headers dataRows]; [apply completes_throw|].
  do 2 (eapply completes_bind; [apply completes_log|]).
  unfold convertResult, validMixesOf, recordsOf.
  rewrite filterC_isValidMix.
  destruct (forallb callable (map (rowToObject headers) dataRows)) eqn:Hall.
  2:{ apply completes_bind_throw, completes_lift. }
  eapply completes_bind; [apply completes_lift|].
  eapply completes_bind; [apply completes_log|].
  destruct (List.filter keptByFilter (map (rowToObject headers) dataRows))
    as [|first rest] eqn:Hvalid; [apply completes_throw|].
  assert (Hcall : forall row, In row (first :: rest) -> callable row = true).
  { intros row Hrow. rewrite <- Hvalid in Hrow.
    apply filter_In in Hrow as [Hrow _].
    rewrite forallb_forall in Hall. by apply Hall. }
  rewrite !(hasOwnProperty_callable first) by (apply Hcall; by left).
  eapply completes_bind; [apply completes_lift|].
  destruct (hasColumn first "MixId"); cbn [negb orb andb];
    [|eauto with completes].
  eapply completes_bind; [apply completes_lift|].
  destruct (hasColumn first "Name"); cbn [negb orb andb]; [|apply completes_throw].
  eapply completes_bind.
  - apply (completes_forOf _
      (fun out (ix : nat * object) => out ++ mixRows (lookupOf materialsData) ix.2)).
    intros out [idx row] Hin. apply processMix_completes.
    apply Hcall. by apply In_indexed in Hin.
  - unfold indexed. rewrite fold_left_indexed. eauto with completes.
Qed.

Lemma completionOf_convert mixData materialsData c :
  completionOf (convertMPAQMixes mixData materialsData) c
  = convertResult mixData materialsData.
Proof. apply completes_completionOf, convert_completes. Qed.

(** A successful call, taken apart. *)
Lemma convert_Return mixData materialsData c tbl :
  completionOf (convertMPAQMixes mixData materialsData) c = Return tbl ->
  exists headers dataRows first rest,
    mixData = headers :: dataRows
    /\ forallb callable (recordsOf headers dataRows) = true
    /\ validMixesOf headers dataRows = first :: rest
    /\ hasColumn first "MixId" = true /\ hasColumn first "Name" = true
    /\ tbl = map VStr FINAL_COLUMNS
             :: flat_map (mixRows (lookupOf materialsData)) (first :: rest).
Proof.
  rewrite completionOf_convert. unfold convertResult.
  destruct mixData as [|headers dataRows]; [discriminate|].
  destruct (forallb callable _) eqn:Hall; [|discriminate].
  destruct (validMixesOf headers dataRows) as [|first rest] eqn:Hv; [discriminate|].
  destruct (hasColumn first "MixId") eqn:H1; [|discriminate].
  destruct (hasColumn first "Name") eqn:H2; [|discriminate].
  cbn [andb]. intros [= <-]. by exists headers, dataRows, first, rest.
Qed.

(* ===================================================================== *)
(** * Destination rows                                                   *)
(* ===================================================================== *)

Lemma outRowOf_length lookup b plant c : length (outRowOf lookup b plant c) = 25.
Proof. by destruct c as [[[? ?] ?] ?]. Qed.

Lemma mixRows_Forall (P : list value -> Prop) lookup row :
  (forall plant c, In plant PLANTS -> In c (constituentsOf row) ->
                   P (outRowOf lookup (baseDataOf row) plant c)) ->
  Forall P (mixRows lookup row).
Proof.
  intros H. unfold mixRows. apply Forall_forall. intros r Hr.
  apply list_elem_of_In, in_flat_map in Hr as [plant [Hp Hr]].
  apply in_map_iff in Hr as [c [<- Hc]]. by apply H.
Qed.

Lemma dataRows_Forall (P : list value -> Prop) lookup rows :
  (forall row plant c, In row rows -> In plant PLANTS -> In c (constituentsOf row) ->
                       P (outRowOf lookup (baseDataOf row) plant c)) ->
  Forall P (flat_map (mixRows lookup) rows).
Proof.
  intros H. apply Forall_forall. intros r Hr.
  apply list_elem_of_In, in_flat_map in Hr as [row [Hrow Hr]].
  apply list_elem_of_In in Hr. revert r Hr. apply Forall_forall.
  apply mixRows_Forall. intros plant c. by apply H.
Qed.

(** C8. A successful call returns the fixed header row of 25 titles first,
    word for word, and every data row after it has exactly 25 cells. *)
Theorem header_row_and_width mixData materialsData c tbl :
  completionOf (convertMPAQMixes mixData materialsData) c = Return tbl ->
  exists dataRows,
    tbl =
      [ VStr "Plant Code"; VStr "Mix Name"; VStr "Description";
        VStr "Short Description"; VStr "Item Category";
        VStr "Strength Age (Default 28)"; VStr "Strength (MPA)";
        VStr "Design Air Content (%)"; VStr "Min Air Content (%)";
        VStr "Max Air Content (%)"; VStr "Design Slump (in)";
        VStr "Min Slump (in)"; VStr "Max Slump (in)"; VStr "Max Batch Size";
        VStr "Max Water Gallons"; VStr "Max W/C+P"; VStr "Max W/C";
        VStr "Mix Class Names, separate with semicolon"; VStr "Mix Usage";
        VStr "Dispatch Slump Range"; VStr "Dispatch";
        VStr "Constituent Item Code"; VStr "Constituent Item Description";
        VStr "Quantity"; VStr "Unit Name" ] :: dataRows
    /\ hd [] tbl = map VStr FINAL_COLUMNS
    /\ length FINAL_COLUMNS = 25
    /\ Forall (fun row => length row = 25) dataRows.
Proof.
  intros H.
  apply convert_Return in H
    as (headers & dataRows & first & rest & _ & _ & _ & _ & _ & ->).
  eexists. split; [reflexivity|]. split; [reflexivity|]. split; [reflexivity|].
  apply dataRows_Forall. intros row plant cst _ _ _. apply outRowOf_length.
Qed.

Lemma header_row_and_width_witness :
  exists tbl,
    completionOf (convertMPAQMixes sampleMixes2 (Some sampleMaterials)) [] = Return tbl
    /\ hd [] tbl = map VStr FINAL_COLUMNS
    /\ Forall (fun row => length row = 25) (tl tbl).
Proof.
  eexists. split; [vm_compute; reflexivity|].
  destruct (header_row_and_width sampleMixes2 (Some sampleMaterials) [] _
              ltac:(vm_compute; reflexivity)) as (dataRows & Htbl & Hhd & _ & Hw).
  split; [exact Hhd|]. injection Htbl as <-. exact Hw.
Defined.

(** C10. In every data row the Strength Age column is the number 28 and
    the columns Min Air Content, Max Air Content, Min Slump, Max Slump,
    Max Batch Size, Max W/C+P, Max W/C, Mix Class Names, Mix Usage,
    Dispatch Slump Range and Dispatch are the empty string. *)
Theorem constant_columns mixData materialsData c tbl :
  completionOf (convertMPAQMixes mixData materialsData) c = Return tbl ->
  Forall (fun row =>
            column "Strength Age (Default 28)" row = Some (VNum (ofZ 28))
            /\ Forall (fun title => column title row = Some (VStr ""))
                 [ "Min Air Content (%)"; "Max Air Content (%)";
                   "Min Slump (in)"; "Max Slump (in)"; "Max Batch Size";
                   "Max W/C+P"; "Max W/C";
                   "Mix Class Names, separate with semicolon"; "Mix Usage";
                   "Dispatch Slump Range"; "Dispatch" ])
         (tl tbl)
  /\ numberToString (ofZ 28) = "28".
Proof.
  intros H.
  apply convert_Return in H
    as (headers & dataRows & first & rest & _ & _ & _ & _ & _ & ->).
  split; [|by vm_compute].
  cbn [tl]. apply dataRows_Forall. intros row plant cst _ _ _.
  destruct cst as [[[matType matId] matName] matTarget].
  split; [reflexivity|].
  repeat (apply List.Forall_cons; [reflexivity|]). apply List.Forall_nil.
Qed.

Lemma constant_columns_witness :
  exists tbl,
    completionOf (convertMPAQMixes sampleMixes2 (Some sampleMaterials)) [] = Return tbl
    /\ length (tl tbl) = 20
    /\ Forall (fun row => column "Strength Age (Default 28)" row = Some (VNum (ofZ 28))
                          /\ column "Dispatch" row = Some (VStr ""))
              (tl tbl).
Proof.
  eexists. split; [vm_compute; reflexivity|]. split; [reflexivity|].
  destruct (constant_columns sampleMixes2 (Some sampleMaterials) [] _
              ltac:(vm_compute; reflexivity)) as [Hrows _].
  eapply Forall_impl; [exact Hrows|].
  intros row [H28 Hempty]. split; [exact H28|].
  rewrite Forall_forall in Hempty. apply Hempty.
  repeat first [apply list_elem_of_here | apply list_elem_of_further].
Defined.

(* ===================================================================== *)
(** * Order and number of the rows                                       *)
(* ===================================================================== *)

Lemma mixRows_length lookup row :
  length (mixRows lookup row) = 5 * length (constituentsOf row).
Proof.
  unfold mixRows, PLANTS. cbn [flat_map].
  rewrite !length_app, !length_map. cbn [length]. lia.
Qed.

Lemma flat_map_length_sum {A B} (f : A -> list B) l :
  length (flat_map f l) = list_sum (map (fun x => length (f x)) l).
Proof.
  induction l as [|x l IH]; [done|]. cbn [flat_map map list_sum].
  by rewrite length_app, IH.
Qed.

Lemma materialCols_map prefix count :
  materialCols prefix count = map (slotCols prefix) (seq 1 count).
Proof.
  unfold materialCols, range, push.
  replace (S count - 1) with count by lia.
  apply (fold_left_push (slotCols prefix) (seq 1 count) []).
Qed.

Lemma slotConstituent_slotCols matType prefix row i :
  slotConstituent matType row (slotCols prefix i)
  = if slotInUse row prefix i
    then Some (matType, cell row (prefix +:+ natText i +:+ "Id"),
               cell row (prefix +:+ natText i +:+ "Name"),
               cell row (prefix +:+ natText i +:+ "Target"))
    else None.
Proof. reflexivity. Qed.

Lemma slotsOf_length matType prefix row l :
  length (slotsOf matType (map (slotCols prefix) l) row)
  = length (List.filter (slotInUse row prefix) l).
Proof.
  unfold slotsOf. induction l as [|i l IH]; [done|].
  change (length
            (match slotConstituent matType row (slotCols prefix i) with
             | Some y => y :: omap (slotConstituent matType row) (map (slotCols prefix) l)
             | None => omap (slotConstituent matType row) (map (slotCols prefix) l)
             end)
          = length (if slotInUse row prefix i
                    then i :: List.filter (slotInUse row prefix) l
                    else List.filter (slotInUse row prefix) l)).
  rewrite slotConstituent_slotCols.
  destruct (slotInUse row prefix i); cbn [length]; by rewrite IH.
Qed.

Lemma kept_has_water row :
  keptByFilter row = true -> isZeroOrEmpty (cell row "WaterTarget") = false.
Proof.
  unfold keptByFilter. intros H.
  destruct (isZeroOrEmpty (cell row "WaterTarget")) eqn:Hz; [|done].
  by rewrite (zeroOrEmpty_not_positive _ Hz) in H.
Qed.

Lemma constituentsOf_length row :
  keptByFilter row = true -> length (constituentsOf row) = constituentCount row.
Proof.
  intros H. unfold constituentsOf, constituentCount, slotsInUse.
  rewrite (kept_has_water _ H). cbn [negb].
  unfold aggCols, cemCols, admCols, AGG_COUNT, CEM_COUNT, ADM_COUNT.
  rewrite !materialCols_map, !length_app, !slotsOf_length. cbn [length]. lia.
Qed.

Lemma validMixesOf_kept headers dataRows row :
  In row (validMixesOf headers dataRows) -> keptByFilter row = true.
Proof. unfold validMixesOf. intros H. by apply filter_In in H as [_ H]. Qed.

(** C1. The number of data rows returned is the sum, over the valid mixes,
    of 5 times the number of constituents of the mix: the aggregate slots
    1-6, cement slots 1-4 and admixture slots 1-8 whose Id is non-empty
    and whose Target is not zero-or-empty, plus one for the water; that
    number is at least 1. *)
Theorem row_count_law headers dataRows materialsData c tbl :
  completionOf (convertMPAQMixes (headers :: dataRows) materialsData) c = Return tbl ->
  filterC isValidMix (recordsOf headers dataRows)
  = Return (validMixesOf headers dataRows)
  /\ length (tl tbl)
     = list_sum (map (fun mix => 5 * constituentCount mix)
                     (validMixesOf headers dataRows))
  /\ Forall (fun mix => 1 <= constituentCount mix) (validMixesOf headers dataRows)
  /\ length PLANTS = 5.
Proof.
  intros H.
  apply convert_Return in H
    as (headers' & dataRows' & first & rest & [= <- <-] & Hall & Hv & _ & _ & ->).
  split; [by rewrite filterC_isValidMix, Hall|].
  rewrite <- Hv. cbn [tl]. split; [|split; [|reflexivity]].
  - rewrite flat_map_length_sum. f_equal.
    apply map_ext_in. intros row Hrow.
    rewrite mixRows_length, constituentsOf_length; [done|].
    by eapply validMixesOf_kept.
  - apply Forall_forall. intros row _. unfold constituentCount. lia.
Qed.

Lemma row_count_law_witness :
  exists tbl,
    completionOf (convertMPAQMixes sampleMixes2 (Some sampleMaterials)) [] = Return tbl
    /\ map constituentCount
           (validMixesOf (hd [] sampleMixes2) (tl sampleMixes2)) = [3; 1]
    /\ length (tl tbl) = 5 * 3 + 5 * 1.
Proof.
  eexists. split; [vm_compute; reflexivity|]. split; [vm_compute; reflexivity|].
  destruct (row_count_law (hd [] sampleMixes2) (tl sampleMixes2)
              (Some sampleMaterials) [] _ ltac:(vm_compute; reflexivity))
    as (_ & Hlen & _).
  rewrite Hlen. vm_compute. reflexivity.
Defined.

Lemma plant_column_of_mixRows lookup row :
  map (fun r => r !! 0) (mixRows lookup row)
  = flat_map (fun plant => replicate (length (constituentsOf row)) (Some (VStr plant)))
             PLANTS.
Proof.
  assert (Hconst : forall plant (cs : list Constituent),
            map (fun r => r !! 0) (map (outRowOf lookup (baseDataOf row) plant) cs)
            = replicate (length cs) (Some (VStr plant))).
  { intros plant cs. induction cs as [|cst cs IH]; [done|].
    cbn [map length replicate]. by rewrite IH. }
  unfold mixRows. induction PLANTS as [|plant ps IH]; [done|].
  cbn [flat_map]. by rewrite map_app, Hconst, IH.
Qed.

(** C3. Rows are emitted mix by mix; within a mix the five plant codes
    01, 02, 03, 05, 06 are the outer loop and the constituents the inner
    one, so the rows of one plant are contiguous; a single valid mix with
    water as its only constituent gives exactly five data rows, one per
    plant code in that order, equal outside the Plant Code column. *)
Theorem plant_major_order headers dataRows materialsData c tbl :
  completionOf (convertMPAQMixes (headers :: dataRows) materialsData) c = Return tbl ->
  PLANTS = ["01"; "02"; "03"; "05"; "06"]
  /\ tl tbl
     = flat_map (fun mix =>
         flat_map (fun plant =>
           map (fun cst => VStr plant
                           :: rowTail (lookupOf materialsData) (baseDataOf mix) cst)
               (constituentsOf mix)) PLANTS)
         (validMixesOf headers dataRows)
  /\ (forall mix,
        map (fun r => r !! 0) (mixRows (lookupOf materialsData) mix)
        = flat_map (fun plant =>
                      replicate (length (constituentsOf mix)) (Some (VStr plant)))
                   ["01"; "02"; "03"; "05"; "06"])
  /\ (forall mix,
        validMixesOf headers dataRows = [mix] ->
        constituentsOf mix = [waterOf mix] ->
        tl tbl
        = map (fun plant => VStr plant
                            :: rowTail (lookupOf materialsData) (baseDataOf mix)
                                       (waterOf mix))
              ["01"; "02"; "03"; "05"; "06"]).
Proof.
  intros H.
  apply convert_Return in H
    as (headers' & dataRows' & first & rest & [= <- <-] & _ & Hv & _ & _ & ->).
  rewrite <- Hv. cbn [tl].
  split; [reflexivity|]. split; [reflexivity|]. split.
  - intros mix. apply plant_column_of_mixRows.
  - intros mix Hone Hwater. rewrite Hone. cbn [flat_map].
    rewrite app_nil_r. unfold mixRows, outRowOf, PLANTS.
    rewrite Hwater. reflexivity.
Qed.

Lemma plant_major_order_witness :
  exists tbl mix,
    completionOf (convertMPAQMixes sampleMixes None) [] = Return tbl
    /\ validMixesOf (hd [] sampleMixes) (tl sampleMixes) = [mix]
    /\ tl tbl = map (fun plant => VStr plant :: rowTail [] (baseDataOf mix) (waterOf mix))
                    ["01"; "02"; "03"; "05"; "06"].
Proof.
  eexists. eexists. split; [vm_compute; reflexivity|].
  split; [reflexivity|].
  destruct (plant_major_order (hd [] sampleMixes) (tl sampleMixes) None [] _
              ltac:(vm_compute; reflexivity)) as (_ & _ & _ & Hone).
  apply (Hone _ eq_refl). vm_compute. reflexivity.
Defined.

(* ===================================================================== *)
(** * Repeated calls                                                     *)
(* ===================================================================== *)

Lemma map_flat_map {A B C} (f : B -> C) (g : A -> list B) l :
  map f (flat_map g l) = flat_map (fun x => map f (g x)) l.
Proof. induction l as [|x l IH]; [done|]. cbn. by rewrite map_app, IH. Qed.









(* ===================================================================== *)
(** * The filter law                                                     *)
(* ===================================================================== *)

Lemma recordsOf_app headers pre post :
  recordsOf headers (pre ++ post) = recordsOf headers pre ++ recordsOf headers post.
Proof. unfold recordsOf. apply map_app. Qed.

Lemma convertResult_drop_invalid headers pre row post materialsData :
  callable (rowToObject headers row) = true ->
  keptByFilter (rowToObject headers row) = false ->
  convertResult (headers :: pre ++ row :: post) materialsData
  = convertResult (headers :: pre ++ post) materialsData.
Proof.
  intros Hc Hk. unfold convertResult, validMixesOf.
  rewrite !recordsOf_app. change (recordsOf headers (row :: post))
    with (rowToObject headers row :: recordsOf headers post).
  rewrite !forallb_app, !List.filter_app. cbn [forallb List.filter].
  by rewrite Hc, Hk.
Qed.

Lemma validMixesOf_around headers pre row post :
  validMixesOf headers (pre ++ row :: post)
  = validMixesOf headers pre
    ++ (if keptByFilter (rowToObject headers row) then [rowToObject headers row] else [])
    ++ validMixesOf headers post.
Proof.
  unfold validMixesOf. rewrite recordsOf_app, List.filter_app.
  change (recordsOf headers (row :: post))
    with (rowToObject headers row :: recordsOf headers post).
  cbn [List.filter]. by destruct (keptByFilter (rowToObject headers row)).
Qed.

Lemma mix_name_of_outRow lookup b plant cst :
  column "Mix Name" (outRowOf lookup b plant cst) = Some (mixName b).
Proof. by destruct cst as [[[? ?] ?] ?]. Qed.

(** C2. A record stays in the pipeline exactly when its WaterTarget parses
    to a number greater than 0.  Null, undefined, the empty string, NaN, 0,
    the string 0 and a missing key are all rejected.  In the table a call
    returns, the data rows are those of the kept records before the
    record, then the rows of the record itself if it is kept and no row
    if it is rejected, then those of the kept records after it.  A kept
    record has 5 rows for each of its constituents, at least 5, all
    bearing its MixId as their Mix Name.  A rejected record leaves no
    trace: the call completes as it does without the record. *)
Theorem filter_law headers pre row post materialsData c v :
  safeGet (rowToObject headers row) "WaterTarget" = Return v ->
  isValidMix (rowToObject headers row) = Return (numGt (parseFloat v) (ofZ 0))
  /\ (In v [VNull; VUndefined; VStr ""; VNum NaN; VNum (ofZ 0); VStr "0"]
      \/ hasColumn (rowToObject headers row) "WaterTarget" = false ->
      isValidMix (rowToObject headers row) = Return false)
  /\ (forall tbl,
        completionOf (convertMPAQMixes (headers :: pre ++ row :: post) materialsData) c
        = Return tbl ->
        tl tbl
        = flat_map (mixRows (lookupOf materialsData)) (validMixesOf headers pre)
          ++ (if numGt (parseFloat v) (ofZ 0)
              then mixRows (lookupOf materialsData) (rowToObject headers row)
              else [])
          ++ flat_map (mixRows (lookupOf materialsData)) (validMixesOf headers post))
  /\ (isValidMix (rowToObject headers row) = Return true ->
      length (mixRows (lookupOf materialsData) (rowToObject headers row))
      = 5 * constituentCount (rowToObject headers row)
      /\ 1 <= constituentCount (rowToObject headers row)
      /\ Forall (fun r => column "Mix Name" r
                          = Some (cell (rowToObject headers row) "MixId"))
                (mixRows (lookupOf materialsData) (rowToObject headers row)))
  /\ (isValidMix (rowToObject headers row) = Return false ->
      completionOf (convertMPAQMixes (headers :: pre ++ row :: post) materialsData) c
      = completionOf (convertMPAQMixes (headers :: pre ++ post) materialsData) c).
Proof.
  intros Hget. apply safeGet_Return in Hget as [Hc ->].
  rewrite (isValidMix_callable _ Hc). fold (keptByFilter (rowToObject headers row)).
  split; [done|]. split; [|split; [|split]].
  - intros Hin. f_equal. apply zeroOrEmpty_not_positive.
    destruct Hin as [Hin|Hmissing].
    + cbn [In] in Hin.
      destruct Hin as [<-|[<-|[<-|[<-|[<-|[<-|[]]]]]]]; reflexivity.
    + unfold hasColumn in Hmissing. unfold cell.
      by destruct (own (rowToObject headers row) !! "WaterTarget").
  - intros tbl H.
    apply convert_Return in H
      as (headers' & dataRows' & first & rest & [= <- <-] & _ & Hv & _ & _ & ->).
    rewrite <- Hv, validMixesOf_around. cbn [tl].
    rewrite !flat_map_app.
    destruct (keptByFilter (rowToObject headers row)); cbn [flat_map];
      by rewrite ?app_nil_r.
  - intros [= Hk]. split; [|split].
    + by rewrite mixRows_length, constituentsOf_length.
    + unfold constituentCount. lia.
    + apply mixRows_Forall. intros plant cst _ _. apply mix_name_of_outRow.
  - intros [= Hk]. rewrite !completionOf_convert.
    by apply convertResult_drop_invalid.
Qed.

Lemma filter_law_witness :
  let headers := hd [] sampleMixes2 in
  let mix1 := nth 0 (tl sampleMixes2) [] in
  let mix2 := nth 1 (tl sampleMixes2) [] in
  exists tbl,
    completionOf (convertMPAQMixes sampleMixes2 None) [] = Return tbl
    /\ safeGet (rowToObject headers mix1) "WaterTarget" = Return (VNum (ofZ 180))
    /\ isValidMix (rowToObject headers mix1) = Return true
    /\ firstn 15 (tl tbl) = mixRows [] (rowToObject headers mix1)
    /\ safeGet (rowToObject headers mix2) "WaterTarget" = Return (VNum (ofZ 0))
    /\ isValidMix (rowToObject headers mix2) = Return false
    /\ length (tl tbl) = 15 + 0 + 5
    /\ completionOf (convertMPAQMixes
                       (headers :: firstn 1 (tl sampleMixes2)
                                   ++ skipn 2 (tl sampleMixes2)) None) []
       = Return tbl.
Proof.
  intros headers mix1 mix2.
  assert (Hret : exists tbl,
             completionOf (convertMPAQMixes sampleMixes2 None) [] = Return tbl).
  { eexists. vm_compute. reflexivity. }
  destruct Hret as [tbl Hret]. exists tbl. split; [exact Hret|].
  assert (Hget1 : safeGet (rowToObject headers mix1) "WaterTarget"
                  = Return (VNum (ofZ 180))) by (vm_compute; reflexivity).
  assert (Hget2 : safeGet (rowToObject headers mix2) "WaterTarget"
                  = Return (VNum (ofZ 0))) by (vm_compute; reflexivity).
  destruct (filter_law headers [] mix1 (skipn 1 (tl sampleMixes2)) None [] _ Hget1)
    as (Hkept & _ & Hrows1 & _ & _).
  destruct (filter_law headers (firstn 1 (tl sampleMixes2)) mix2
              (skipn 2 (tl sampleMixes2)) None [] _ Hget2)
    as (_ & Hrejected & Hrows2 & _ & Hdrop).
  assert (Hfalse : isValidMix (rowToObject headers mix2) = Return false).
  { apply Hrejected. left. cbn [In]. tauto. }
  split; [exact Hget1|]. split; [rewrite Hkept; vm_compute; reflexivity|].
  split.
  { rewrite (Hrows1 tbl Hret). vm_compute. reflexivity. }
  split; [exact Hget2|]. split; [exact Hfalse|]. split.
  { rewrite (Hrows2 tbl Hret). vm_compute. reflexivity. }
  rewrite <- (Hdrop Hfalse). exact Hret.
Defined.

(* ===================================================================== *)
(** * Required columns                                                   *)
(* ===================================================================== *)

(** A record has no key outside the header row. *)
Lemma assignCells_key headers row k : forall index obj,
  hasColumn (assignCells headers index row obj) k = true ->
  hasColumn obj k = true \/ In k (map ToString headers).
Proof.
  induction headers as [|header headers IH]; intros index obj H; [by left|].
  cbn [assignCells] in H. apply IH in H as [H|H]; [|right; by right].
  unfold assign in H.
  destruct (String.eqb (ToString header) "__proto__" && negb (protoNull obj)).
  - left. by destruct (elementAt row index).
  - unfold hasColumn in H. cbn [own] in H.
    destruct (decide (ToString header = k)) as [Heq|Hne].
    + right. by left.
    + left. unfold hasColumn. by rewrite lookup_insert_ne in H.
Qed.

Lemma rowToObject_key headers row k :
  hasColumn (rowToObject headers row) k = true -> In k (map ToString headers).
Proof.
  intros H. apply assignCells_key in H as [H|H]; [|done].
  unfold hasColumn, emptyObject in H. cbn [own] in H.
  by rewrite lookup_empty in H.
Qed.

(** C4, as the code has it.  When the filter keeps at least one record and
    the header row has no MixId or no Name column, the call fails with
    MissingRequiredColumns; the check reads the first record the filter
    kept, after the filter, so a table in which the filter keeps nothing
    fails with NoValidRows whatever its columns. *)
Theorem missing_columns_after_filter headers dataRows materialsData c valid :
  filterC isValidMix (recordsOf headers dataRows) = Return valid ->
  ~ In "MixId" (map ToString headers) \/ ~ In "Name" (map ToString headers) ->
  completionOf (convertMPAQMixes (headers :: dataRows) materialsData) c
  = Throw (match valid with
           | [] => NoValidRows
           | _ :: _ => MissingRequiredColumns
           end).
Proof.
  intros Hf Hcols. rewrite completionOf_convert. unfold convertResult.
  rewrite filterC_isValidMix in Hf.
  destruct (forallb callable (recordsOf headers dataRows)); [|discriminate].
  injection Hf as <-. fold (validMixesOf headers dataRows).
  destruct (validMixesOf headers dataRows) as [|first rest] eqn:Hv; [done|].
  assert (Hin : In first (recordsOf headers dataRows)).
  { assert (Hf : In first (validMixesOf headers dataRows)) by (rewrite Hv; by left).
    unfold validMixesOf in Hf. by apply filter_In in Hf as [Hf _]. }
  apply in_map_iff in Hin as [row [<- _]].
  destruct (hasColumn (rowToObject headers row) "MixId") eqn:H1;
    destruct (hasColumn (rowToObject headers row) "Name") eqn:H2;
    cbn [andb]; try reflexivity.
  apply rowToObject_key in H1. apply rowToObject_key in H2. tauto.
Qed.

Lemma missing_columns_after_filter_witness :
  exists valid,
    filterC isValidMix (recordsOf (hd [] noMixIdWater) (tl noMixIdWater)) = Return valid
    /\ length valid = 1
    /\ ~ In "MixId" (map ToString (hd [] noMixIdWater))
    /\ completionOf (convertMPAQMixes noMixIdWater None) [] = Throw MissingRequiredColumns.
Proof.
  assert (Hno : ~ In "MixId" (map ToString (hd [] noMixIdWater))).
  { cbn. intros [H|[H|[]]]; discriminate. }
  eexists. split; [vm_compute; reflexivity|]. split; [reflexivity|].
  split; [exact Hno|].
  apply (missing_columns_after_filter (hd [] noMixIdWater) (tl noMixIdWater) None []
           _ ltac:(vm_compute; reflexivity) (or_introl Hno)).
Defined.

(** C4, as the specification words it, fails: this table has no MixId column and
    no record with a positive WaterTarget, and the call fails with
    NoValidRows, not with MissingRequiredColumns. *)
Lemma missing_columns_before_filter_counterexample :
  ~ In "MixId" (map ToString (hd [] noMixIdNoWater))
  /\ completionOf (convertMPAQMixes noMixIdNoWater None) [] = Throw NoValidRows
  /\ completionOf (convertMPAQMixes noMixIdNoWater None) []
     <> Throw MissingRequiredColumns.
Proof.
  split; [|split].
  - cbn. intros [H|[H|[]]]; discriminate.
  - vm_compute. reflexivity.
  - vm_compute. discriminate.
Qed.

(* ===================================================================== *)
(** * The materials lookup                                               *)
(* ===================================================================== *)

Lemma Map_get_set m k v k' :
  Map.get (Map.set m k v) k' = if String.eqb k k' then Some v else Map.get m k'.
Proof.
  induction m as [|[k0 v0] m IH]; cbn [Map.set Map.get]; [done|].
  destruct (String.eqb k0 k) eqn:E0; cbn [Map.get].
  - apply String.eqb_eq in E0 as ->. by destruct (String.eqb k k').
  - rewrite IH. destruct (String.eqb k0 k') eqn:E1; [|done].
    apply String.eqb_eq in E1 as ->. by rewrite String.eqb_sym, E0.
Qed.

(** What one data row adds to the lookup. *)
Lemma lookupStep_get ti ci lookup row k :
  Map.get (lookupStep ti ci lookup row) k
  = match Map.get lookup k with
    | Some v => Some v
    | None =>
        if bool_decide (rowName ti row = Some k) && truthy (elementAt row ci)
        then Some (rowCode ci row) else None
    end.
Proof.
  unfold lookupStep, rowName, rowCode, Map.has.
  destruct (truthy (elementAt row ti)) eqn:Ht; cbn [andb].
  2:{ rewrite bool_decide_eq_false_2 by discriminate.
      by destruct (Map.get lookup k). }
  destruct (truthy (elementAt row ci)) eqn:Hc.
  2:{ rewrite andb_false_r. by destruct (Map.get lookup k). }
  rewrite andb_true_r.
  set (name := trim (ToString (elementAt row ti))).
  destruct (decide (name = k)) as [<-|Hne].
  - rewrite bool_decide_eq_true_2 by done.
    destruct (Map.get lookup name) eqn:Hg; cbn [negb]; [done|].
    by rewrite Map_get_set, String.eqb_refl.
  - rewrite bool_decide_eq_false_2 by congruence.
    destruct (Map.get lookup name) eqn:Hg; cbn [negb];
      [by destruct (Map.get lookup k)|].
    rewrite Map_get_set. apply String.eqb_neq in Hne. rewrite Hne.
    by destruct (Map.get lookup k).
Qed.

Lemma fold_lookupStep_get ti ci rows k : forall lookup,
  Map.get (fold_left (lookupStep ti ci) rows lookup) k
  = match Map.get lookup k with
    | Some v => Some v
    | None => firstStoredCode ti ci rows k
    end.
Proof.
  unfold firstStoredCode.
  induction rows as [|row rows IH]; intros lookup; cbn [fold_left List.find].
  - by destruct (Map.get lookup k).
  - rewrite IH, lookupStep_get.
    destruct (Map.get lookup k); [done|].
    by destruct (bool_decide (rowName ti row = Some k) && truthy (elementAt row ci)).
Qed.

Lemma firstStoredCode_first ti ci pre row post k :
  rowName ti row = Some k -> truthy (elementAt row ci) = true ->
  Forall (fun r => rowName ti r <> Some k \/ truthy (elementAt r ci) = false) pre ->
  firstStoredCode ti ci (pre ++ row :: post) k = Some (rowCode ci row).
Proof.
  intros Hn Hc Hpre. unfold firstStoredCode.
  induction Hpre as [|r pre Hr _ IH]; cbn [app List.find].
  - by rewrite bool_decide_eq_true_2, Hc.
  - destruct Hr as [Hr|Hr].
    + by rewrite bool_decide_eq_false_2.
    + by rewrite Hr, andb_false_r.
Qed.

(** C6, as the code has it.  With both columns found, the lookup maps each
    name to the trimmed code of the first data row that bears the name
    (its name cell is truthy and trims to the name) and has a truthy code
    cell; a row whose name cell or code cell is falsy (the empty text,
    null, undefined, false, 0 or NaN) is passed over, and rows after the
    first stored one that bear the same name change nothing. *)
Theorem first_stored_code_wins headers dataRows ti ci :
  materialTypeColumn headers = Some ti ->
  productionCodeColumn headers = Some ci ->
  exists lookup,
    completes (createMaterialsLookup (headers :: dataRows)) (Return lookup)
    /\ (forall k, Map.get lookup k = firstStoredCode ti ci dataRows k)
    /\ (forall pre row post k,
          dataRows = pre ++ row :: post ->
          rowName ti row = Some k -> truthy (elementAt row ci) = true ->
          Forall (fun r => rowName ti r <> Some k \/ truthy (elementAt r ci) = false) pre ->
          Map.get lookup k = Some (rowCode ci row)).
Proof.
  intros Hti Hci. exists (lookupOf (Some (headers :: dataRows))).
  split; [apply createMaterialsLookup_completes|].
  assert (Hget : forall k, Map.get (lookupOf (Some (headers :: dataRows))) k
                           = firstStoredCode ti ci dataRows k).
  { intros k. unfold lookupOf. rewrite Hti, Hci.
    by rewrite fold_lookupStep_get. }
  split; [exact Hget|].
  intros pre row post k -> Hn Hc Hpre. rewrite Hget.
  by apply firstStoredCode_first.
Qed.

Lemma first_stored_code_wins_witness :
  (exists lookup,
     completionOf (createMaterialsLookup sampleMaterials) [] = Return lookup
     /\ Map.get lookup "Cement" = Some "CEM-1"
     /\ Map.get lookup "Sand" = Some "AGG-7"
     /\ Map.get lookup "Gravel" = None)
  /\ (exists lookup,
        completionOf (createMaterialsLookup zeroCodeFirst) [] = Return lookup
        /\ isEmptyValue (VNum (ofZ 0)) = false
        /\ truthy (VNum (ofZ 0)) = false
        /\ Map.get lookup "Cement" = Some "C2").
Proof.
  split.
  - destruct (first_stored_code_wins (hd [] sampleMaterials) (tl sampleMaterials) 0 1
                eq_refl eq_refl) as (lookup & Hc & Hget & _).
    exists lookup. split; [by apply completes_completionOf|].
    rewrite !Hget. by vm_compute.
  - destruct (first_stored_code_wins (hd [] zeroCodeFirst) (tl zeroCodeFirst) 0 1
                eq_refl eq_refl) as (lookup & Hc & _ & Hfirst).
    exists lookup. split; [by apply completes_completionOf|].
    split; [vm_compute; reflexivity|]. split; [vm_compute; reflexivity|].
    rewrite (Hfirst [[str "Cement"; VNum (ofZ 0)]] [str "Cement"; str "C2"] [] "Cement"
               eq_refl ltac:(vm_compute; reflexivity) ltac:(vm_compute; reflexivity)).
    + vm_compute. reflexivity.
    + apply List.Forall_cons; [|apply List.Forall_nil]. right. vm_compute. reflexivity.
Defined.

(** C6, as the specification words it, fails: the first row bearing the name
    Cement has an empty code cell; the code the lookup keeps is the later
    row's. *)
Lemma first_row_code_counterexample :
  completionOf (createMaterialsLookup codelessFirst) []
  = Return (lookupOf (Some codelessFirst))
  /\ firstRowCodeSpec 0 1 (tl codelessFirst) "Cement" = Some ""
  /\ Map.get (lookupOf (Some codelessFirst)) "Cement" = Some "C2"
  /\ Map.get (lookupOf (Some codelessFirst)) "Cement"
     <> firstRowCodeSpec 0 1 (tl codelessFirst) "Cement".
Proof.
  split; [|split; [|split]].
  - apply completes_completionOf, createMaterialsLookup_completes.
  - by vm_compute.
  - by vm_compute.
  - vm_compute. discriminate.
Qed.

(* ===================================================================== *)
(** * The constituent item code                                          *)
(* ===================================================================== *)

Lemma item_code_of_outRow lookup b plant cst :
  column "Constituent Item Code" (outRowOf lookup b plant cst)
  = Some (productionCodeOf lookup cst).
Proof. by destruct cst as [[[? ?] ?] ?]. Qed.

Lemma productionCodeOf_cases lookup cst :
  productionCodeOf lookup cst
  = match Map.get lookup (lookupName cst) with
    | Some code => if isEmptyString (lookupName cst) then rawId cst else VStr code
    | None => rawId cst
    end.
Proof.
  unfold productionCodeOf, Map.has.
  destruct (isEmptyString (lookupName cst)), (Map.get lookup (lookupName cst)); done.
Qed.

Lemma convertResult_succeeds_for_any_lookup mixData materialsData materialsData' tbl :
  convertResult mixData materialsData = Return tbl ->
  exists tbl', convertResult mixData materialsData' = Return tbl'
               /\ length tbl' = length tbl.
Proof.
  unfold convertResult.
  destruct mixData as [|headers dataRows]; [discriminate|].
  destruct (forallb callable _); [|discriminate].
  destruct (validMixesOf headers dataRows) as [|first rest]; [discriminate|].
  destruct (hasColumn first "MixId" && hasColumn first "Name"); [|discriminate].
  generalize (first :: rest). intros valid [= <-].
  eexists. split; [reflexivity|].
  cbn [length]. f_equal. rewrite !flat_map_length_sum. f_equal.
  apply map_ext. intros row. by rewrite !mixRows_length.
Qed.

(** C7, as the code has it.  The Constituent Item Code of a row is the
    lookup entry under the constituent's name when the name is not empty
    and has an entry, and the raw material id otherwise; the name is the
    trimmed text of the name cell, an empty, zero or missing cell counting
    as the empty name.  The lookup never makes a call fail: a call that
    returns with one materials table returns with any other, or with
    none, on as many rows. *)
Theorem item_code_resolution headers dataRows materialsData c tbl :
  completionOf (convertMPAQMixes (headers :: dataRows) materialsData) c = Return tbl ->
  Forall (fun row =>
            exists mix plant cst,
              In mix (validMixesOf headers dataRows)
              /\ In cst (constituentsOf mix)
              /\ row = outRowOf (lookupOf materialsData) (baseDataOf mix) plant cst
              /\ lookupName cst
                 = (let '(_, _, matName, _) := cst in
                    trim (ToString (if truthy matName then matName else VStr "")))
              /\ column "Constituent Item Code" row
                 = Some (match Map.get (lookupOf materialsData) (lookupName cst) with
                         | Some code =>
                             if isEmptyString (lookupName cst) then rawId cst
                             else VStr code
                         | None => rawId cst
                         end))
         (tl tbl)
  /\ (forall materialsData',
        exists tbl',
          completionOf (convertMPAQMixes (headers :: dataRows) materialsData') c
          = Return tbl'
          /\ length tbl' = length tbl).
Proof.
  intros H. split.
  - apply convert_Return in H
      as (headers' & dataRows' & first & rest & [= <- <-] & _ & Hv & _ & _ & ->).
    rewrite <- Hv. cbn [tl]. apply Forall_forall. intros r Hr.
    apply list_elem_of_In, in_flat_map in Hr as [mix [Hmix Hr]].
    unfold mixRows in Hr. apply in_flat_map in Hr as [plant [_ Hr]].
    apply in_map_iff in Hr as [cst [<- Hcst]].
    exists mix, plant, cst. split; [done|]. split; [done|]. split; [done|].
    split; [by destruct cst as [[[? ?] ?] ?]|].
    by rewrite item_code_of_outRow, productionCodeOf_cases.
  - intros materialsData'. rewrite completionOf_convert in H.
    rewrite completionOf_convert.
    by eapply convertResult_succeeds_for_any_lookup.
Qed.

Lemma item_code_resolution_witness :
  exists tbl,
    completionOf (convertMPAQMixes sampleMixes2 (Some sampleMaterials)) [] = Return tbl
    /\ map (column "Constituent Item Code") (firstn 3 (tl tbl))
       = [Some (VStr "AGG-7"); Some (VStr "CEM-1"); Some (VStr "WATER")]
    /\ exists tbl', completionOf (convertMPAQMixes sampleMixes2 None) [] = Return tbl'
                    /\ length tbl' = length tbl.
Proof.
  eexists. split; [vm_compute; reflexivity|]. split; [vm_compute; reflexivity|].
  destruct (item_code_resolution (hd [] sampleMixes2) (tl sampleMixes2)
              (Some sampleMaterials) [] _ ltac:(vm_compute; reflexivity))
    as [_ Hany].
  exact (Hany None).
Defined.

(** C7, as the specification words it, fails: the lookup has an entry under the
    trimmed name of the aggregate of this mix (the empty name), and the
    row carries the raw material id all the same. *)
Lemma item_code_counterexample :
  let lookup := lookupOf (Some blankNameMaterials) in
  let cst : Constituent := ("Aggregate", VStr "A1", VStr "", VStr "800") in
  Map.get lookup (trim (ToString (VStr ""))) = Some "X"
  /\ itemCodeSpec lookup cst = VStr "X"
  /\ exists tbl mix row,
       completionOf (convertMPAQMixes unnamedAggregate (Some blankNameMaterials)) []
       = Return tbl
       /\ validMixesOf (hd [] unnamedAggregate) (tl unnamedAggregate) = [mix]
       /\ nth_error tbl 1 = Some row
       /\ row = outRowOf lookup (baseDataOf mix) "01" cst
       /\ column "Constituent Item Code" row = Some (VStr "A1")
       /\ column "Constituent Item Code" row <> Some (itemCodeSpec lookup cst).
Proof.
  intros lookup cst. split; [by vm_compute|]. split; [by vm_compute|].
  eexists. eexists. eexists.
  split; [vm_compute; reflexivity|]. split; [vm_compute; reflexivity|].
  split; [reflexivity|]. split; [vm_compute; reflexivity|].
  split; [vm_compute; reflexivity|]. vm_compute. discriminate.
Qed.

(* ===================================================================== *)
(** * The slump extraction ladder                                        *)
(* ===================================================================== *)

(** ** Strings *)

#[local] Arguments String.append !_ _ / : simpl nomatch.

Lemma append_nil_r s : s +:+ "" = s.
Proof. induction s as [|c s IH]; [done|]. cbn. by rewrite IH. Qed.

Lemma startsWith_append p post : startsWith p (p +:+ post) = true.
Proof.
  induction p as [|c p IH]; [done|]. cbn. by rewrite Ascii.eqb_refl, IH.
Qed.

Lemma startsWith_split p s :
  startsWith p s = true -> exists post, s = p +:+ post.
Proof.
  revert s. induction p as [|c p IH]; intros s H; [by exists s|].
  destruct s as [|c' s]; [discriminate|]. cbn in H.
  apply andb_true_iff in H as [Hc Hp]. apply Ascii.eqb_eq in Hc as <-.
  destruct (IH _ Hp) as [post ->]. by exists post.
Qed.

Lemma equalCI_length p kw : equalCI p kw = true -> String.length kw = String.length p.
Proof.
  revert kw. induction p as [|c p IH]; intros [|c' kw] H; try discriminate; [done|].
  cbn in H. apply andb_true_iff in H as [_ H]. cbn. by rewrite (IH _ H).
Qed.

Lemma startsWithCI_append p kw post :
  equalCI p kw = true -> startsWithCI p (kw +:+ post) = true.
Proof.
  revert kw. induction p as [|c p IH]; intros [|c' kw] H; try discriminate; [done|].
  cbn in H. apply andb_true_iff in H as [Hc H]. cbn. by rewrite Hc, (IH _ H).
Qed.

Lemma startsWithCI_split p s :
  startsWithCI p s = true ->
  exists kw post, s = kw +:+ post /\ equalCI p kw = true.
Proof.
  revert s. induction p as [|c p IH]; intros s H; [by exists "", s|].
  destruct s as [|c' s]; [discriminate|]. cbn in H.
  apply andb_true_iff in H as [Hc Hp].
  destruct (IH _ Hp) as (kw & post & -> & Hkw).
  exists (String c' kw), post. split; [done|]. cbn. by rewrite Hc, Hkw.
Qed.

Lemma dropChars_append kw rest : dropChars (String.length kw) (kw +:+ rest) = rest.
Proof. induction kw as [|c kw IH]; [by destruct rest|]. exact IH. Qed.

Lemma span_split p s a b :
  span p s = (a, b) -> s = a +:+ b /\ allChars p a = true /\ stopsAt p b.
Proof.
  revert a b. induction s as [|c s IH]; intros a b H; cbn in H.
  - by injection H as <- <-.
  - destruct (p c) eqn:Hc.
    + destruct (span p s) as [a' b'] eqn:Hs. injection H as <- <-.
      destruct (IH _ _ eq_refl) as (-> & Ha & Hb).
      split; [done|]. split; [|done]. cbn. by rewrite Hc, Ha.
    + injection H as <- <-. by split; [|split].
Qed.

Lemma span_append p a b :
  allChars p a = true -> stopsAt p b -> span p (a +:+ b) = (a, b).
Proof.
  intros Ha Hb. induction a as [|c a IH]; cbn.
  - destruct b as [|c b]; [done|]. cbn in Hb. cbn. by rewrite Hb.
  - cbn in Ha. apply andb_true_iff in Ha as [Hc Ha]. by rewrite Hc, (IH Ha).
Qed.

Lemma isEmptyString_false s : s <> "" -> isEmptyString s = false.
Proof. by destruct s. Qed.

Lemma isEmptyString_false_inv s : isEmptyString s = false -> s <> "".
Proof. by destruct s. Qed.

(** ** An unanchored match is the leftmost anchored one *)

Lemma search_None {A} (f : string -> option A) s :
  search f s = None -> forall pre suf, s = pre +:+ suf -> f suf = None.
Proof.
  induction s as [|c s IH]; cbn; intros H pre suf Hs.
  - destruct pre; [|discriminate]. cbn in Hs. subst suf.
    by destruct (f "").
  - destruct (f (String c s)) eqn:Hf; [discriminate|].
    destruct pre as [|c' pre]; cbn in Hs; [by subst suf|].
    injection Hs as <- ->. by eapply IH.
Qed.

Lemma search_Some {A} (f : string -> option A) s x :
  search f s = Some x ->
  exists pre suf,
    s = pre +:+ suf /\ f suf = Some x
    /\ forall pre' suf', s = pre' +:+ suf' ->
                         String.length pre' < String.length pre -> f suf' = None.
Proof.
  induction s as [|c s IH]; cbn; intros H.
  - destruct (f "") eqn:Hf; [|discriminate]. injection H as ->.
    exists "", "". split; [done|]. split; [done|]. intros ? ? _ Hlt. cbn in Hlt. lia.
  - destruct (f (String c s)) eqn:Hf.
    + injection H as ->. exists "", (String c s).
      split; [done|]. split; [done|]. intros ? ? _ Hlt. cbn in Hlt. lia.
    + destruct (IH H) as (pre & suf & -> & Hsuf & Hmin).
      exists (String c pre), suf. split; [done|]. split; [done|].
      intros [|c' pre'] suf' Hs Hlt; cbn in Hs.
      * by subst suf'.
      * injection Hs as <- Hs. eapply Hmin; [done|]. cbn in Hlt. lia.
Qed.

(** ** The two patterns *)

Lemma digit_is_plain c :
  isDigit c = true ->
  isWhiteSpace c = false /\ Ascii.eqb (canonicalize "m") (canonicalize c) = false
  /\ c <> "'"%char.
Proof.
  destruct c as [[] [] [] [] [] [] [] []]; try discriminate; by intros _.
Qed.

Lemma digits_stop_whitespace d rest :
  d <> "" -> allChars isDigit d = true -> stopsAt isWhiteSpace (d +:+ rest).
Proof.
  destruct d as [|c d]; [done|]. intros _ H. cbn in H.
  apply andb_true_iff in H as [H _]. cbn. by apply digit_is_plain in H as [H _].
Qed.

Lemma reQuotedMmAt_spec suf d : reQuotedMmAt suf = Some d <-> QuotedMmHead suf d.
Proof.
  unfold reQuotedMmAt, QuotedMmHead. split.
  - destruct suf as [|c r]; [discriminate|].
    destruct (Ascii.eqb_spec c "'") as [->|Hne].
    2:{ destruct c as [[] [] [] [] [] [] [] []]; try discriminate. by destruct Hne. }
    destruct (span isDigit r) as [d' r'] eqn:Hs.
    destruct (negb (isEmptyString d') && startsWith "'mm" r') eqn:Hok; [|discriminate].
    intros [= <-]. apply andb_true_iff in Hok as [Hd Hmm].
    apply negb_true_iff, isEmptyString_false_inv in Hd.
    apply span_split in Hs as (-> & Hall & _).
    apply startsWith_split in Hmm as [post ->]. by exists post.
  - intros (post & -> & Hd & Hall).
    change ("'" +:+ d +:+ "'mm" +:+ post) with (String "'" (d +:+ "'mm" +:+ post)).
    cbv beta iota.
    rewrite (span_append isDigit d ("'mm" +:+ post) Hall) by done.
    rewrite (isEmptyString_false _ Hd).
    by rewrite (startsWith_append "'mm" post).
Qed.

Lemma mm_stops_digits u post : equalCI "mm" u = true -> stopsAt isDigit (u +:+ post).
Proof.
  destruct u as [|c u]; [discriminate|]. cbn. intros H.
  apply andb_true_iff in H as [H _].
  destruct (isDigit c) eqn:Hc; [|done].
  apply digit_is_plain in Hc as (_ & Hc & _). cbn in Hc. congruence.
Qed.

Lemma reSlumpMmAt_spec suf d : reSlumpMmAt suf = Some d <-> SlumpMmHead suf d.
Proof.
  unfold reSlumpMmAt, SlumpMmHead. split.
  - destruct (startsWithCI "Slump" suf) eqn:Hkw; [|discriminate].
    apply startsWithCI_split in Hkw as (kw & rest & -> & Hkw).
    pose proof (equalCI_length _ _ Hkw) as Hlen. cbn in Hlen.
    rewrite <- Hlen, dropChars_append.
    destruct (span isWhiteSpace rest) as [ws r1] eqn:Hws.
    destruct (span isDigit r1) as [d' r2] eqn:Hd.
    destruct (negb (isEmptyString ws) && negb (isEmptyString d') && startsWithCI "mm" r2)
      eqn:Hok; [|discriminate].
    intros [= <-]. apply andb_true_iff in Hok as [Hok Hmm].
    apply andb_true_iff in Hok as [Hw Hd'].
    apply negb_true_iff, isEmptyString_false_inv in Hw.
    apply negb_true_iff, isEmptyString_false_inv in Hd'.
    apply span_split in Hws as (-> & Hwall & _).
    apply span_split in Hd as (-> & Hdall & _).
    apply startsWithCI_split in Hmm as (u & post & -> & Hu).
    by exists kw, ws, u, post.
  - intros (kw & ws & u & post & -> & Hkw & Hw & Hwall & Hd & Hdall & Hu).
    rewrite (startsWithCI_append _ _ _ Hkw).
    pose proof (equalCI_length _ _ Hkw) as Hlen. cbn in Hlen.
    rewrite <- Hlen, dropChars_append.
    rewrite (span_append isWhiteSpace ws _ Hwall)
      by (by apply digits_stop_whitespace).
    rewrite (span_append isDigit d _ Hdall) by (by apply mm_stops_digits).
    rewrite (isEmptyString_false _ Hw), (isEmptyString_false _ Hd).
    by rewrite (startsWithCI_append _ _ _ Hu).
Qed.

Lemma search_first (f : string -> option string) (head : string -> string -> Prop) s d :
  (forall suf d, f suf = Some d <-> head suf d) ->
  search f s = Some d -> FirstOccurrence head s d.
Proof.
  intros Hspec H. apply search_Some in H as (pre & suf & -> & Hsuf & Hmin).
  exists pre. split.
  - exists suf. split; [done|]. by apply Hspec.
  - intros pre' d' (suf' & Hs & Hh). apply Hspec in Hh.
    destruct (le_lt_dec (String.length pre) (String.length pre')) as [|Hlt]; [done|].
    rewrite (Hmin _ _ Hs Hlt) in Hh. discriminate.
Qed.

Lemma search_nowhere (f : string -> option string) (head : string -> string -> Prop) s :
  (forall suf d, f suf = Some d <-> head suf d) ->
  search f s = None -> NoOccurrence head s.
Proof.
  intros Hspec H pre d (suf & Hs & Hh). apply Hspec in Hh.
  rewrite (search_None _ _ H _ _ Hs) in Hh. discriminate.
Qed.

Lemma search_somewhere (f : string -> option string) (head : string -> string -> Prop) s :
  (forall suf d, f suf = Some d <-> head suf d) ->
  (exists pre d, OccursIn head s pre d) -> exists d, search f s = Some d.
Proof.
  intros Hspec (pre & d & Hocc).
  destruct (search f s) as [d'|] eqn:H; [by exists d'|].
  by destruct (search_nowhere _ _ _ Hspec H pre d).
Qed.

(** ** The ladder *)

Lemma digit_head c d :
  isDigit c = true ->
  parseSign (String c d) = (false, String c d)
  /\ startsWith "Infinity" (String c d) = false.
Proof.
  destruct c as [[] [] [] [] [] [] [] []]; try discriminate; by intros _.
Qed.

(** [parseFloat] of a run of digits is the number the digits denote. *)
Lemma parseFloatString_digits d :
  d <> "" -> allChars isDigit d = true -> parseFloatString d = numberOfDigits d.
Proof.
  destruct d as [|c d]; [done|]. intros _ H.
  pose proof (span_append isDigit (String c d) "" H I) as Hspan.
  rewrite append_nil_r in Hspan.
  cbn [allChars] in H. apply andb_true_iff in H as [Hc Hd].
  destruct (digit_is_plain _ Hc) as (Hws & _ & _).
  destruct (digit_head c d Hc) as [Hsign Hinf].
  unfold numberOfDigits, parseFloatString, strDecimalLiteral.
  cbn [trimStart]. rewrite Hws, Hsign, Hinf, Hspan.
  cbn [isEmptyString andb parseExponent String.length].
  by rewrite append_nil_r.
Qed.

Lemma QuotedMmHead_digits suf d :
  QuotedMmHead suf d -> parseFloatString d = numberOfDigits d.
Proof. intros (_ & _ & Hd & Hall). by apply parseFloatString_digits. Qed.

Lemma SlumpMmHead_digits suf d :
  SlumpMmHead suf d -> parseFloatString d = numberOfDigits d.
Proof.
  intros (_ & _ & _ & _ & _ & _ & _ & _ & Hd & Hall & _).
  by apply parseFloatString_digits.
Qed.

(** ** A decimal literal never denotes NaN *)

Lemma iter_pos_invariant {A} (P : A -> Prop) (f : A -> A) :
  (forall x, P x -> P (f x)) -> forall p x, P x -> P (SpecFloat.iter_pos f p x).
Proof.
  intros Hf. induction p as [p IH|p IH|]; intros x Hx; cbn [SpecFloat.iter_pos]; auto.
Qed.

Lemma shr_1_nonneg mrs : (0 <= shr_m mrs)%Z -> (0 <= shr_m (shr_1 mrs))%Z.
Proof.
  destruct mrs as [m r s]. cbn [shr_m shr_1].
  destruct m as [|[p|p|]|[p|p|]]; cbn [shr_m]; lia.
Qed.

Lemma shr_fexp_nonneg m e l :
  (0 <= m)%Z -> (0 <= shr_m (shr_fexp prec emax m e l).1)%Z.
Proof.
  intros Hm. unfold shr_fexp, shr.
  assert (H0 : (0 <= shr_m (shr_record_of_loc m l))%Z).
  { by destruct l as [|[]]. }
  destruct (_ - e)%Z as [|p|p]; cbn [fst]; [done| |done].
  apply (iter_pos_invariant (fun mrs => 0 <= shr_m mrs)%Z); [apply shr_1_nonneg | done].
Qed.

Lemma round_nearest_even_nonneg m l :
  (0 <= m)%Z -> (0 <= round_nearest_even m l)%Z.
Proof.
  intros Hm. unfold round_nearest_even.
  destruct l as [|[]]; try done; [destruct (Z.even m)|]; lia.
Qed.

Lemma binary_round_aux_not_nan sx mx ex lx :
  (0 <= mx)%Z -> isNaN (binary_round_aux prec emax sx mx ex lx) = false.
Proof.
  intros Hm. unfold binary_round_aux.
  pose proof (shr_fexp_nonneg mx ex lx Hm) as H1.
  destruct (shr_fexp prec emax mx ex lx) as [mrs' e'].
  cbn [fst] in H1.
  pose proof (shr_fexp_nonneg _ e' loc_Exact
                (round_nearest_even_nonneg _ (loc_of_shr_record mrs') H1)) as H2.
  destruct (shr_fexp prec emax _ e' loc_Exact) as [mrs'' e''].
  cbn [fst] in H2.
  destruct (shr_m mrs'') as [|p|p]; [done| |lia].
  by destruct (e'' <=? emax - prec)%Z.
Qed.

Lemma binary_normalize_not_nan m e szero :
  isNaN (binary_normalize prec emax m e szero) = false.
Proof.
  unfold binary_normalize, binary_round.
  destruct m as [|p|p]; [done| |];
    destruct (shl_align p e _) as [mz ez]; by apply binary_round_aux_not_nan.
Qed.

Lemma ofDecimal_not_nan neg m e10 : isNaN (ofDecimal neg m e10) = false.
Proof.
  unfold ofDecimal.
  destruct (m <=? 0)%Z eqn:Hm; [done|].
  destruct (310 <? _)%Z; [done|]. destruct (_ <? -330)%Z; [done|].
  destruct (0 <=? e10)%Z eqn:He; [apply binary_normalize_not_nan|].
  destruct (SFdiv_core_binary prec emax m 0 (10 ^ (- e10)) 0) as [[q e] l] eqn:Hdiv.
  apply binary_round_aux_not_nan.
  unfold SFdiv_core_binary in Hdiv.
  set (s := (_ - _ - _)%Z) in Hdiv.
  set (m' := match s with Z.pos _ => Z.shiftl m s | 0%Z => m | Z.neg _ => 0%Z end) in Hdiv.
  assert (Hm' : (0 <= m')%Z).
  { subst m'. apply Z.leb_gt in Hm. destruct s; [lia| |lia].
    apply Z.shiftl_nonneg. lia. }
  assert (Hpow : (0 < 10 ^ (- e10))%Z).
  { apply Z.pow_pos_nonneg; [lia|]. apply Z.leb_gt in He. lia. }
  pose proof (Z.div_pos m' (10 ^ (- e10)) Hm' Hpow) as Hq.
  unfold Z.div in Hq.
  destruct (Z.div_eucl m' (10 ^ (- e10))) as [q' r']. by injection Hdiv as <- _ _.
Qed.

Lemma strDecimalLiteral_not_nan s n rest :
  strDecimalLiteral s = Some (n, rest) -> isNaN n = false.
Proof.
  unfold strDecimalLiteral.
  destruct (parseSign s) as [neg r].
  destruct (startsWith "Infinity" r); [by intros [= <- _]|].
  destruct (span isDigit r) as [ip r1].
  destruct (match r1 with String "."%char r' => span isDigit r' | _ => ("", r1) end)
    as [fp r2].
  destruct (isEmptyString ip && isEmptyString fp); [discriminate|].
  destruct (parseExponent r2) as [e r3].
  intros [= <- _]. apply ofDecimal_not_nan.
Qed.

(** [extractSlump] on a value that is neither [null] nor [undefined]. *)
Lemma extractSlump_defined v :
  v <> VNull -> v <> VUndefined ->
  extractSlump v
  = match search reQuotedMmAt (ToString v) with
    | Some m1 => VNum (parseFloatString m1)
    | None =>
        match search reSlumpMmAt (ToString v) with
        | Some m2 => VNum (parseFloatString m2)
        | None =>
            if negb (isNaN (parseFloatString (ToString v)))
            then VNum (parseFloatString (ToString v)) else VStr ""
        end
    end.
Proof. by destruct v. Qed.

(** C5, as the code has it.  [extractSlump] returns empty for null and
    undefined.  Otherwise, on the text of its argument: (a) if digits
    wrapped as 'NN'mm occur, the number of the digits of the first
    occurrence; (b) else, if the word Slump, white space, digits and mm
    occur, letters in either case, the number of the digits of the first
    occurrence; (c) else [parseFloat] of the text, that is the number of
    the longest decimal literal at its head after leading white space,
    whatever follows the literal; empty when there is no such literal. *)
Theorem slump_ladder v :
  (v = VNull \/ v = VUndefined -> extractSlump v = VStr "")
  /\ (v <> VNull -> v <> VUndefined ->
      ((exists pre d, OccursIn QuotedMmHead (ToString v) pre d) ->
       exists d, FirstOccurrence QuotedMmHead (ToString v) d
                 /\ extractSlump v = VNum (numberOfDigits d))
      /\ (NoOccurrence QuotedMmHead (ToString v) ->
          (exists pre d, OccursIn SlumpMmHead (ToString v) pre d) ->
          exists d, FirstOccurrence SlumpMmHead (ToString v) d
                    /\ extractSlump v = VNum (numberOfDigits d))
      /\ (NoOccurrence QuotedMmHead (ToString v) ->
          NoOccurrence SlumpMmHead (ToString v) ->
          extractSlump v
          = match strDecimalLiteral (trimStart (ToString v)) with
            | Some (n, _) => VNum n
            | None => VStr ""
            end)).
Proof.
  split; [by intros [-> | ->]|].
  intros Hnull Hundef. rewrite (extractSlump_defined v Hnull Hundef).
  set (s := ToString v). split; [|split].
  - intros Hocc.
    destruct (search_somewhere _ _ s reQuotedMmAt_spec Hocc) as [d Hd].
    rewrite Hd. exists d.
    pose proof (search_first _ _ _ _ reQuotedMmAt_spec Hd) as Hfirst.
    split; [done|]. destruct Hfirst as (pre & (suf & _ & Hh) & _).
    by rewrite (QuotedMmHead_digits _ _ Hh).
  - intros Hno Hocc.
    destruct (search reQuotedMmAt s) as [d0|] eqn:H0.
    { apply (search_first _ _ _ _ reQuotedMmAt_spec) in H0 as (pre & Hocc0 & _).
      by destruct (Hno _ _ Hocc0). }
    destruct (search_somewhere _ _ s reSlumpMmAt_spec Hocc) as [d Hd].
    rewrite Hd. exists d.
    pose proof (search_first _ _ _ _ reSlumpMmAt_spec Hd) as Hfirst.
    split; [done|]. destruct Hfirst as (pre & (suf & _ & Hh) & _).
    by rewrite (SlumpMmHead_digits _ _ Hh).
  - intros Hno1 Hno2.
    destruct (search reQuotedMmAt s) as [d0|] eqn:H0.
    { apply (search_first _ _ _ _ reQuotedMmAt_spec) in H0 as (pre & Hocc0 & _).
      by destruct (Hno1 _ _ Hocc0). }
    destruct (search reSlumpMmAt s) as [d1|] eqn:H1.
    { apply (search_first _ _ _ _ reSlumpMmAt_spec) in H1 as (pre & Hocc1 & _).
      by destruct (Hno2 _ _ Hocc1). }
    unfold parseFloatString.
    destruct (strDecimalLiteral (trimStart s)) as [[n rest]|] eqn:Hlit; [|done].
    by rewrite (strDecimalLiteral_not_nan _ _ _ Hlit).
Qed.

Lemma slump_ladder_witness :
  (exists d, FirstOccurrence QuotedMmHead "Slump '80'mm" d
             /\ extractSlump (VStr "Slump '80'mm") = VNum (numberOfDigits d))
  /\ extractSlump VNull = VStr ""
  /\ extractSlump (VStr "Slump '80'mm") = VNum (ofZ 80)
  /\ extractSlump (VStr "Slump 80mm") = VNum (ofZ 80)
  /\ extractSlump (VStr "80") = VNum (ofZ 80)
  /\ extractSlump (VStr "no data") = VStr ""
  /\ extractSlump (VNum (ofZ 80)) = VNum (ofZ 80)
  /\ extractSlump (VStr "75 +/- 25") = VNum (ofZ 75).
Proof.
  split; [|split].
  - destruct (slump_ladder (VStr "Slump '80'mm")) as [_ H].
    destruct (H ltac:(discriminate) ltac:(discriminate)) as [Ha _].
    apply Ha. exists "Slump ", "80", "'80'mm". split; [reflexivity|].
    exists "". split; [reflexivity|]. split; [discriminate | reflexivity].
  - apply (proj1 (slump_ladder VNull)). by left.
  - repeat split; vm_compute; reflexivity.
Defined.

(** C5, as the specification words step (c), fails: the entire trimmed
    string 80-100 is not a bare number, so the ladder as worded ends empty;
    [extractSlump] returns 80, the number at the head of the string. *)
Lemma whole_string_counterexample :
  search reQuotedMmAt "80-100" = None
  /\ search reSlumpMmAt "80-100" = None
  /\ wholeNumberSpec "80-100" = None
  /\ extractSlumpSpec (VStr "80-100") = VStr ""
  /\ extractSlump (VStr "80-100") = VNum (ofZ 80)
  /\ extractSlump (VStr "80-100") <> extractSlumpSpec (VStr "80-100").
Proof.
  repeat split; try (vm_compute; reflexivity). vm_compute. discriminate.
Qed.

(* ===================================================================== *)
(** * Strength: the number at the head of the mix name                   *)
(* ===================================================================== *)

Lemma not_point_head {A} (r1 : string) (X : string -> A) (Y : A) :
  stopsAt (Ascii.eqb ".") r1 ->
  match r1 with String "." r2 => X r2 | _ => Y end = Y.
Proof.
  destruct r1 as [|c r]; [done|].
  destruct c as [[] [] [] [] [] [] [] []]; try done.
Qed.

Lemma append_assoc a b c : (a +:+ b) +:+ c = a +:+ b +:+ c.
Proof. induction a as [|x a IH]; [done|]. cbn. by rewrite IH. Qed.

Lemma reLeadingNumber_None s : reLeadingNumber s = None <-> stopsAt isDigit s.
Proof.
  unfold reLeadingNumber. split.
  - destruct s as [|c s]; [done|]. cbn [span stopsAt].
    destruct (isDigit c); [|done].
    destruct (span isDigit s) as [a b]. cbn [isEmptyString].
    destruct b as [|x b]; [done|].
    destruct x as [[] [] [] [] [] [] [] []]; try done;
      by destruct (span isDigit b).
  - intros H. pose proof (span_append isDigit "" s eq_refl H) as Hs.
    cbn in Hs. by rewrite Hs.
Qed.

Lemma reLeadingNumber_Some s m : reLeadingNumber s = Some m <-> LeadingNumber s m.
Proof.
  unfold reLeadingNumber. split.
  - destruct (span isDigit s) as [d1 r1] eqn:Hs.
    apply span_split in Hs as (-> & Hd1 & Hstop).
    destruct (isEmptyString d1) eqn:He; [done|].
    apply isEmptyString_false_inv in He.
    destruct r1 as [|x r1].
    { intros [= <-]. left. exists d1, "". by rewrite append_nil_r. }
    destruct (Ascii.eqb "." x) eqn:Hx.
    + apply Ascii.eqb_eq in Hx as <-.
      destruct (span isDigit r1) as [d2 r2] eqn:Hs2.
      apply span_split in Hs2 as (-> & Hd2 & Hstop2).
      intros [= <-]. right. by exists d1, d2, r2.
    + pose proof (not_point_head (String x r1)
                    (fun r2 => let '(d2, _) := span isDigit r2 in
                               Some (d1 +:+ "." +:+ d2)) (Some d1) Hx) as Hm.
      cbv beta in Hm. rewrite Hm.
      intros [= <-]. left. by exists d1, (String x r1).
  - intros [(d & rest & -> & Hne & Hd & Hstop & Hpt & ->)
           |(d & f & rest & -> & Hne & Hd & Hf & Hstop & ->)].
    + rewrite (span_append _ _ _ Hd Hstop), (isEmptyString_false _ Hne).
      by rewrite not_point_head.
    + rewrite (span_append isDigit d ("." +:+ f +:+ rest) Hd eq_refl).
      rewrite (isEmptyString_false _ Hne). cbn.
      by rewrite (span_append _ _ _ Hf Hstop).
Qed.

(** [parseFloat] of digits, a point and digits is the number they denote. *)
Lemma parseFloatString_decimal d f :
  d <> "" -> allChars isDigit d = true -> allChars isDigit f = true ->
  parseFloatString (d +:+ "." +:+ f) = decimalNumber d f.
Proof.
  destruct d as [|c d]; [done|]. intros _ H Hf.
  pose proof (span_append isDigit (String c d) ("." +:+ f) H eq_refl) as Hspan.
  pose proof (span_append isDigit f "" Hf I) as Hspan2.
  rewrite append_nil_r in Hspan2.
  cbn [allChars] in H. apply andb_true_iff in H as [Hc Hd].
  destruct (digit_is_plain _ Hc) as (Hws & _ & _).
  destruct (digit_head c (d +:+ "." +:+ f) Hc) as [Hsign Hinf].
  unfold decimalNumber, parseFloatString, strDecimalLiteral.
  cbn [trimStart String.append] in *. rewrite Hws, Hsign, Hinf, Hspan.
  cbn [String.append]. rewrite Hspan2.
  cbn [isEmptyString andb parseExponent]. by rewrite Z.sub_0_l.
Qed.

Lemma LeadingNumber_value s m :
  LeadingNumber s m ->
  exists d f, allChars isDigit d = true /\ d <> ""
              /\ parseFloatString m = decimalNumber d f.
Proof.
  intros [(d & rest & -> & Hne & Hd & Hstop & Hpt & ->)
         |(d & f & rest & -> & Hne & Hd & Hf & Hstop & ->)].
  - exists d, "". split; [done|]. split; [done|].
    rewrite (parseFloatString_digits _ Hne Hd).
    unfold numberOfDigits, decimalNumber. by rewrite append_nil_r.
  - exists d, f. split; [done|]. split; [done|]. by apply parseFloatString_decimal.
Qed.

(** X1. [extractStrength] returns the empty text for [null] and
    [undefined], and for a value whose text does not start with a digit.
    Otherwise it returns the number at the head of the text: that of the
    leading digits when neither a digit nor a point follows them, that of
    the digits, the point and the digits after it when a point follows;
    what comes after is ignored.  The number is never NaN. *)
Theorem strength_is_leading_number v :
  (v = VNull \/ v = VUndefined -> extractStrength v = VStr "")
  /\ (v <> VNull -> v <> VUndefined ->
      (stopsAt isDigit (ToString v) -> extractStrength v = VStr "")
      /\ (forall d rest,
            ToString v = d +:+ rest -> d <> "" -> allChars isDigit d = true ->
            stopsAt isDigit rest -> stopsAt (Ascii.eqb ".") rest ->
            extractStrength v = VNum (numberOfDigits d))
      /\ (forall d f rest,
            ToString v = d +:+ "." +:+ f +:+ rest ->
            d <> "" -> allChars isDigit d = true -> allChars isDigit f = true ->
            stopsAt isDigit rest ->
            extractStrength v = VNum (decimalNumber d f)))
  /\ (forall n, extractStrength v = VNum n -> isNaN n = false).
Proof.
  assert (Hdef : v <> VNull -> v <> VUndefined ->
                 extractStrength v
                 = match reLeadingNumber (ToString v) with
                   | Some m1 => VNum (parseFloatString m1)
                   | None => VStr ""
                   end) by (by destruct v).
  split; [by intros [-> | ->]|]. split.
  - intros Hn Hu. rewrite (Hdef Hn Hu). split; [|split].
    + intros H. apply reLeadingNumber_None in H. by rewrite H.
    + intros d rest Hs Hne Hd Hstop Hpt.
      assert (Hm : reLeadingNumber (ToString v) = Some d).
      { apply reLeadingNumber_Some. left. by exists d, rest. }
      by rewrite Hm, parseFloatString_digits.
    + intros d f rest Hs Hne Hd Hf Hstop.
      assert (Hm : reLeadingNumber (ToString v) = Some (d +:+ "." +:+ f)).
      { apply reLeadingNumber_Some. right. by exists d, f, rest. }
      by rewrite Hm, parseFloatString_decimal.
  - intros n. destruct v as [| |b|x|s]; try done;
      (rewrite Hdef by done;
       destruct (reLeadingNumber _) as [m|] eqn:Hm; [|done];
       apply reLeadingNumber_Some, LeadingNumber_value in Hm as (d & f & _ & _ & Hm);
       intros [= <-]; rewrite Hm; apply ofDecimal_not_nan).
Qed.

Lemma strength_is_leading_number_witness :
  extractStrength (VStr "0.4 Mpa fill") = VNum (decimalNumber "0" "4")
  /\ extractStrength (VStr "25 MPA") = VNum (numberOfDigits "25")
  /\ extractStrength (VStr "Special Mix") = VStr ""
  /\ extractStrength VNull = VStr "".
Proof.
  destruct (strength_is_leading_number (VStr "0.4 Mpa fill")) as (_ & H1 & _).
  destruct (H1 ltac:(done) ltac:(done)) as (_ & _ & H1c).
  destruct (strength_is_leading_number (VStr "25 MPA")) as (_ & H2 & _).
  destruct (H2 ltac:(done) ltac:(done)) as (_ & H2b & _).
  destruct (strength_is_leading_number (VStr "Special Mix")) as (_ & H3 & _).
  destruct (H3 ltac:(done) ltac:(done)) as (H3a & _ & _).
  destruct (strength_is_leading_number VNull) as (H4 & _).
  split; [apply (H1c "0" "4" " Mpa fill"); done|].
  split; [apply (H2b "25" " MPA"); done|].
  split; [apply H3a; done|].
  apply H4. by left.
Defined.

(** ** Strength and slump in the rows *)

Lemma extractStrength_cases v :
  extractStrength v = VStr ""
  \/ exists n, extractStrength v = VNum n /\ isNaN n = false.
Proof.
  destruct v as [| |b|x|s]; try (by left); cbn [extractStrength];
    (destruct (reLeadingNumber _) as [m|] eqn:Hm; [|by left];
     apply reLeadingNumber_Some, LeadingNumber_value in Hm as (d & f & _ & _ & Hm);
     right; eexists; split; [done|]; rewrite Hm; apply ofDecimal_not_nan).
Qed.

Lemma extractSlump_cases v :
  extractSlump v = VStr ""
  \/ exists n, extractSlump v = VNum n /\ isNaN n = false.
Proof.
  assert (Hcases : v = VNull \/ v = VUndefined \/ (v <> VNull /\ v <> VUndefined))
    by (destruct v; auto).
  destruct Hcases as [->|[->|[Hn Hu]]]; [by left|by left|].
  rewrite (extractSlump_defined _ Hn Hu).
  destruct (search reQuotedMmAt (ToString v)) as [m1|] eqn:H1.
  { apply search_Some in H1 as (_ & suf & _ & H1 & _).
    apply reQuotedMmAt_spec, QuotedMmHead_digits in H1.
    right. eexists. split; [done|]. rewrite H1. apply ofDecimal_not_nan. }
  destruct (search reSlumpMmAt (ToString v)) as [m2|] eqn:H2.
  { apply search_Some in H2 as (_ & suf & _ & H2 & _).
    apply reSlumpMmAt_spec, SlumpMmHead_digits in H2.
    right. eexists. split; [done|]. rewrite H2. apply ofDecimal_not_nan. }
  destruct (isNaN (parseFloatString (ToString v))) eqn:H3; cbn [negb]; [by left|].
  right. by eexists.
Qed.

(** X2. In every data row of a returned table the Strength (MPA) cell and
    the Design Slump (in) cell are each either the empty text or a number
    that is not NaN. *)
Theorem strength_and_slump_cells headers dataRows materialsData c tbl :
  completionOf (convertMPAQMixes (headers :: dataRows) materialsData) c = Return tbl ->
  Forall (fun row =>
            Forall (fun title =>
                      column title row = Some (VStr "")
                      \/ exists n, column title row = Some (VNum n) /\ isNaN n = false)
                   ["Strength (MPA)"; "Design Slump (in)"])
         (tl tbl).
Proof.
  intros H.
  apply convert_Return in H
    as (headers' & dataRows' & first & rest & [= <- <-] & _ & Hv & _ & _ & ->).
  cbn [tl]. apply dataRows_Forall.
  intros mix plant [[[matType matId] matName] matTarget] _ _ _.
  repeat apply List.Forall_cons; [| |apply List.Forall_nil].
  - change (column "Strength (MPA)" _) with (Some (extractStrength (cell mix "Name"))).
    destruct (extractStrength_cases (cell mix "Name")) as [->|(n & -> & Hn)];
      [by left|right; by exists n].
  - change (column "Design Slump (in)" _) with (Some (extractSlump (cell mix "Slump"))).
    destruct (extractSlump_cases (cell mix "Slump")) as [->|(n & -> & Hn)];
      [by left|right; by exists n].
Qed.

Lemma strength_and_slump_cells_witness :
  exists tbl,
    completionOf (convertMPAQMixes sampleMixes (Some sampleMaterials)) [] = Return tbl
    /\ Forall (fun row =>
                 Forall (fun title =>
                           column title row = Some (VStr "")
                           \/ exists n, column title row = Some (VNum n)
                                        /\ isNaN n = false)
                        ["Strength (MPA)"; "Design Slump (in)"])
              (tl tbl).
Proof.
  eexists. split; [vm_compute; reflexivity|].
  apply (strength_and_slump_cells (hd [] sampleMixes) (tl sampleMixes)
           (Some sampleMaterials) []).
  vm_compute. reflexivity.
Defined.

(* ===================================================================== *)
(** * Constituent rows: units, water, quantities                         *)
(* ===================================================================== *)

Lemma flat_map_ext_In {A B} (f g : A -> list B) l :
  (forall x, In x l -> f x = g x) -> flat_map f l = flat_map g l.
Proof.
  induction l as [|x l IH]; [done|]. intros H. cbn.
  rewrite (H x) by by left. rewrite IH; [done|]. intros y Hy. apply H. by right.
Qed.

Lemma unit_of_outRow lookup b plant cst :
  column "Unit Name" (outRowOf lookup b plant cst)
  = Some (VStr (getUnitForMaterialType (matTypeOf cst))).
Proof. by destruct cst as [[[? ?] ?] ?]. Qed.

Lemma slotsOf_matType matType cols row :
  Forall (fun cst => matTypeOf cst = matType) (slotsOf matType cols row).
Proof.
  apply Forall_forall. intros cst Hc. unfold slotsOf in Hc.
  apply list_elem_of_omap in Hc as ([[cid cname] ctarget] & _ & Hc).
  cbn in Hc. by destruct (_ && _); simplify_eq.
Qed.

Lemma map_const_replicate {A B} (f : A -> B) (y : B) l :
  Forall (fun x => f x = y) l -> map f l = replicate (length l) y.
Proof.
  induction 1 as [|x l Hx _ IH]; [done|]. cbn. by rewrite Hx, IH.
Qed.

Lemma slotsOf_units matType cols row :
  map (fun cst => Some (VStr (getUnitForMaterialType (matTypeOf cst))))
      (slotsOf matType cols row)
  = replicate (length (slotsOf matType cols row))
              (Some (VStr (getUnitForMaterialType matType))).
Proof.
  apply map_const_replicate. eapply Forall_impl; [apply slotsOf_matType|].
  by intros cst ->.
Qed.

Lemma units_of_constituents row :
  keptByFilter row = true ->
  map (fun cst => Some (VStr (getUnitForMaterialType (matTypeOf cst))))
      (constituentsOf row)
  = unitsOfBlock row.
Proof.
  intros H. unfold constituentsOf, unitsOfBlock, slotsInUse.
  rewrite (kept_has_water _ H). cbn [negb].
  rewrite !map_app, !slotsOf_units.
  unfold aggCols, cemCols, admCols, AGG_COUNT, CEM_COUNT, ADM_COUNT.
  rewrite !materialCols_map, !slotsOf_length.
  rewrite replicate_add, <- !app_assoc. reflexivity.
Qed.

(** X3. The Unit Name column of a returned table is, mix by mix and for
    each of the five plants in turn: kg/m^3 once for every aggregate slot
    and every cement slot in use, then mL/100kg CM once for every
    admixture slot in use, then L for the water.  So a plant block lists
    aggregates, cements, admixtures and the water in that order, and no
    Unit Name is empty. *)
Theorem unit_name_column headers dataRows materialsData c tbl :
  completionOf (convertMPAQMixes (headers :: dataRows) materialsData) c = Return tbl ->
  map (column "Unit Name") (tl tbl)
  = flat_map (fun mix => flat_map (fun _ => unitsOfBlock mix) PLANTS)
             (validMixesOf headers dataRows).
Proof.
  intros H.
  apply convert_Return in H
    as (headers' & dataRows' & first & rest & [= <- <-] & _ & Hv & _ & _ & ->).
  rewrite <- Hv. cbn [tl]. rewrite map_flat_map.
  apply flat_map_ext_In. intros mix Hmix. unfold mixRows.
  rewrite map_flat_map. apply flat_map_ext_In. intros plant _.
  rewrite map_map.
  rewrite <- (units_of_constituents mix) by by eapply validMixesOf_kept.
  apply map_ext. intros cst. apply unit_of_outRow.
Qed.

Lemma unit_name_column_witness :
  exists tbl,
    completionOf (convertMPAQMixes sampleMixes2 (Some sampleMaterials)) [] = Return tbl
    /\ map (column "Unit Name") (firstn 4 (tl tbl))
       = [Some (VStr "kg/m^3"); Some (VStr "kg/m^3"); Some (VStr "L");
          Some (VStr "kg/m^3")].
Proof.
  eexists. split; [vm_compute; reflexivity|].
  rewrite <- firstn_map.
  rewrite (unit_name_column (hd [] sampleMixes2) (tl sampleMixes2)
             (Some sampleMaterials) [] _ ltac:(vm_compute; reflexivity)).
  vm_compute. reflexivity.
Defined.

(** ** The water row *)

(** The water target of a record the filter keeps is truthy. *)
Lemma kept_truthy row :
  keptByFilter row = true -> truthy (cell row "WaterTarget") = true.
Proof.
  unfold keptByFilter.
  destruct (cell row "WaterTarget") as [| |b|n|s]; try done.
  - by destruct b.
  - destruct n as [sg|sg| |sg m e]; intros H.
    + by vm_compute in H.
    + by destruct sg.
    + by vm_compute in H.
    + clear H. cbn. unfold numEq, SFeqb, SFcompare. by destruct sg.
  - by destruct s.
Qed.

Lemma logicalOr_truthy v w : truthy v = true -> logicalOr v w = v.
Proof. unfold logicalOr. by intros ->. Qed.

Lemma water_is_last row :
  keptByFilter row = true -> last (constituentsOf row) = Some (waterOf row).
Proof.
  intros H. unfold constituentsOf. rewrite (kept_has_water _ H). cbn [negb].
  rewrite !app_assoc. apply last_snoc.
Qed.

(** X4. Every valid mix has a water constituent, and it is the last one:
    for each plant the returned table holds a row with that plant code
    and the mix name, whose Constituent Item Description is Water, whose
    Unit Name is L, whose Quantity and whose Max Water Gallons are the
    WaterTarget cell of the mix exactly as it was read, and whose
    Constituent Item Code is WATER unless the materials lookup has an
    entry named Water, which then replaces it. *)
Theorem water_row headers dataRows materialsData c tbl mix plant :
  completionOf (convertMPAQMixes (headers :: dataRows) materialsData) c = Return tbl ->
  In mix (validMixesOf headers dataRows) -> In plant PLANTS ->
  last (constituentsOf mix)
  = Some ("Water", VStr "WATER", VStr "Water", cell mix "WaterTarget")
  /\ exists row,
       In row (tl tbl)
       /\ column "Plant Code" row = Some (VStr plant)
       /\ column "Mix Name" row = Some (cell mix "MixId")
       /\ column "Constituent Item Code" row
          = Some (VStr (default "WATER" (Map.get (lookupOf materialsData) "Water")))
       /\ column "Constituent Item Description" row = Some (VStr "Water")
       /\ column "Quantity" row = Some (cell mix "WaterTarget")
       /\ column "Unit Name" row = Some (VStr "L")
       /\ column "Max Water Gallons" row = Some (cell mix "WaterTarget").
Proof.
  intros H Hmix Hplant.
  apply convert_Return in H
    as (headers' & dataRows' & first & rest & [= <- <-] & _ & Hv & _ & _ & ->).
  rewrite <- Hv. cbn [tl].
  pose proof (validMixesOf_kept _ _ _ Hmix) as Hkept.
  pose proof (water_is_last _ Hkept) as Hlast.
  split; [exact Hlast|].
  exists (outRowOf (lookupOf materialsData) (baseDataOf mix) plant (waterOf mix)).
  split.
  { apply in_flat_map. exists mix. split; [done|].
    unfold mixRows. apply in_flat_map. exists plant. split; [done|].
    apply in_map. apply list_elem_of_In. by apply last_Some_elem_of. }
  split; [done|]. split; [done|]. split.
  { rewrite item_code_of_outRow. f_equal.
    unfold productionCodeOf, Map.has.
    change (lookupName (waterOf mix)) with "Water". cbn [isEmptyString negb andb].
    by destruct (Map.get (lookupOf materialsData) "Water"). }
  split; [done|]. split.
  { change (column "Quantity" (outRowOf (lookupOf materialsData) (baseDataOf mix) plant
                                        (waterOf mix)))
      with (Some (logicalOr (cell mix "WaterTarget") (VStr ""))).
    by rewrite (logicalOr_truthy _ _ (kept_truthy _ Hkept)). }
  split; [done|].
  change (column "Max Water Gallons"
            (outRowOf (lookupOf materialsData) (baseDataOf mix) plant (waterOf mix)))
    with (Some (logicalOr (cell mix "WaterTarget") (VStr ""))).
  by rewrite (logicalOr_truthy _ _ (kept_truthy _ Hkept)).
Qed.

Lemma water_row_witness :
  exists tbl mix row,
    completionOf (convertMPAQMixes sampleMixes (Some sampleMaterials)) [] = Return tbl
    /\ In mix (validMixesOf (hd [] sampleMixes) (tl sampleMixes))
    /\ In row (tl tbl)
    /\ column "Plant Code" row = Some (VStr "05")
    /\ column "Mix Name" row = Some (cell mix "MixId")
    /\ column "Constituent Item Code" row = Some (VStr "WATER")
    /\ column "Quantity" row = Some (cell mix "WaterTarget").
Proof.
  eexists. exists (rowToObject (hd [] sampleMixes) (nth 0 (tl sampleMixes) [])).
  destruct (water_row (hd [] sampleMixes) (tl sampleMixes) (Some sampleMaterials) [] _
              (rowToObject (hd [] sampleMixes) (nth 0 (tl sampleMixes) [])) "05"
              ltac:(vm_compute; reflexivity))
    as (_ & row & Hin & Hp & Hm & Hc & _ & Hq & _).
  - left. reflexivity.
  - vm_compute. tauto.
  - exists row. split; [vm_compute; reflexivity|]. split; [left; reflexivity|].
    split; [exact Hin|]. split; [exact Hp|]. split; [exact Hm|].
    split; [exact Hc|]. exact Hq.
Defined.

(** ** Description and quantity *)

(** X5. Every data row of a returned table stems from a constituent whose
    Target cell is not zero-or-empty; its Constituent Item Description is
    the constituent's Name cell, or the empty text when that cell is
    falsy; its Quantity is the Target cell itself, unparsed and unrounded
    (a text stays a text), except that the boolean [false] gives the empty
    text. *)
Theorem quantity_is_target headers dataRows materialsData c tbl :
  completionOf (convertMPAQMixes (headers :: dataRows) materialsData) c = Return tbl ->
  Forall (fun row =>
            exists mix plant cst,
              In mix (validMixesOf headers dataRows)
              /\ In cst (constituentsOf mix)
              /\ row = outRowOf (lookupOf materialsData) (baseDataOf mix) plant cst
              /\ isZeroOrEmpty (matTargetOf cst) = false
              /\ column "Constituent Item Description" row
                 = Some (if truthy (matNameOf cst) then matNameOf cst else VStr "")
              /\ (matTargetOf cst <> VBool false ->
                  column "Quantity" row = Some (matTargetOf cst))
              /\ (matTargetOf cst = VBool false ->
                  column "Quantity" row = Some (VStr "")))
         (tl tbl).
Proof.
  intros H.
  apply convert_Return in H
    as (headers' & dataRows' & first & rest & [= <- <-] & _ & Hv & _ & _ & ->).
  rewrite <- Hv. cbn [tl]. apply Forall_forall. intros r Hr.
  apply list_elem_of_In, in_flat_map in Hr as [mix [Hmix Hr]].
  unfold mixRows in Hr. apply in_flat_map in Hr as [plant [_ Hr]].
  apply in_map_iff in Hr as [cst [<- Hcst]].
  exists mix, plant, cst. split; [done|]. split; [done|]. split; [done|].
  assert (Hz : isZeroOrEmpty (matTargetOf cst) = false).
  { unfold constituentsOf in Hcst. rewrite !in_app_iff in Hcst.
    assert (Hslot : forall matType cols,
               In cst (slotsOf matType cols mix) -> isZeroOrEmpty (matTargetOf cst) = false).
    { intros matType cols Hc. unfold slotsOf in Hc.
      apply list_elem_of_In, list_elem_of_omap in Hc as ([[cid cname] ctarget] & _ & Hc).
      cbn in Hc. destruct (negb (isEmptyValue _)); [|done].
      destruct (isZeroOrEmpty (cell mix ctarget)) eqn:Hz; [done|].
      cbn in Hc. by simplify_eq. }
    destruct Hcst as [Hc|[Hc|[Hc|Hc]]]; try by eapply Hslot.
    destruct (isZeroOrEmpty (cell mix "WaterTarget")) eqn:Hz; [done|].
    cbn in Hc. by destruct Hc as [<-|[]]. }
  split; [done|].
  destruct cst as [[[matType matId] matName] matTarget]. cbn in Hz |- *.
  split; [done|]. split.
  - intros Hne. change (Some (logicalOr matTarget (VStr "")) = Some matTarget).
    f_equal. unfold logicalOr.
    destruct matTarget as [| |b|n|s]; try done.
    + by destruct b.
    + unfold isZeroOrEmpty in Hz. cbn in Hz. cbn.
      apply orb_false_iff in Hz as [Hz _]. apply orb_false_iff in Hz as [-> ->]. done.
    + by destruct s.
  - by intros ->.
Qed.

Lemma quantity_is_target_witness :
  exists tbl,
    completionOf (convertMPAQMixes sampleMixes2 (Some sampleMaterials)) [] = Return tbl
    /\ Forall (fun row => exists v, column "Quantity" row = Some v) (tl tbl).
Proof.
  eexists. split; [vm_compute; reflexivity|].
  eapply Forall_impl.
  - apply (quantity_is_target (hd [] sampleMixes2) (tl sampleMixes2)
             (Some sampleMaterials) []). vm_compute. reflexivity.
  - intros row (mix & plant & [[[? ?] ?] ?] & _ & _ & -> & _). eexists. reflexivity.
Defined.

(** ** Mix-level columns *)

(** X6. Every data row of a returned table belongs to a valid mix whose
    cells fill its mix-level columns: Mix Name and Short Description are
    the MixId cell; Description, Item Category and Design Air Content are
    the Name, ExternalId and AirFactor cells, or the empty text when the
    cell is falsy; Strength is [extractStrength] of the Name cell, Design
    Slump is [extractSlump] of the Slump cell, and Max Water Gallons is
    the WaterTarget cell. *)
Theorem mix_level_columns headers dataRows materialsData c tbl :
  completionOf (convertMPAQMixes (headers :: dataRows) materialsData) c = Return tbl ->
  Forall (fun row =>
            exists mix,
              In mix (validMixesOf headers dataRows)
              /\ column "Mix Name" row = Some (cell mix "MixId")
              /\ column "Short Description" row = Some (cell mix "MixId")
              /\ column "Description" row
                 = Some (if truthy (cell mix "Name") then cell mix "Name" else VStr "")
              /\ column "Item Category" row
                 = Some (if truthy (cell mix "ExternalId") then cell mix "ExternalId"
                         else VStr "")
              /\ column "Strength (MPA)" row = Some (extractStrength (cell mix "Name"))
              /\ column "Design Air Content (%)" row
                 = Some (if truthy (cell mix "AirFactor") then cell mix "AirFactor"
                         else VStr "")
              /\ column "Design Slump (in)" row = Some (extractSlump (cell mix "Slump"))
              /\ column "Max Water Gallons" row = Some (cell mix "WaterTarget"))
         (tl tbl).
Proof.
  intros H.
  apply convert_Return in H
    as (headers' & dataRows' & first & rest & [= <- <-] & _ & Hv & _ & _ & ->).
  rewrite <- Hv. cbn [tl]. apply dataRows_Forall.
  intros mix plant [[[matType matId] matName] matTarget] Hmix _ _.
  exists mix. split; [done|]. do 7 (split; [reflexivity|]).
  change (Some (logicalOr (cell mix "WaterTarget") (VStr ""))
          = Some (cell mix "WaterTarget")).
  f_equal. apply logicalOr_truthy, kept_truthy. by eapply validMixesOf_kept.
Qed.

Lemma mix_level_columns_witness :
  exists tbl,
    completionOf (convertMPAQMixes sampleMixes2 (Some sampleMaterials)) [] = Return tbl
    /\ Forall (fun row => column "Mix Name" row = column "Short Description" row) (tl tbl).
Proof.
  eexists. split; [vm_compute; reflexivity|].
  eapply Forall_impl.
  - apply (mix_level_columns (hd [] sampleMixes2) (tl sampleMixes2)
             (Some sampleMaterials) []). vm_compute. reflexivity.
  - intros row (mix & _ & -> & -> & _). reflexivity.
Defined.

(* ===================================================================== *)
(** * Records: what a header row makes of a data row                     *)
(* ===================================================================== *)

Lemma protoNull_assign obj key v :
  protoNull (assign obj key v)
  = protoNull obj || (String.eqb key "__proto__" && isNull v).
Proof.
  unfold assign.
  destruct (String.eqb key "__proto__"), (protoNull obj) eqn:Hp; cbn;
    try done; by destruct v.
Qed.

Lemma hasColumn_assign obj key v k :
  k <> "__proto__" ->
  hasColumn (assign obj key v) k = hasColumn obj k || String.eqb key k.
Proof.
  intros Hk. unfold assign, hasColumn.
  destruct (String.eqb key k) eqn:Hkey.
  - apply String.eqb_eq in Hkey as ->.
    apply String.eqb_neq in Hk. rewrite Hk. cbn.
    rewrite lookup_insert_eq. by destruct (own obj !! k).
  - apply String.eqb_neq in Hkey.
    destruct (String.eqb key "__proto__" && negb (protoNull obj)).
    + destruct v; cbn; by rewrite orb_false_r.
    + cbn. rewrite lookup_insert_ne by done. by rewrite orb_false_r.
Qed.

Lemma hasColumn_assignCells headers row k :
  k <> "__proto__" ->
  forall index obj,
    hasColumn (assignCells headers index row obj) k
    = hasColumn obj k || existsb (String.eqb k) (map ToString headers).
Proof.
  intros Hk. induction headers as [|h headers IH]; intros index obj; cbn.
  - by rewrite orb_false_r.
  - rewrite IH, hasColumn_assign by done.
    rewrite (String.eqb_sym k). by rewrite orb_assoc.
Qed.

Lemma protoNull_assignCells headers row : forall index obj,
  protoNull (assignCells headers index row obj)
  = protoNull obj
    || existsb (fun ih : nat * value =>
                  String.eqb (ToString ih.2) "__proto__" && isNull (elementAt row ih.1))
               (combine (seq index (length headers)) headers).
Proof.
  induction headers as [|h headers IH]; intros index obj; cbn.
  - by rewrite orb_false_r.
  - rewrite IH, protoNull_assign. by rewrite orb_assoc.
Qed.

Lemma existsb_eqb_In k l : existsb (String.eqb k) l = true <-> In k l.
Proof.
  rewrite existsb_exists. split.
  - by intros (x & Hx & ->%String.eqb_eq).
  - intros H. exists k. split; [done|]. apply String.eqb_refl.
Qed.

Lemma combine_seq_lookup {A} (l : list A) index i x :
  In (i, x) (combine (seq index (length l)) l) <-> exists j, i = index + j /\ l !! j = Some x.
Proof.
  revert index. induction l as [|y l IH]; intros index; cbn.
  - split; [done|]. by intros (j & _ & ?).
  - rewrite IH. split.
    + intros [[= <- <-]|(j & -> & Hj)].
      * exists 0. split; [lia|done].
      * exists (S j). split; [lia|done].
    + intros ([|j] & -> & Hj).
      * left. cbn in Hj. simplify_eq. f_equal. lia.
      * right. exists j. split; [lia|done].
Qed.

Lemma callable_rowToObject headers row :
  callable (rowToObject headers row) = false
  <-> In "hasOwnProperty" (map ToString headers) \/ cutsPrototype headers row.
Proof.
  unfold callable, rowToObject.
  rewrite protoNull_assignCells, hasColumn_assignCells by done.
  cbn [protoNull emptyObject orb]. change (hasColumn emptyObject "hasOwnProperty") with false.
  cbn [orb]. rewrite andb_false_iff, !negb_false_iff, existsb_eqb_In, existsb_exists.
  split.
  - intros [([i h] & Hin & H)|H]; [right|by left].
    apply combine_seq_lookup in Hin as (j & -> & Hj).
    apply andb_true_iff in H as [H1 H2]. cbn in H1, H2.
    exists j, h. split; [done|]. split; [by apply String.eqb_eq|].
    by destruct (elementAt row j).
  - intros [H|(i & h & Hh & Ht & Hn)]; [by right|left].
    exists (i, h). split.
    + apply combine_seq_lookup. by exists i.
    + cbn. rewrite Ht, Hn. done.
Qed.

Lemma forallb_false {A} (p : A -> bool) l :
  forallb p l = false <-> exists x, In x l /\ p x = false.
Proof.
  induction l as [|y l IH]; cbn.
  - split; [done|]. by intros (x & [] & _).
  - rewrite andb_false_iff, IH. split.
    + intros [H|(x & Hx & H)]; [by exists y; auto|exists x; auto].
    + intros (x & [->|Hx] & H); [by left|right; by exists x].
Qed.

(** X8. [convertMPAQMixes] fails with a TypeError exactly when the mix
    table has a data row and its header row either has a cell that reads
    hasOwnProperty (the cell stored under that key shadows the method that
    [safeGet] calls) or has a cell that reads __proto__ over a [null] cell
    of some data row (the assignment cuts the record off the method). *)
Theorem type_error_columns mixData materialsData c :
  completionOf (convertMPAQMixes mixData materialsData) c = Throw TypeError
  <-> exists headers dataRows row,
        mixData = headers :: dataRows /\ In row dataRows
        /\ (In "hasOwnProperty" (map ToString headers)
            \/ exists i h, headers !! i = Some h /\ ToString h = "__proto__"
                           /\ elementAt row i = VNull).
Proof.
  rewrite completionOf_convert. unfold convertResult. split.
  - destruct mixData as [|headers dataRows]; [done|].
    destruct (forallb callable (recordsOf headers dataRows)) eqn:Hall.
    { destruct (validMixesOf headers dataRows); [done|]. by destruct (_ && _). }
    intros _. apply forallb_false in Hall as (obj & Hobj & Hc).
    unfold recordsOf in Hobj. apply in_map_iff in Hobj as (row & <- & Hrow).
    apply callable_rowToObject in Hc. by exists headers, dataRows, row.
  - intros (headers & dataRows & row & -> & Hrow & H).
    assert (Hall : forallb callable (recordsOf headers dataRows) = false).
    { apply forallb_false. exists (rowToObject headers row). split.
      - unfold recordsOf. by apply in_map.
      - by apply callable_rowToObject. }
    by rewrite Hall.
Qed.

Lemma type_error_columns_witness :
  completionOf (convertMPAQMixes
                  [ [VStr "MixId"; VStr "Name"; VStr "WaterTarget"; VStr "hasOwnProperty"];
                    [VStr "M1"; VStr "30 MPA"; VStr "180"; VStr "x"] ] None) []
  = Throw TypeError
  /\ completionOf (convertMPAQMixes
                  [ [VStr "MixId"; VStr "Name"; VStr "WaterTarget"; VStr "__proto__"];
                    [VStr "M1"; VStr "30 MPA"; VStr "180"; VNull] ] None) []
  = Throw TypeError.
Proof.
  split.
  - apply (proj2 (type_error_columns _ None [])).
    eexists _, _, _. split; [reflexivity|]. split; [by left|]. left. cbn. tauto.
  - apply (proj2 (type_error_columns _ None [])).
    eexists _, _, _. split; [reflexivity|]. split; [by left|]. right.
    exists 3, (VStr "__proto__"). done.
Defined.


Lemma plain_headers_callable headers row :
  ~ In "hasOwnProperty" (map ToString headers) ->
  ~ In "__proto__" (map ToString headers) ->
  callable (rowToObject headers row) = true.
Proof.
  intros Hh Hp. destruct (callable (rowToObject headers row)) eqn:Hc; [done|].
  apply callable_rowToObject in Hc as [Hc|(i & h & Hi & Ht & _)]; [done|].
  destruct Hp. rewrite <- Ht. apply in_map. apply list_elem_of_In.
  by eapply list_elem_of_lookup_2.
Qed.

Lemma hasColumn_rowToObject headers row k :
  k <> "__proto__" ->
  hasColumn (rowToObject headers row) k = true <-> In k (map ToString headers).
Proof.
  intros Hk. unfold rowToObject. rewrite hasColumn_assignCells by done.
  change (hasColumn emptyObject k) with false. cbn [orb]. apply existsb_eqb_In.
Qed.

Lemma own_assign_plain obj key v :
  key <> "__proto__" -> own (assign obj key v) = <[key := v]> (own obj).
Proof. intros H%String.eqb_neq. unfold assign. by rewrite H. Qed.

Lemma own_assignCells headers row col :
  ~ In "__proto__" (map ToString headers) ->
  forall index obj,
    own (assignCells headers index row obj) !! col
    = match lastColumnFrom col headers index with
      | Some i => Some (elementAt row i)
      | None => own obj !! col
      end.
Proof.
  induction headers as [|h headers IH]; intros Hp index obj; [done|].
  cbn [assignCells lastColumnFrom]. cbn in Hp.
  rewrite IH by tauto.
  destruct (lastColumnFrom col headers (S index)); [done|].
  rewrite own_assign_plain by (intros He; apply Hp; by left).
  destruct (String.eqb (ToString h) col) eqn:He.
  - apply String.eqb_eq in He as ->. by rewrite lookup_insert_eq.
  - apply String.eqb_neq in He. by rewrite lookup_insert_ne.
Qed.

Lemma lastColumnFrom_None col headers : forall index,
  lastColumnFrom col headers index = None <-> ~ In col (map ToString headers).
Proof.
  induction headers as [|h headers IH]; intros index; cbn; [tauto|].
  destruct (lastColumnFrom col headers (S index)) eqn:Hl.
  - split; [done|]. intros Hn. exfalso.
    assert (Hc : lastColumnFrom col headers (S index) = None) by (apply IH; tauto).
    congruence.
  - apply IH in Hl. destruct (String.eqb (ToString h) col) eqn:He.
    + apply String.eqb_eq in He. split; [done|]. intros Hn. destruct Hn. by left.
    + apply String.eqb_neq in He. split; [|done]. intros _ [?|?]; done.
Qed.

Lemma lastColumnFrom_Some col headers : forall index i,
  lastColumnFrom col headers index = Some i ->
  exists j, i = index + j
            /\ (exists h, headers !! j = Some h /\ ToString h = col)
            /\ forall j' h', j < j' -> headers !! j' = Some h' -> ToString h' <> col.
Proof.
  induction headers as [|h headers IH]; intros index i; cbn; [done|].
  destruct (lastColumnFrom col headers (S index)) as [i'|] eqn:Hl.
  - intros [= <-]. apply IH in Hl as (j & -> & (h0 & Hj & Hh0) & Hlast).
    exists (S j). split; [lia|]. split; [by exists h0|].
    intros [|j'] h' Hlt Hj'; [lia|]. apply (Hlast j' h'); [lia|done].
  - destruct (String.eqb (ToString h) col) eqn:He; [|done].
    intros [= <-]. apply String.eqb_eq in He.
    exists 0. split; [lia|]. split; [by exists h|].
    intros [|j'] h' Hlt Hj'; [lia|]. cbn in Hj'.
    apply lastColumnFrom_None in Hl. intros Hc. apply Hl.
    rewrite <- Hc. apply in_map. apply list_elem_of_In.
    by eapply list_elem_of_lookup_2.
Qed.

(** X7. When no header cell reads hasOwnProperty or __proto__, reading a
    record by column name returns the cell of the data row under the last
    header cell with that text: with duplicate column names the last one
    wins; a name that no header cell bears gives the empty text; a data
    row too short to reach the column gives [undefined]. *)
Theorem cell_of_last_column headers row col :
  ~ In "hasOwnProperty" (map ToString headers) ->
  ~ In "__proto__" (map ToString headers) ->
  safeGet (rowToObject headers row) col
  = Return (match lastColumnOf headers col with
            | Some i => elementAt row i
            | None => VStr ""
            end)
  /\ (lastColumnOf headers col = None <-> ~ In col (map ToString headers))
  /\ (forall i, lastColumnOf headers col = Some i ->
        (exists h, headers !! i = Some h /\ ToString h = col)
        /\ (forall j h, i < j -> headers !! j = Some h -> ToString h <> col)
        /\ (length row <= i ->
            safeGet (rowToObject headers row) col = Return VUndefined)).
Proof.
  intros Hh Hp.
  assert (Hget : safeGet (rowToObject headers row) col
                 = Return (match lastColumnOf headers col with
                           | Some i => elementAt row i
                           | None => VStr ""
                           end)).
  { rewrite safeGet_callable by by apply plain_headers_callable.
    f_equal. unfold cell, rowToObject, lastColumnOf.
    rewrite own_assignCells by done.
    by destruct (lastColumnFrom col headers 0). }
  split; [exact Hget|]. split; [apply lastColumnFrom_None|].
  intros i Hi. pose proof Hi as Hi'.
  apply lastColumnFrom_Some in Hi' as (j & -> & Hj & Hlast). cbn [Nat.add].
  split; [done|]. split; [done|].
  intros Hlen. rewrite Hget, Hi. f_equal. unfold elementAt. by apply nth_overflow.
Qed.

Lemma cell_of_last_column_witness :
  safeGet (rowToObject [VStr "WaterTarget"; VStr "MixId"; VStr "WaterTarget"]
                       [VStr "0"; VStr "M1"; VStr "180"]) "WaterTarget"
  = Return (VStr "180")
  /\ safeGet (rowToObject [VStr "WaterTarget"; VStr "MixId"; VStr "WaterTarget"]
                          [VStr "0"; VStr "M1"]) "WaterTarget"
     = Return VUndefined
  /\ safeGet (rowToObject [VStr "WaterTarget"; VStr "MixId"]
                          [VStr "0"; VStr "M1"]) "Name"
     = Return (VStr "").
Proof.
  split; [|split].
  - apply (cell_of_last_column [VStr "WaterTarget"; VStr "MixId"; VStr "WaterTarget"]
             [VStr "0"; VStr "M1"; VStr "180"] "WaterTarget");
      cbn; intros H; decompose [or] H; done.
  - apply (cell_of_last_column [VStr "WaterTarget"; VStr "MixId"; VStr "WaterTarget"]
             [VStr "0"; VStr "M1"] "WaterTarget");
      cbn; intros H; decompose [or] H; done.
  - apply (cell_of_last_column [VStr "WaterTarget"; VStr "MixId"]
             [VStr "0"; VStr "M1"] "Name");
      cbn; intros H; decompose [or] H; done.
Defined.

Lemma validMixesOf_nil headers dataRows :
  validMixesOf headers dataRows = []
  <-> Forall (fun row => keptByFilter (rowToObject headers row) = false) dataRows.
Proof.
  unfold validMixesOf, recordsOf. induction dataRows as [|row rows IH]; cbn.
  - split; [constructor|done].
  - destruct (keptByFilter (rowToObject headers row)) eqn:Hk.
    + split; [done|]. intros H. apply Forall_cons in H as [H _]. congruence.
    + rewrite IH. split; [by constructor|]. by intros [_ H]%Forall_cons.
Qed.

Lemma validMixesOf_not_nil headers dataRows :
  validMixesOf headers dataRows <> []
  <-> Exists (fun row => keptByFilter (rowToObject headers row) = true) dataRows.
Proof.
  unfold validMixesOf, recordsOf. induction dataRows as [|row rows IH]; cbn.
  - split; [done|]. by intros H%Exists_nil.
  - destruct (keptByFilter (rowToObject headers row)) eqn:Hk.
    + split; [|done]. intros _. by apply Exists_cons_hd.
    + rewrite IH. split; [by apply Exists_cons_tl|].
      intros [H|H]%Exists_cons; [congruence|done].
Qed.

(** X9. An empty mix table fails with the message Mix data is empty.
    For a table with a header row of which no cell reads hasOwnProperty or
    __proto__, the call fails with No valid mixes found exactly when the
    filter keeps no data row (a table of a header row alone included); it
    fails for the missing columns exactly when the filter keeps a row and
    MixId or Name is not among the header texts; it returns a table
    exactly when the filter keeps a row and both are among them. *)
Theorem failure_modes mixData materialsData c :
  (mixData = [] ->
   completionOf (convertMPAQMixes mixData materialsData) c
   = Throw (Error "Mix data is empty"))
  /\ (forall headers dataRows,
        mixData = headers :: dataRows ->
        ~ In "hasOwnProperty" (map ToString headers) ->
        ~ In "__proto__" (map ToString headers) ->
        (completionOf (convertMPAQMixes mixData materialsData) c
         = Throw (Error "No valid mixes found with WaterTarget > 0")
         <-> Forall (fun row => keptByFilter (rowToObject headers row) = false) dataRows)
        /\ (completionOf (convertMPAQMixes mixData materialsData) c
            = Throw (Error "Input file must contain 'MixId' and 'Name' columns.")
            <-> Exists (fun row => keptByFilter (rowToObject headers row) = true) dataRows
                /\ (~ In "MixId" (map ToString headers)
                    \/ ~ In "Name" (map ToString headers)))
        /\ ((exists tbl,
               completionOf (convertMPAQMixes mixData materialsData) c = Return tbl)
            <-> Exists (fun row => keptByFilter (rowToObject headers row) = true) dataRows
                /\ In "MixId" (map ToString headers)
                /\ In "Name" (map ToString headers))).
Proof.
  rewrite completionOf_convert. split; [by intros ->|].
  intros headers dataRows -> Hh Hp. unfold convertResult.
  assert (Hall : forallb callable (recordsOf headers dataRows) = true).
  { apply forallb_forall. intros obj Hobj. unfold recordsOf in Hobj.
    apply in_map_iff in Hobj as (row & <- & _). by apply plain_headers_callable. }
  rewrite Hall.
  pose proof (validMixesOf_nil headers dataRows) as Hnone.
  pose proof (validMixesOf_not_nil headers dataRows) as Hsome.
  destruct (validMixesOf headers dataRows) as [|first rest] eqn:Hv.
  { split; [by rewrite <- Hnone|]. split.
    - split; [done|]. intros [He _]. by apply Hsome in He.
    - split; [by intros [? ?]|]. intros [He _]. by apply Hsome in He. }
  assert (Hex : Exists (fun row => keptByFilter (rowToObject headers row) = true) dataRows)
    by by apply Hsome.
  assert (Hrow : exists row, first = rowToObject headers row).
  { assert (Hin : In first (validMixesOf headers dataRows)) by (rewrite Hv; by left).
    unfold validMixesOf, recordsOf in Hin. apply filter_In in Hin as [Hin _].
    apply in_map_iff in Hin as (row & <- & _). by exists row. }
  destruct Hrow as [row ->].
  pose proof (hasColumn_rowToObject headers row "MixId" ltac:(done)) as HM.
  pose proof (hasColumn_rowToObject headers row "Name" ltac:(done)) as HN.
  destruct (hasColumn (rowToObject headers row) "MixId") eqn:H1;
    destruct (hasColumn (rowToObject headers row) "Name") eqn:H2; cbn [andb].
  - split; [split; [done|]; intros HF; by apply Hnone in HF|].
    split.
    + split; [done|]. intros [_ [Hn|Hn]]; destruct Hn; [by apply HM|by apply HN].
    + split; [|by eexists]. intros _. split; [done|]. split; [by apply HM|by apply HN].
  - split; [split; [done|]; intros HF; by apply Hnone in HF|].
    split.
    + split; [|done]. intros _. split; [done|]. right. intros Hn. apply HN in Hn. done.
    + split; [by intros [? ?]|]. intros (_ & _ & Hn). apply HN in Hn. done.
  - split; [split; [done|]; intros HF; by apply Hnone in HF|].
    split.
    + split; [|done]. intros _. split; [done|]. left. intros Hn. apply HM in Hn. done.
    + split; [by intros [? ?]|]. intros (_ & Hn & _). apply HM in Hn. done.
  - split; [split; [done|]; intros HF; by apply Hnone in HF|].
    split.
    + split; [|done]. intros _. split; [done|]. left. intros Hn. apply HM in Hn. done.
    + split; [by intros [? ?]|]. intros (_ & Hn & _). apply HM in Hn. done.
Qed.

Lemma failure_modes_witness :
  completionOf (convertMPAQMixes [] (Some sampleMaterials)) []
  = Throw (Error "Mix data is empty")
  /\ completionOf (convertMPAQMixes [[VStr "MixId"; VStr "Name"; VStr "WaterTarget"]] None) []
     = Throw (Error "No valid mixes found with WaterTarget > 0").
Proof.
  split.
  - by apply (proj1 (failure_modes [] (Some sampleMaterials) [])).
  - destruct (proj2 (failure_modes [[VStr "MixId"; VStr "Name"; VStr "WaterTarget"]] None [])
                    [VStr "MixId"; VStr "Name"; VStr "WaterTarget"] [] eq_refl)
      as (H & _ & _).
    + cbn. intros H; decompose [or] H; done.
    + cbn. intros H; decompose [or] H; done.
    + apply H. constructor.
Defined.


(* ===================================================================== *)
(** * The lookup: invariants, and conversion without one                 *)
(* ===================================================================== *)

Lemma trimEnd_idem s : trimEnd (trimEnd s) = trimEnd s.
Proof.
  induction s as [|c s IH]; [done|]. cbn [trimEnd].
  destruct (trimEnd s) as [|d t] eqn:Ht.
  - destruct (isWhiteSpace c) eqn:Hc; [done|]. cbn. by rewrite Hc.
  - cbn [trimEnd]. cbn [trimEnd] in IH. by rewrite IH.
Qed.

Lemma trim_idem s : trim (trim s) = trim s.
Proof.
  unfold trim.
  assert (H : trimStart s = "" \/ exists c t, trimStart s = String c t /\ isWhiteSpace c = false).
  { induction s as [|c s IH]; [by left|]. cbn.
    destruct (isWhiteSpace c) eqn:Hc; [done|]. right. by exists c, s. }
  destruct H as [-> | (c & t & -> & Hc)]; [done|].
  assert (Hh : exists t', trimEnd (String c t) = String c t').
  { cbn. destruct (trimEnd t); [rewrite Hc|]; by eexists. }
  destruct Hh as [t' Ht']. rewrite Ht'. cbn [trimStart]. rewrite Hc.
  by rewrite <- Ht', trimEnd_idem.
Qed.

Lemma Map_set_absent m k v : Map.has m k = false -> Map.set m k v = m ++ [(k, v)].
Proof.
  unfold Map.has. induction m as [|[k' v'] m IH]; [done|]. cbn.
  destruct (String.eqb k' k); [done|]. intros H. by rewrite IH.
Qed.

Lemma Map_get_In m k v :
  NoDup (map fst m) -> (Map.get m k = Some v <-> In (k, v) m).
Proof.
  induction m as [|[k' v'] m IH]; cbn; [done|].
  intros [Hk Hm]%NoDup_cons. destruct (String.eqb k' k) eqn:He.
  - apply String.eqb_eq in He as ->. split.
    + intros [= ->]. by left.
    + intros [[= ->]|Hin]; [done|]. destruct Hk.
      apply list_elem_of_In. by apply (in_map fst) in Hin.
  - apply String.eqb_neq in He. rewrite IH by done.
    split; [by right|]. by intros [[= ? ?]|?].
Qed.

Lemma Map_has_In m k : Map.has m k = false -> ~ In k (map fst m).
Proof.
  unfold Map.has. induction m as [|[k' v'] m IH]; cbn; [tauto|].
  destruct (String.eqb k' k) eqn:He; [done|]. apply String.eqb_neq in He.
  intros H [?|?]; [done|]. by apply IH.
Qed.

Lemma lookupStep_invariant ti ci lookup row n :
  lookupInvariant n lookup -> lookupInvariant (S n) (lookupStep ti ci lookup row).
Proof.
  intros (Hnd & Htrim & Hsize). unfold lookupStep. cbv zeta.
  destruct (truthy (elementAt row ti) && truthy (elementAt row ci));
    [|split; [done|split; [done|unfold Map.size in *; lia]]].
  destruct (Map.has lookup _) eqn:Hhas; cbn [negb];
    [split; [done|split; [done|unfold Map.size in *; lia]]|].
  rewrite Map_set_absent by done. unfold lookupInvariant, Map.entries, Map.size in *.
  split; [|split].
  - rewrite map_app. cbn. apply NoDup_app. split; [done|]. split.
    + intros k Hk [<-|[]]%list_elem_of_In. apply Map_has_In in Hhas.
      by apply list_elem_of_In in Hk.
    + apply NoDup_singleton.
  - apply Forall_app. split; [done|]. constructor; [|done]. cbn [fst snd].
    by rewrite !trim_idem.
  - rewrite length_app. cbn. lia.
Qed.

Lemma fold_lookupStep_invariant ti ci rows : forall lookup n,
  lookupInvariant n lookup ->
  lookupInvariant (n + length rows) (fold_left (lookupStep ti ci) rows lookup).
Proof.
  induction rows as [|row rows IH]; intros lookup n H; cbn.
  - by rewrite Nat.add_0_r.
  - replace (n + S (length rows)) with (S n + length rows) by lia.
    apply IH. by apply lookupStep_invariant.
Qed.

Lemma lookupOf_invariant materialsData :
  lookupInvariant (length materialsData - 1) (lookupOf (Some materialsData)).
Proof.
  assert (H0 : forall n, lookupInvariant n Map.empty).
  { intros n. split; [constructor|]. split; [constructor|]. cbn. lia. }
  unfold lookupOf. destruct materialsData as [|headers dataRows]; [apply H0|].
  destruct (materialTypeColumn headers); [|apply H0].
  destruct (productionCodeColumn headers); [|apply H0].
  cbn [length]. replace (S (length dataRows) - 1) with (0 + length dataRows) by lia.
  apply fold_lookupStep_invariant, H0.
Qed.

(** X10. [createMaterialsLookup] always returns, and the lookup it
    returns has pairwise distinct keys, keys and codes without white space
    at either end, and at most one entry per data row of the materials
    table; reading a key gives the code of the one entry with that key. *)
Theorem lookup_keys_unique_and_trimmed materialsData :
  exists lookup,
    completes (createMaterialsLookup materialsData) (Return lookup)
    /\ NoDup (map fst (Map.entries lookup))
    /\ Forall (fun kv : string * string => trim kv.1 = kv.1 /\ trim kv.2 = kv.2)
              (Map.entries lookup)
    /\ Map.size lookup <= length materialsData - 1
    /\ (forall k v, Map.get lookup k = Some v <-> In (k, v) (Map.entries lookup)).
Proof.
  exists (lookupOf (Some materialsData)).
  split; [apply createMaterialsLookup_completes|].
  destruct (lookupOf_invariant materialsData) as (Hnd & Htrim & Hsize).
  split; [done|]. split; [done|]. split; [done|].
  intros k v. by apply Map_get_In.
Qed.

(** X11. Without a usable materials table (none given, an empty one, one
    whose header row lacks the material-type column or the production-code
    column, or one without data rows) the call completes exactly as it
    does with no materials table at all, and every Constituent Item Code
    of the result is the raw material id of its constituent. *)
Theorem raw_ids_without_lookup headers dataRows materialsData c :
  (materialsData = None \/ materialsData = Some []
   \/ exists mheaders mrows,
        materialsData = Some (mheaders :: mrows)
        /\ (materialTypeColumn mheaders = None \/ productionCodeColumn mheaders = None
            \/ mrows = [])) ->
  completionOf (convertMPAQMixes (headers :: dataRows) materialsData) c
  = completionOf (convertMPAQMixes (headers :: dataRows) None) c
  /\ (forall tbl,
        completionOf (convertMPAQMixes (headers :: dataRows) materialsData) c = Return tbl ->
        Forall (fun row =>
                  exists mix plant cst,
                    In mix (validMixesOf headers dataRows)
                    /\ In cst (constituentsOf mix)
                    /\ row = outRowOf [] (baseDataOf mix) plant cst
                    /\ column "Constituent Item Code" row = Some (rawId cst))
               (tl tbl)).
Proof.
  intros Hm.
  assert (Hl : lookupOf materialsData = []).
  { destruct Hm as [->|[->|(mh & mr & -> & H)]]; try done. unfold lookupOf.
    destruct H as [->|[H| ->]]; [done| |].
    - by destruct (materialTypeColumn mh); rewrite ?H.
    - by destruct (materialTypeColumn mh), (productionCodeColumn mh). }
  rewrite !completionOf_convert.
  assert (Heq : convertResult (headers :: dataRows) materialsData
                = convertResult (headers :: dataRows) None).
  { unfold convertResult. by rewrite Hl. }
  split; [exact Heq|].
  intros tbl H. rewrite <- (completionOf_convert _ _ c) in H.
  apply convert_Return in H
    as (headers' & dataRows' & first & rest & [= <- <-] & _ & Hv & _ & _ & ->).
  rewrite <- Hv, Hl. cbn [tl]. apply Forall_forall. intros r Hr.
  apply list_elem_of_In, in_flat_map in Hr as [mix [Hmix Hr]].
  unfold mixRows in Hr. apply in_flat_map in Hr as [plant [_ Hr]].
  apply in_map_iff in Hr as [cst [<- Hcst]].
  exists mix, plant, cst. split; [done|]. split; [done|]. split; [done|].
  rewrite item_code_of_outRow. f_equal. unfold productionCodeOf, Map.has. cbn.
  by rewrite andb_false_r.
Qed.

Lemma raw_ids_without_lookup_witness :
  completionOf (convertMPAQMixes sampleMixes2 (Some [[VStr "Name"; VStr "Code"];
                                                      [VStr "Sand"; VStr "AGG-7"]])) []
  = completionOf (convertMPAQMixes sampleMixes2 None) [].
Proof.
  apply (raw_ids_without_lookup (hd [] sampleMixes2) (tl sampleMixes2)
           (Some [[VStr "Name"; VStr "Code"]; [VStr "Sand"; VStr "AGG-7"]]) []).
  right. right. eexists _, _. split; [reflexivity|]. left. reflexivity.
Defined.

(** ** Batches *)

(** X12. Mixes are converted independently of one another: when the call
    returns for a header row with the data rows [rows1] and for the same
    header row with the data rows [rows2], it returns for the header row
    with [rows1] followed by [rows2], and the result is the first table
    followed by the data rows of the second. *)
Theorem convert_batches headers rows1 rows2 materialsData c tbl1 tbl2 :
  completionOf (convertMPAQMixes (headers :: rows1) materialsData) c = Return tbl1 ->
  completionOf (convertMPAQMixes (headers :: rows2) materialsData) c = Return tbl2 ->
  completionOf (convertMPAQMixes (headers :: rows1 ++ rows2) materialsData) c
  = Return (tbl1 ++ tl tbl2).
Proof.
  intros H1 H2.
  apply convert_Return in H1
    as (? & ? & f1 & r1 & [= <- <-] & Ha1 & Hv1 & HM & HN & ->).
  apply convert_Return in H2
    as (? & ? & f2 & r2 & [= <- <-] & Ha2 & Hv2 & _ & _ & ->).
  rewrite completionOf_convert. unfold convertResult.
  rewrite recordsOf_app, forallb_app, Ha1, Ha2. cbn [andb].
  unfold validMixesOf in *. rewrite recordsOf_app, List.filter_app, Hv1, Hv2.
  cbn [app]. rewrite HM, HN. cbn [andb tl]. f_equal.
  change (f1 :: r1 ++ f2 :: r2) with ((f1 :: r1) ++ f2 :: r2).
  rewrite flat_map_app. reflexivity.
Qed.

Lemma convert_batches_witness :
  exists tbl1 tbl2,
    completionOf (convertMPAQMixes (hd [] sampleMixes2 :: firstn 2 (tl sampleMixes2))
                                   (Some sampleMaterials)) [] = Return tbl1
    /\ completionOf (convertMPAQMixes (hd [] sampleMixes2 :: skipn 2 (tl sampleMixes2))
                                      (Some sampleMaterials)) [] = Return tbl2
    /\ completionOf (convertMPAQMixes sampleMixes2 (Some sampleMaterials)) []
       = Return (tbl1 ++ tl tbl2).
Proof.
  eexists _, _. split; [vm_compute; reflexivity|]. split; [vm_compute; reflexivity|].
  apply (convert_batches (hd [] sampleMixes2) (firstn 2 (tl sampleMixes2))
           (skipn 2 (tl sampleMixes2)) (Some sampleMaterials) []);
    vm_compute; reflexivity.
Defined.


(** ** From the materials table to the rows *)

(** X21. From the materials table to the rows: when the materials table
    has both columns and [mrow] is its first data row with a truthy name
    cell and a truthy code cell whose trimmed name is a given non-empty
    text, every constituent of a valid mix whose trimmed Name cell is that
    text yields, for each plant, a row whose Constituent Item Code is the
    trimmed code cell of [mrow] and whose Constituent Item Description is
    the Name cell as it was read. *)
Theorem code_of_first_named_row headers dataRows mheaders mrows c tbl ti ci pre mrow post :
  completionOf (convertMPAQMixes (headers :: dataRows) (Some (mheaders :: mrows))) c
  = Return tbl ->
  materialTypeColumn mheaders = Some ti -> productionCodeColumn mheaders = Some ci ->
  mrows = pre ++ mrow :: post ->
  truthy (elementAt mrow ti) = true -> truthy (elementAt mrow ci) = true ->
  trim (ToString (elementAt mrow ti)) <> "" ->
  Forall (fun r => truthy (elementAt r ti) = false
                   \/ trim (ToString (elementAt r ti)) <> trim (ToString (elementAt mrow ti))
                   \/ truthy (elementAt r ci) = false) pre ->
  forall mix plant cst,
    In mix (validMixesOf headers dataRows) -> In plant PLANTS ->
    In cst (constituentsOf mix) ->
    trim (ToString (if truthy (matNameOf cst) then matNameOf cst else VStr ""))
    = trim (ToString (elementAt mrow ti)) ->
    exists row,
      In row (tl tbl)
      /\ column "Plant Code" row = Some (VStr plant)
      /\ column "Mix Name" row = Some (cell mix "MixId")
      /\ column "Constituent Item Description" row
         = Some (if truthy (matNameOf cst) then matNameOf cst else VStr "")
      /\ column "Constituent Item Code" row
         = Some (VStr (trim (ToString (elementAt mrow ci)))).
Proof.
  intros H Hti Hci -> Hname Hcode Hne Hpre mix plant cst Hmix Hplant Hcst Heq.
  destruct cst as [[[matType matId] matName] matTarget]. cbn [matNameOf] in *.
  apply convert_Return in H
    as (headers' & dataRows' & first & rest & [= <- <-] & _ & Hv & _ & _ & ->).
  rewrite <- Hv. cbn [tl].
  exists (outRowOf (lookupOf (Some (mheaders :: pre ++ mrow :: post)))
                   (baseDataOf mix) plant (matType, matId, matName, matTarget)).
  split.
  { apply in_flat_map. exists mix. split; [done|].
    unfold mixRows. apply in_flat_map. exists plant. split; [done|]. by apply in_map. }
  split; [done|]. split; [done|].
  assert (Hln : lookupName (matType, matId, matName, matTarget)
                = trim (ToString (elementAt mrow ti))) by (by rewrite <- Heq).
  split; [done|].
  rewrite item_code_of_outRow, productionCodeOf_cases, Hln.
  rewrite (isEmptyString_false _ Hne).
  unfold lookupOf. rewrite Hti, Hci, fold_lookupStep_get. cbn [Map.get Map.empty].
  rewrite (firstStoredCode_first ti ci pre mrow post); [done| | |].
  - unfold rowName. by rewrite Hname.
  - done.
  - eapply Forall_impl; [exact Hpre|]. cbn beta. intros r Hr. unfold rowName.
    destruct (truthy (elementAt r ti)); [|by left].
    destruct Hr as [Hr|[Hr|Hr]]; [done| |by right]. left. congruence.
Qed.

Lemma code_of_first_named_row_witness :
  exists tbl row,
    completionOf (convertMPAQMixes sampleMixes2 (Some sampleMaterials)) [] = Return tbl
    /\ In row (tl tbl)
    /\ column "Plant Code" row = Some (VStr "02")
    /\ column "Constituent Item Description" row = Some (VStr "Cement")
    /\ column "Constituent Item Code" row = Some (VStr "CEM-1").
Proof.
  eexists.
  destruct (code_of_first_named_row (hd [] sampleMixes2) (tl sampleMixes2)
              (hd [] sampleMaterials) (tl sampleMaterials) [] _ 0 1
              [] [VStr "Cement"; VStr "CEM-1"]
              [[VStr " Cement "; VStr "CEM-2"]; [VStr "Sand"; VStr " AGG-7 "]]
              ltac:(vm_compute; reflexivity) ltac:(vm_compute; reflexivity)
              ltac:(vm_compute; reflexivity) ltac:(vm_compute; reflexivity)
              ltac:(vm_compute; reflexivity) ltac:(vm_compute; reflexivity)
              ltac:(vm_compute; discriminate) ltac:(constructor)
              (rowToObject (hd [] sampleMixes2) (nth 0 (tl sampleMixes2) []))
              "02" ("Cement", VStr "C1", VStr "Cement", VNum (ofZ 300)))
    as (row & Hin & Hp & _ & Hd & Hc).
  - (vm_compute; left; reflexivity).
  - (vm_compute; tauto).
  - (vm_compute; tauto).
  - (vm_compute; reflexivity).
  - exists row. (split; [vm_compute; reflexivity|]). split; [exact Hin|].
    split; [exact Hp|]. split; [exact Hd|]. (rewrite Hc; vm_compute; reflexivity).
Defined.

(* ===================================================================== *)
(** * Columns the converter does not read                                *)
(* ===================================================================== *)

Lemma assignCells_app h1 h2 row : forall index obj,
  assignCells (h1 ++ h2) index row obj
  = assignCells h2 (index + length h1) row (assignCells h1 index row obj).
Proof.
  induction h1 as [|h h1 IH]; intros index obj; cbn.
  - by rewrite Nat.add_0_r.
  - rewrite IH. f_equal. lia.
Qed.

Lemma assign_sameForConverter obj k v :
  ~ In k readColumns -> k <> "hasOwnProperty" -> k <> "__proto__" ->
  sameForConverter (assign obj k v) obj.
Proof.
  intros Hk Hh Hp. unfold assign.
  apply String.eqb_neq in Hp. rewrite Hp. cbn [andb].
  split.
  - unfold callable, hasColumn. cbn [own protoNull].
    by rewrite lookup_insert_ne.
  - intros col Hcol. assert (k <> col) by (intros ->; done).
    unfold cell, hasColumn. cbn [own]. by rewrite lookup_insert_ne.
Qed.

Lemma cols_read cols a b c :
  In cols [aggCols; cemCols; admCols] -> In (a, b, c) cols ->
  In a readColumns /\ In b readColumns /\ In c readColumns.
Proof.
  intros Hcols Hin. unfold readColumns.
  assert (Hall : In (a, b, c) (aggCols ++ cemCols ++ admCols)).
  { rewrite !in_app_iff. cbn in Hcols. destruct Hcols as [<-|[<-|[<-|[]]]]; tauto. }
  repeat split; apply in_app_iff; right; apply in_flat_map; exists (a, b, c);
    (split; [done|]); cbn; tauto.
Qed.

Lemma slotsOf_same matType cols a b :
  In cols [aggCols; cemCols; admCols] -> sameForConverter a b ->
  slotsOf matType cols a = slotsOf matType cols b.
Proof.
  intros Hcols [_ Hsame]. unfold slotsOf.
  assert (Hl : forall l, (forall x, In x l -> In x cols) ->
                 omap (slotConstituent matType a) l = omap (slotConstituent matType b) l).
  { induction l as [|[[cid cname] ctarget] l IH]; intros Hsub; [done|].
    cbn [omap list_omap]. rewrite IH by (intros x Hx; apply Hsub; by right).
    destruct (cols_read cols cid cname ctarget Hcols (Hsub _ (or_introl eq_refl)))
      as (H1 & H2 & H3).
    unfold slotConstituent.
    by rewrite (proj1 (Hsame _ H1)), (proj1 (Hsame _ H2)), (proj1 (Hsame _ H3)). }
  by apply Hl.
Qed.

Lemma sameForConverter_rows lookup a b :
  sameForConverter a b ->
  keptByFilter a = keptByFilter b
  /\ hasColumn a "MixId" = hasColumn b "MixId"
  /\ hasColumn a "Name" = hasColumn b "Name"
  /\ mixRows lookup a = mixRows lookup b.
Proof.
  intros Hs. pose proof Hs as [_ Hsame].
  assert (Hc : forall col, In col ["MixId"; "Name"; "ExternalId"; "AirFactor"; "Slump";
                                   "WaterTarget"] ->
                 cell a col = cell b col /\ hasColumn a col = hasColumn b col).
  { intros col Hcol. apply Hsame. unfold readColumns. apply in_app_iff. by left. }
  assert (HW := proj1 (Hc "WaterTarget" ltac:(cbn; tauto))).
  split; [unfold keptByFilter; by rewrite HW|].
  split; [apply Hc; cbn; tauto|]. split; [apply Hc; cbn; tauto|].
  unfold mixRows, baseDataOf, constituentsOf, waterOf.
  rewrite (proj1 (Hc "MixId" ltac:(cbn; tauto))), (proj1 (Hc "Name" ltac:(cbn; tauto))),
    (proj1 (Hc "ExternalId" ltac:(cbn; tauto))), (proj1 (Hc "AirFactor" ltac:(cbn; tauto))),
    (proj1 (Hc "Slump" ltac:(cbn; tauto))), HW.
  rewrite (slotsOf_same "Aggregate" aggCols a b), (slotsOf_same "Cement" cemCols a b),
    (slotsOf_same "Admixture" admCols a b); [done| | | | | |]; try done; cbn; tauto.
Qed.

Lemma convertResult_same_records (g' g : list value -> object) lookup (rows : table) :
  (forall row, sameForConverter (g' row) (g row)) ->
  forallb callable (map g' rows) = forallb callable (map g rows)
  /\ match List.filter keptByFilter (map g' rows), List.filter keptByFilter (map g rows) with
     | [], [] => True
     | f' :: r', f :: r =>
         hasColumn f' "MixId" = hasColumn f "MixId"
         /\ hasColumn f' "Name" = hasColumn f "Name"
         /\ flat_map (mixRows lookup) (f' :: r') = flat_map (mixRows lookup) (f :: r)
     | _, _ => False
     end.
Proof.
  intros Hs. split.
  - induction rows as [|row rows IH]; [done|]. cbn [map forallb].
    by rewrite IH, (proj1 (Hs row)).
  - assert (Hflat : flat_map (mixRows lookup) (List.filter keptByFilter (map g' rows))
                    = flat_map (mixRows lookup) (List.filter keptByFilter (map g rows))).
    { induction rows as [|row rows IH]; [done|]. cbn [map List.filter].
      destruct (sameForConverter_rows lookup _ _ (Hs row)) as (Hk & _ & _ & Hm).
      rewrite Hk. destruct (keptByFilter (g row)); [|exact IH].
      cbn [flat_map]. by rewrite Hm, IH. }
    induction rows as [|row rows IH]; [done|]. cbn [map List.filter] in *.
    destruct (sameForConverter_rows lookup _ _ (Hs row)) as (Hk & HM & HN & Hm).
    rewrite Hk in *. destruct (keptByFilter (g row)); [|by apply IH].
    split; [done|]. split; [done|]. exact Hflat.
Qed.

(** X22. A column the converter does not read has no effect: appending to
    the header row a cell whose text is none of the column names the
    converter reads, nor hasOwnProperty nor __proto__, leaves the
    completion of the call as it was, whatever the data rows hold under
    the new column. *)
Theorem unread_column_ignored headers h dataRows materialsData c :
  ~ In (ToString h) readColumns ->
  ToString h <> "hasOwnProperty" -> ToString h <> "__proto__" ->
  completionOf (convertMPAQMixes ((headers ++ [h]) :: dataRows) materialsData) c
  = completionOf (convertMPAQMixes (headers :: dataRows) materialsData) c.
Proof.
  intros Hk Hh Hp. rewrite !completionOf_convert.
  unfold convertResult, validMixesOf, recordsOf.
  destruct (convertResult_same_records (rowToObject (headers ++ [h])) (rowToObject headers)
              (lookupOf materialsData) dataRows) as [Hall Hvalid].
  { intros row. unfold rowToObject. rewrite assignCells_app. cbn [assignCells].
    by apply assign_sameForConverter. }
  rewrite Hall. destruct (forallb callable (map (rowToObject headers) dataRows)); [|done].
  destruct (List.filter keptByFilter (map (rowToObject (headers ++ [h])) dataRows))
    as [|f' r'], (List.filter keptByFilter (map (rowToObject headers) dataRows))
    as [|f r]; try done.
  destruct Hvalid as (-> & -> & ->). done.
Qed.

Lemma unread_column_ignored_witness :
  completionOf (convertMPAQMixes
                  ((hd [] sampleMixes2 ++ [VStr "Comment"]) :: tl sampleMixes2)
                  (Some sampleMaterials)) []
  = completionOf (convertMPAQMixes sampleMixes2 (Some sampleMaterials)) [].
Proof.
  apply (unread_column_ignored (hd [] sampleMixes2) (VStr "Comment") (tl sampleMixes2)
           (Some sampleMaterials) []); [|done|done].
  vm_compute. intuition discriminate.
Defined.

(* ===================================================================== *)
(** * The earlier revision                                               *)
(* ===================================================================== *)

Lemma productionCodeOf_empty cst : productionCodeOf [] cst = rawId cst.
Proof. unfold productionCodeOf, Map.has. cbn. by rewrite andb_false_r. Qed.

Lemma earlier_emitRow_completes b plant outRows c :
  completes (Earlier.emitRow b plant outRows c)
            (Return (outRows ++ [outRowOf [] b plant c])).
Proof.
  destruct c as [[[matType matId] matName] matTarget].
  unfold Earlier.emitRow, outRowOf, rowTail, push.
  rewrite productionCodeOf_empty. apply completes_ret.
Qed.

Lemma earlier_processMix_completes total outRows idx row :
  callable row = true ->
  completes (Earlier.processMix total outRows (idx, row))
            (Return (outRows ++ mixRows [] row)).
Proof.
  intros H. unfold Earlier.processMix.
  rewrite (buildBaseData_callable _ H), (collectConstituents_callable _ H).
  do 2 (eapply completes_bind; [apply completes_lift|]).
  eapply completes_bind.
  - apply (completes_forOf _
      (fun out plant => out ++ map (outRowOf [] (baseDataOf row) plant)
                                   (constituentsOf row))).
    intros out plant _.
    rewrite <- (fold_left_push (outRowOf [] (baseDataOf row) plant)).
    apply completes_forOf. intros out' c _. apply earlier_emitRow_completes.
  - rewrite fold_left_append. fold (mixRows [] row).
    destruct ((idx + 1) mod 50 =? 0)%nat; eauto with completes.
Qed.

Lemma earlier_convert_completes mixData materialsData :
  completes (Earlier.convertMPAQMixes mixData materialsData)
            (convertResult mixData None).
Proof.
  unfold Earlier.convertMPAQMixes.
  do 2 (eapply completes_bind; [apply completes_log|]).
  eapply completes_bind; [destruct materialsData; eauto with completes|].
  destruct mixData as [|headers dataRows]; [apply completes_throw|].
  do 2 (eapply completes_bind; [apply completes_log|]).
  unfold convertResult, validMixesOf, recordsOf.
  rewrite filterC_isValidMix.
  destruct (forallb callable (map (rowToObject headers) dataRows)) eqn:Hall.
  2:{ apply completes_bind_throw, completes_lift. }
  eapply completes_bind; [apply completes_lift|].
  eapply completes_bind; [apply completes_log|].
  destruct (List.filter keptByFilter (map (rowToObject headers) dataRows))
    as [|first rest] eqn:Hvalid; [apply completes_throw|].
  assert (Hcall : forall row, In row (first :: rest) -> callable row = true).
  { intros row Hrow. rewrite <- Hvalid in Hrow.
    apply filter_In in Hrow as [Hrow _].
    rewrite forallb_forall in Hall. by apply Hall. }
  rewrite !(hasOwnProperty_callable first) by (apply Hcall; by left).
  eapply completes_bind; [apply completes_lift|].
  destruct (hasColumn first "MixId"); cbn [negb orb andb];
    [|eauto with completes].
  eapply completes_bind; [apply completes_lift|].
  destruct (hasColumn first "Name"); cbn [negb orb andb]; [|apply completes_throw].
  eapply completes_bind.
  - apply (completes_forOf _
      (fun out (ix : nat * object) => out ++ mixRows [] ix.2)).
    intros out [idx row] Hin. apply earlier_processMix_completes.
    apply Hcall. by apply In_indexed in Hin.
  - unfold indexed. rewrite fold_left_indexed. cbn [lookupOf]. eauto with completes.
Qed.

Lemma Forall2_flat_map_same {A B} (R : B -> B -> Prop) (f g : A -> list B) l :
  (forall x, Forall2 R (f x) (g x)) -> Forall2 R (flat_map f l) (flat_map g l).
Proof.
  intros H. induction l as [|x l IH]; cbn; [constructor|]. by apply Forall2_app.
Qed.

Lemma Forall2_map_same {A B} (R : B -> B -> Prop) (f g : A -> B) l :
  (forall x, R (f x) (g x)) -> Forall2 R (map f l) (map g l).
Proof.
  intros H. induction l as [|x l IH]; cbn; constructor; auto.
Qed.

Lemma outRowOf_same_outside_code lookup lookup' b plant cst j :
  j <> 21 -> outRowOf lookup b plant cst !! j = outRowOf lookup' b plant cst !! j.
Proof.
  intros Hj. destruct cst as [[[matType matId] matName] matTarget].
  unfold outRowOf, rowTail.
  do 25 (destruct j as [|j]; [done|]). done.
Qed.

(** X13. The earlier revision of [convertMPAQMixes], which leaves the
    materials table unused, completes for every input as the current one
    does when called without a materials table.  Against the current one
    called with any materials table, a returned table has the same number
    of rows, and the rows agree cell by cell outside column 21, the
    Constituent Item Code. *)
Theorem earlier_version_agrees mixData materialsData c :
  completionOf (Earlier.convertMPAQMixes mixData materialsData) c
  = completionOf (convertMPAQMixes mixData None) c
  /\ columnIndex "Constituent Item Code" = Some 21
  /\ (forall materialsData' tbl tbl',
        completionOf (Earlier.convertMPAQMixes mixData materialsData) c = Return tbl ->
        completionOf (convertMPAQMixes mixData materialsData') c = Return tbl' ->
        length tbl = length tbl'
        /\ forall i row row' j,
             tbl !! i = Some row -> tbl' !! i = Some row' -> j <> 21 ->
             row !! j = row' !! j).
Proof.
  rewrite (completes_completionOf _ _ c (earlier_convert_completes mixData materialsData)).
  split; [by rewrite completionOf_convert|]. split; [reflexivity|].
  intros materialsData' tbl tbl' H H'.
  rewrite <- (completionOf_convert _ _ c) in H.
  apply convert_Return in H
    as (headers & dataRows & first & rest & -> & _ & Hv & _ & _ & ->).
  apply convert_Return in H'
    as (? & ? & first' & rest' & [= <- <-] & _ & Hv' & _ & _ & ->).
  rewrite Hv in Hv'. injection Hv' as <- <-. cbn [lookupOf].
  assert (HF : Forall2 (fun row row' => forall j, j <> 21 -> row !! j = row' !! j)
                 (map VStr FINAL_COLUMNS :: flat_map (mixRows []) (first :: rest))
                 (map VStr FINAL_COLUMNS
                    :: flat_map (mixRows (lookupOf materialsData')) (first :: rest))).
  { constructor; [done|]. apply Forall2_flat_map_same. intros mix. unfold mixRows.
    apply Forall2_flat_map_same. intros plant. apply Forall2_map_same.
    intros cst j Hj. by apply outRowOf_same_outside_code. }
  split; [by eapply Forall2_length|].
  intros i row row' j Hi Hi' Hj.
  by apply (Forall2_lookup_lr _ _ _ _ _ _ HF Hi Hi').
Qed.

Lemma earlier_version_agrees_witness :
  exists tbl tbl',
    completionOf (Earlier.convertMPAQMixes sampleMixes2 (Some sampleMaterials)) []
    = Return tbl
    /\ completionOf (convertMPAQMixes sampleMixes2 (Some sampleMaterials)) [] = Return tbl'
    /\ length tbl = length tbl'
    /\ column "Constituent Item Code" (nth 1 tbl []) = Some (VStr "A1")
    /\ column "Constituent Item Code" (nth 1 tbl' []) = Some (VStr "AGG-7").
Proof.
  eexists _, _. split; [vm_compute; reflexivity|]. split; [vm_compute; reflexivity|].
  split; [|split; vm_compute; reflexivity].
  destruct (earlier_version_agrees sampleMixes2 (Some sampleMaterials) [])
    as (_ & _ & H).
  apply (H (Some sampleMaterials)); vm_compute; reflexivity.
Defined.


(** ** What the materials table can change *)

Lemma findIndexFrom_Some {A} (p : A -> bool) l : forall i j,
  findIndexFrom p l i = Some j ->
  exists x, l !! (j - i) = Some x /\ p x = true /\ i <= j.
Proof.
  induction l as [|y l IH]; intros i j; cbn; [done|].
  destruct (p y) eqn:Hy.
  - intros [= <-]. exists y. by rewrite Nat.sub_diag.
  - intros H. apply IH in H as (x & Hx & Hp & Hle). exists x.
    replace (j - i) with (S (j - S i)) by lia. split; [done|]. split; [done|lia].
Qed.

(** X23. The materials table bears on one column only: with any two
    materials tables (or none) the call fails with the same exception or
    returns with both, and two returned tables have the same number of
    rows and agree, row by row, in every column other than the
    Constituent Item Code. *)
Theorem materials_change_item_code_only mixData materialsData materialsData' c :
  (forall e,
     completionOf (convertMPAQMixes mixData materialsData) c = Throw e <->
     completionOf (convertMPAQMixes mixData materialsData') c = Throw e)
  /\ (forall tbl tbl',
        completionOf (convertMPAQMixes mixData materialsData) c = Return tbl ->
        completionOf (convertMPAQMixes mixData materialsData') c = Return tbl' ->
        length tbl = length tbl'
        /\ forall i row row' title,
             tbl !! i = Some row -> tbl' !! i = Some row' ->
             title <> "Constituent Item Code" ->
             column title row = column title row').
Proof.
  rewrite !completionOf_convert. split.
  - intros e. unfold convertResult.
    destruct mixData as [|headers dataRows]; [done|].
    destruct (forallb callable (recordsOf headers dataRows)); [|done].
    destruct (validMixesOf headers dataRows) as [|first rest]; [done|].
    by destruct (hasColumn first "MixId" && hasColumn first "Name").
  - intros tbl tbl' H H'.
    rewrite <- (completionOf_convert _ _ c) in H.
    rewrite <- (completionOf_convert _ _ c) in H'.
    apply convert_Return in H
      as (headers & dataRows & first & rest & -> & _ & Hv & _ & _ & ->).
    apply convert_Return in H'
      as (? & ? & first' & rest' & [= <- <-] & _ & Hv' & _ & _ & ->).
    rewrite Hv in Hv'. injection Hv' as <- <-.
    assert (HF : Forall2 (fun row row' => forall j, j <> 21 -> row !! j = row' !! j)
                   (map VStr FINAL_COLUMNS
                      :: flat_map (mixRows (lookupOf materialsData)) (first :: rest))
                   (map VStr FINAL_COLUMNS
                      :: flat_map (mixRows (lookupOf materialsData')) (first :: rest))).
    { constructor; [done|]. apply Forall2_flat_map_same. intros mix. unfold mixRows.
      apply Forall2_flat_map_same. intros plant. apply Forall2_map_same.
      intros cst j Hj. by apply outRowOf_same_outside_code. }
    split; [by eapply Forall2_length|].
    intros i row row' title Hi Hi' Ht.
    pose proof (Forall2_lookup_lr _ _ _ _ _ _ HF Hi Hi') as Hrows.
    unfold column. destruct (columnIndex title) as [j|] eqn:Hj; [|done].
    apply Hrows. intros ->. apply Ht.
    apply findIndexFrom_Some in Hj as (x & Hx & Hp & _).
    cbn in Hx. injection Hx as <-. by apply String.eqb_eq in Hp.
Qed.

Lemma materials_change_item_code_only_witness :
  exists tbl tbl',
    completionOf (convertMPAQMixes sampleMixes2 (Some sampleMaterials)) [] = Return tbl
    /\ completionOf (convertMPAQMixes sampleMixes2 None) [] = Return tbl'
    /\ length tbl = length tbl'
    /\ column "Quantity" (nth 2 tbl []) = column "Quantity" (nth 2 tbl' []).
Proof.
  eexists _, _. split; [vm_compute; reflexivity|]. split; [vm_compute; reflexivity|].
  destruct (materials_change_item_code_only sampleMixes2 (Some sampleMaterials) None [])
    as [_ H].
  destruct (H _ _ ltac:(vm_compute; reflexivity) ltac:(vm_compute; reflexivity))
    as [Hlen Hcells].
  split; [exact Hlen|].
  apply (Hcells 2); [vm_compute; reflexivity|vm_compute; reflexivity|done].
Defined.

(* ===================================================================== *)
(** * The Command Series converter                                       *)
(* ===================================================================== *)

Lemma convertRow_cells row :
  length (CommandSeries.convertRow row) = 25
  /\ elementAt (CommandSeries.convertRow row) 21 = elementAt row 14
  /\ elementAt (CommandSeries.convertRow row) 22 = elementAt row 15.
Proof.
  unfold CommandSeries.convertRow.
  destruct (CommandSeries.parseRange (elementAt row 10)) as [minAir maxAir].
  destruct (CommandSeries.parseRange (elementAt row 12)) as [minSlump maxSlump].
  done.
Qed.

Lemma keepRow_convertRow row index :
  4 <= index ->
  CommandSeries.keepRow (CommandSeries.convertRow row) index
  = negb (readsAIR (elementAt row 14) && readsAIR (elementAt row 15)).
Proof.
  intros Hi. unfold CommandSeries.keepRow.
  destruct (Nat.ltb_spec index 4) as [?|_]; [lia|]. cbv zeta.
  destruct (convertRow_cells row) as (_ & -> & ->).
  unfold readsAIR.
  destruct (truthy (elementAt row 14)), (truthy (elementAt row 15)),
    (CommandSeries.strictEqText
       (CommandSeries.toUpperCase (trim (ToString (elementAt row 14)))) "AIR"),
    (CommandSeries.strictEqText
       (CommandSeries.toUpperCase (trim (ToString (elementAt row 15)))) "AIR");
    reflexivity.
Qed.

Lemma fold_left_push_if {A B} (p : A -> bool) (f : A -> B) l : forall acc,
  fold_left (fun acc x => if p x then acc else push acc (f x)) l acc
  = acc ++ map f (List.filter (fun x => negb (p x)) l).
Proof.
  induction l as [|x l IH]; intros acc; cbn.
  - by rewrite app_nil_r.
  - rewrite IH. destruct (p x); cbn; [done|]. unfold push. by rewrite <- app_assoc.
Qed.

Lemma filterFrom_map_convertRow rows : forall index,
  4 <= index ->
  CommandSeries.filterFrom CommandSeries.keepRow (map CommandSeries.convertRow rows) index
  = map CommandSeries.convertRow
        (List.filter (fun row => negb (readsAIR (elementAt row 14)
                                       && readsAIR (elementAt row 15))) rows).
Proof.
  induction rows as [|row rows IH]; intros index Hi; [done|].
  cbn [map CommandSeries.filterFrom List.filter].
  rewrite keepRow_convertRow by done. rewrite IH by lia.
  by destruct (negb _).
Qed.

Lemma filter_filter {A} (p q : A -> bool) l :
  List.filter q (List.filter p l) = List.filter (fun x => p x && q x) l.
Proof.
  induction l as [|x l IH]; [done|]. cbn.
  destruct (p x); cbn; [|done]. destruct (q x); by rewrite IH.
Qed.

(** X14. The table [processData] makes is the four header rows of the
    template followed by one row of 25 cells for each source row after the
    first that is not empty and is not an air component, in source order.
    A source row is an air component when its cells 14 and 15 (Item Code
    and Item Description) both pass the test the filter makes on columns
    21 and 22 of the converted row: the cell is truthy and its text,
    trimmed and put in upper case, is the word AIR.  The first source row
    never contributes, and the header rows are there even for an empty
    source: the filter passes the first four rows untested. *)
Theorem command_series_rows sourceData :
  CommandSeries.processData sourceData
  = CommandSeries.headers
    ++ map CommandSeries.convertRow (List.filter convertedRow (tl sourceData))
  /\ length CommandSeries.headers = 4
  /\ Forall (fun row => length row = 25) (CommandSeries.processData sourceData)
  /\ length (CommandSeries.processData sourceData) <= 4 + (length sourceData - 1).
Proof.
  assert (Heq : CommandSeries.processData sourceData
                = CommandSeries.headers
                  ++ map CommandSeries.convertRow
                         (List.filter convertedRow (tl sourceData))).
  { unfold CommandSeries.processData. cbv zeta.
    rewrite (fold_left_push_if (fun row => (length row =? 0)%nat) CommandSeries.convertRow).
    set (rows := List.filter (fun x => negb (length x =? 0)%nat) (tl sourceData)).
    change (CommandSeries.filterFrom CommandSeries.keepRow
              (CommandSeries.headers ++ map CommandSeries.convertRow rows) 0)
      with (CommandSeries.headers
              ++ CommandSeries.filterFrom CommandSeries.keepRow
                   (map CommandSeries.convertRow rows) 4).
    rewrite filterFrom_map_convertRow by lia. subst rows.
    by rewrite filter_filter. }
  split; [exact Heq|].
  split; [reflexivity|]. rewrite Heq. split.
  - apply Forall_app. split.
    + repeat constructor.
    + apply Forall_forall. intros r Hr. apply list_elem_of_In, in_map_iff in Hr as (row & <- & _).
      apply convertRow_cells.
  - rewrite length_app, length_map. cbn [length].
    pose proof (filter_length_le convertedRow (tl sourceData)).
    destruct sourceData; cbn in *; lia.
Qed.


Lemma command_series_rows_witness :
  length (CommandSeries.processData sampleSeries) = 4 + 2
  /\ map (fun row => (elementAt row 21, elementAt row 22))
         (skipn 4 (CommandSeries.processData sampleSeries))
     = [(str "C1", str "Cement"); (str "Air", str "Air entrainer")].
Proof.
  destruct (command_series_rows sampleSeries) as (-> & _).
  split; vm_compute; reflexivity.
Defined.

Lemma whitespace_is_plain c :
  isWhiteSpace c = true ->
  isDigit c = false /\ Ascii.eqb "." c = false /\ Ascii.eqb "-" c = false.
Proof. destruct c as [[] [] [] [] [] [] [] []]; try discriminate; by intros _. Qed.

Lemma not_hyphen_head {A} (r1 : string) (X : string -> A) (Y : A) :
  stopsAt (Ascii.eqb "-") r1 ->
  match r1 with String "-" r2 => X r2 | _ => Y end = Y.
Proof.
  destruct r1 as [|c r]; [done|].
  destruct c as [[] [] [] [] [] [] [] []]; try done.
Qed.

Lemma NumberText_head m :
  NumberText m -> exists c t, m = String c t /\ isDigit c = true.
Proof.
  intros (d & f & Hne & Hd & _ & Hm). destruct d as [|c d]; [done|].
  cbn in Hd. apply andb_true_iff in Hd as [Hc _].
  destruct Hm as [-> | ->]; by eexists _, _.
Qed.

Lemma reNumberAt_app m r :
  NumberText m -> stopsAt isDigit r -> stopsAt (Ascii.eqb ".") r ->
  CommandSeries.reNumberAt (m +:+ r) = Some (m, r).
Proof.
  intros (d & f & Hne & Hd & Hf & Hm) Hr Hp. unfold CommandSeries.reNumberAt.
  destruct Hm as [-> | ->].
  - rewrite (span_append _ _ _ Hd Hr), (isEmptyString_false _ Hne).
    by rewrite not_point_head.
  - rewrite !append_assoc.
    rewrite (span_append isDigit d ("." +:+ f +:+ r) Hd eq_refl).
    rewrite (isEmptyString_false _ Hne). cbn.
    by rewrite (span_append _ _ _ Hf Hr).
Qed.

Lemma reNumberAt_Some s m r :
  CommandSeries.reNumberAt s = Some (m, r) -> s = m +:+ r /\ NumberText m.
Proof.
  unfold CommandSeries.reNumberAt.
  destruct (span isDigit s) as [d1 r1] eqn:Hs.
  apply span_split in Hs as (-> & Hd1 & Hstop).
  destruct (isEmptyString d1) eqn:He; [done|].
  apply isEmptyString_false_inv in He.
  destruct r1 as [|x r1].
  { intros [= <- <-]. split; [done|]. exists d1, "". auto. }
  destruct (Ascii.eqb "." x) eqn:Hx.
  - apply Ascii.eqb_eq in Hx as <-.
    destruct (span isDigit r1) as [d2 r2] eqn:Hs2.
    apply span_split in Hs2 as (-> & Hd2 & Hstop2).
    intros [= <- <-]. split; [by rewrite !append_assoc|]. exists d1, d2. auto.
  - pose proof (not_point_head (String x r1)
                  (fun r2 => let '(d2, r3) := span isDigit r2 in
                             Some (d1 +:+ "." +:+ d2, r3)) (Some (d1, String x r1)) Hx) as Hm.
    cbv beta in Hm. rewrite Hm.
    intros [= <- <-]. split; [done|]. exists d1, "". auto.
Qed.

Lemma reRange_spec s m1 m2 :
  CommandSeries.reRange s = Some (m1, m2) <-> RangeText s m1 m2.
Proof.
  unfold CommandSeries.reRange. split.
  - destruct (CommandSeries.reNumberAt s) as [[m r1]|] eqn:H1; [|done].
    apply reNumberAt_Some in H1 as [-> Hm1].
    destruct (span isWhiteSpace r1) as [w1 r2] eqn:Hw1.
    apply span_split in Hw1 as (-> & Hw1 & _).
    destruct r2 as [|x r2]; [done|].
    destruct (Ascii.eqb "-" x) eqn:Hx.
    + apply Ascii.eqb_eq in Hx as <-.
      destruct (span isWhiteSpace r2) as [w2 r4] eqn:Hw2.
      apply span_split in Hw2 as (-> & Hw2 & _).
      destruct (CommandSeries.reNumberAt r4) as [[m' r5]|] eqn:H2; [|done].
      apply reNumberAt_Some in H2 as [-> Hm2].
      destruct r5; [|done]. intros [= <- <-]. exists w1, w2.
      by rewrite append_nil_r.
    + intros H. exfalso. revert H.
      pose proof (not_hyphen_head (String x r2)
                    (fun r3 => let '(_, r4) := span isWhiteSpace r3 in
                               match CommandSeries.reNumberAt r4 with
                               | Some (m2, r5) =>
                                   if isEmptyString r5 then Some (m, m2) else None
                               | None => None
                               end) None Hx) as Hm.
      cbv beta in Hm. by rewrite Hm.
  - intros (w1 & w2 & -> & Hm1 & Hm2 & Hw1 & Hw2).
    assert (Hstop : forall w t, allChars isWhiteSpace w = true ->
                      stopsAt isDigit (w +:+ "-" +:+ t)
                      /\ stopsAt (Ascii.eqb ".") (w +:+ "-" +:+ t)).
    { intros [|c w] t Hw; [done|]. cbn in Hw. apply andb_true_iff in Hw as [Hc _].
      by destruct (whitespace_is_plain _ Hc) as (? & ? & _). }
    destruct (Hstop w1 (w2 +:+ m2) Hw1) as [Hs1 Hs2].
    rewrite (reNumberAt_app _ _ Hm1 Hs1 Hs2).
    rewrite (span_append isWhiteSpace w1 ("-" +:+ w2 +:+ m2) Hw1 eq_refl). cbn.
    destruct (NumberText_head _ Hm2) as (c & t & Hc & Hdig).
    assert (Hws : stopsAt isWhiteSpace m2).
    { rewrite Hc. cbn. by destruct (digit_is_plain _ Hdig) as (? & _). }
    rewrite (span_append _ _ _ Hw2 Hws).
    pose proof (reNumberAt_app m2 "" Hm2 I I) as H2. rewrite append_nil_r in H2.
    by rewrite H2.
Qed.

Lemma NumberText_not_nan m : NumberText m -> isNaN (parseFloatString m) = false.
Proof.
  intros (d & f & Hne & Hd & Hf & [-> | ->]).
  - rewrite parseFloatString_digits by done. apply ofDecimal_not_nan.
  - rewrite parseFloatString_decimal by done. apply ofDecimal_not_nan.
Qed.

(** X15. [parseRange] gives both bounds or neither: the result is the pair
    of two [null]s, or two numbers neither of which is NaN.  It gives the
    numbers exactly when the cell is truthy and its trimmed text is a
    number, a hyphen and a number, each digits or digits, a point and
    digits, with white space allowed around the hyphen only; the bounds
    are then [parseFloat] of the two number texts.  Any other cell, a
    falsy one included, gives the two [null]s. *)
Theorem parse_range_all_or_nothing v :
  (CommandSeries.parseRange v = (VNull, VNull)
   \/ exists m1 m2,
        truthy v = true /\ RangeText (trim (ToString v)) m1 m2
        /\ CommandSeries.parseRange v
           = (VNum (parseFloatString m1), VNum (parseFloatString m2))
        /\ isNaN (parseFloatString m1) = false
        /\ isNaN (parseFloatString m2) = false)
  /\ (forall m1 m2,
        truthy v = true -> RangeText (trim (ToString v)) m1 m2 ->
        CommandSeries.parseRange v
        = (VNum (parseFloatString m1), VNum (parseFloatString m2)))
  /\ (truthy v = false -> CommandSeries.parseRange v = (VNull, VNull)).
Proof.
  unfold CommandSeries.parseRange. split; [|split].
  - destruct (truthy v); cbn [negb]; [|by left].
    destruct (CommandSeries.reRange (trim (ToString v))) as [[m1 m2]|] eqn:H; [|by left].
    right. exists m1, m2. apply reRange_spec in H.
    split; [done|]. split; [done|]. split; [done|].
    destruct H as (w1 & w2 & _ & H1 & H2 & _).
    split; by apply NumberText_not_nan.
  - intros m1 m2 -> H. apply reRange_spec in H. cbn. by rewrite H.
  - by intros ->.
Qed.

Lemma parse_range_all_or_nothing_witness :
  CommandSeries.parseRange (VStr " 4 - 7.5 ")
  = (VNum (parseFloatString "4"), VNum (parseFloatString "7.5"))
  /\ CommandSeries.parseRange (VStr "") = (VNull, VNull).
Proof.
  split.
  - apply (proj1 (proj2 (parse_range_all_or_nothing (VStr " 4 - 7.5 ")))); [done|].
    exists " ", " ". split; [reflexivity|].
    split; [exists "4", ""; auto|]. split; [exists "7", "5"; auto|]. done.
  - by apply (proj2 (proj2 (parse_range_all_or_nothing (VStr "")))).
Defined.

(* ===================================================================== *)
(** * The console of a call                                              *)
(* ===================================================================== *)

Lemma completesWith_nil {A} (m : M A) r : completes m r -> completesWith m r [].
Proof. intros [t H]. exists t. intros c. by rewrite app_nil_r. Qed.

Lemma completesWith_bind {A B} (m : M A) (k : A -> M B) a r last :
  completes m (Return a) -> completesWith (k a) r last ->
  completesWith (bind m k) r last.
Proof.
  intros [t1 H1] [t2 H2]. exists (t1 ++ t2). intros c.
  unfold bind. rewrite H1, H2. by rewrite !app_assoc.
Qed.

Lemma completesWith_log_ret {A} (m : M A) (f : A -> list logarg) a :
  completes m (Return a) ->
  completesWith (bind m (fun x => bind (console_log (f x)) (fun _ => ret x)))
                (Return a) [(Log, f a)].
Proof.
  intros [t H]. exists t. intros c.
  unfold bind, console_log, ret. rewrite H. by rewrite app_assoc.
Qed.

(** The part of the call after the lookup is made. *)
Lemma convert_tail_completesWith lookup headers dataRows materialsData :
  lookup = lookupOf materialsData ->
  let tail :=
    (console_log [AStr "Mix headers:"; ARow headers] ;;
     let data := map (rowToObject headers) dataRows in
     console_log [AStr "Converted to objects:"; AInt (Z.of_nat (length data)); AStr "rows"] ;;
     let* validMixes := lift (filterC isValidMix data) in
     console_log [AStr ("Filtered to " +:+ natText (length validMixes)
                        +:+ " valid mixes (WaterTarget > 0)")] ;;
     match validMixes with
     | [] => throw (Error "No valid mixes found with WaterTarget > 0")
     | first :: _ =>
         let* hasMixId := lift (hasOwnProperty first "MixId") in
         let* hasName := if hasMixId then lift (hasOwnProperty first "Name") else ret false in
         if negb hasMixId || negb hasName then
           throw (Error "Input file must contain 'MixId' and 'Name' columns.")
         else
           let outRows := [] in
           let outRows := push outRows (map VStr FINAL_COLUMNS) in
           let* outRows :=
             forOf (indexed validMixes)
                   (processMix lookup (length validMixes)) outRows in
           console_log [AStr "Conversion complete. Output rows:";
                        AInt (Z.of_nat (length outRows) - 1)] ;;
           ret outRows
     end)%js in
  completesWith tail (convertResult (headers :: dataRows) materialsData)
    (match convertResult (headers :: dataRows) materialsData with
     | Return tbl => [closingEntry tbl]
     | Throw _ => []
     end).
Proof.
  intros ->. cbv zeta.
  do 2 (eapply completesWith_bind; [apply completes_log|]).
  unfold convertResult, validMixesOf, recordsOf.
  rewrite filterC_isValidMix.
  destruct (forallb callable (map (rowToObject headers) dataRows)) eqn:Hall.
  2:{ apply completesWith_nil, completes_bind_throw, completes_lift. }
  eapply completesWith_bind; [apply completes_lift|].
  eapply completesWith_bind; [apply completes_log|].
  destruct (List.filter keptByFilter (map (rowToObject headers) dataRows))
    as [|first rest] eqn:Hvalid; [apply completesWith_nil, completes_throw|].
  assert (Hcall : forall row, In row (first :: rest) -> callable row = true).
  { intros row Hrow. rewrite <- Hvalid in Hrow.
    apply filter_In in Hrow as [Hrow _].
    rewrite forallb_forall in Hall. by apply Hall. }
  rewrite !(hasOwnProperty_callable first) by (apply Hcall; by left).
  eapply completesWith_bind; [apply completes_lift|].
  destruct (hasColumn first "MixId"); cbn [negb orb andb];
    [|apply completesWith_nil; eauto with completes].
  eapply completesWith_bind; [apply completes_lift|].
  destruct (hasColumn first "Name"); cbn [negb orb andb];
    [|apply completesWith_nil, completes_throw].
  assert (Hloop : completes
            (forOf (indexed (first :: rest))
                   (processMix (lookupOf materialsData) (length (first :: rest)))
                   (push [] (map VStr FINAL_COLUMNS)))
            (Return (map VStr FINAL_COLUMNS
                     :: flat_map (mixRows (lookupOf materialsData)) (first :: rest)))).
  { replace (map VStr FINAL_COLUMNS
             :: flat_map (mixRows (lookupOf materialsData)) (first :: rest))
      with (fold_left (fun out (ix : nat * object) =>
                         out ++ mixRows (lookupOf materialsData) ix.2)
                      (indexed (first :: rest)) (push [] (map VStr FINAL_COLUMNS))).
    - apply completes_forOf. intros out [idx row] Hin. apply processMix_completes.
      apply Hcall. by apply In_indexed in Hin.
    - unfold indexed. by rewrite fold_left_indexed. }
  pose proof (completesWith_log_ret _
    (fun outRows : table => [AStr "Conversion complete. Output rows:";
                             AInt (Z.of_nat (length outRows) - 1)]) _ Hloop) as Hend.
  cbv beta in Hend. unfold closingEntry.
  replace (Z.of_nat (length (tl (map VStr FINAL_COLUMNS
             :: flat_map (mixRows (lookupOf materialsData)) (first :: rest)))))
    with (Z.of_nat (length (map VStr FINAL_COLUMNS
             :: flat_map (mixRows (lookupOf materialsData)) (first :: rest))) - 1)%Z
    by (cbn [tl length]; lia).
  exact Hend.
Qed.

(** X16. Whatever the call does, the console it leaves is the console it
    found followed by the entries it wrote, which start with the
    announcement of the conversion and the number of rows of the mix
    table; when the lookup is empty they hold the warning that raw
    material ids are used; and when the call returns a table, the last
    entry reports as Output rows the number of data rows of that table. *)
Theorem console_transcript mixData materialsData c :
  exists t1 t2,
    (convertMPAQMixes mixData materialsData c).2
    = c ++ openingEntries mixData ++ t1
        ++ (if (Map.size (lookupOf materialsData) =? 0)%nat then [noLookupWarning] else [])
        ++ t2
    /\ (forall tbl,
          completionOf (convertMPAQMixes mixData materialsData) c = Return tbl ->
          exists t3, t2 = t3 ++ [closingEntry tbl]).
Proof.
  assert (Hmat : completes
            (match materialsData with
             | Some md => console_log [AStr "Materials data rows:";
                                       AInt (Z.of_nat (length md))]
             | None => ret tt
             end) (Return tt)) by (destruct materialsData; eauto with completes).
  assert (Hlk : completes
            (match materialsData with
             | Some md => createMaterialsLookup md
             | None => ret Map.empty
             end) (Return (lookupOf materialsData))).
  { destruct materialsData as [md|];
      [apply createMaterialsLookup_completes | apply completes_ret]. }
  destruct Hmat as [ta Hmat], Hlk as [tb Hlk].
  destruct mixData as [|headers dataRows].
  - exists (ta ++ tb), []. split; [|by rewrite completionOf_convert].
    unfold convertMPAQMixes, openingEntries, bind, console_log.
    rewrite Hmat, Hlk.
    destruct (Map.size (lookupOf materialsData) =? 0)%nat;
      unfold console_warn, ret, throw, noLookupWarning; cbn [snd];
      rewrite ?app_nil_r, <- ?app_assoc; reflexivity.
  - destruct (convert_tail_completesWith (lookupOf materialsData) headers dataRows
                materialsData eq_refl) as [t Ht].
    exists (ta ++ tb),
      (t ++ match convertResult (headers :: dataRows) materialsData with
            | Return tbl => [closingEntry tbl]
            | Throw _ => []
            end).
    split.
    + unfold convertMPAQMixes, openingEntries, bind at 1 2 3 4 5, console_log at 1 2.
      rewrite Hmat, Hlk.
      destruct (Map.size (lookupOf materialsData) =? 0)%nat.
      * unfold console_warn at 1. rewrite Ht. cbn [snd]. unfold noLookupWarning.
        rewrite ?app_nil_r, <- ?app_assoc. reflexivity.
      * unfold ret at 1. rewrite Ht. cbn [snd].
        rewrite ?app_nil_r, <- ?app_assoc. reflexivity.
    + intros tbl H. rewrite completionOf_convert in H. rewrite H. by exists t.
Qed.

Lemma console_transcript_witness :
  exists tbl,
    completionOf (convertMPAQMixes sampleMixes None) [] = Return tbl
    /\ In noLookupWarning (convertMPAQMixes sampleMixes None []).2
    /\ last (convertMPAQMixes sampleMixes None []).2 = Some (closingEntry tbl)
    /\ closingEntry tbl = (Log, [AStr "Conversion complete. Output rows:"; AInt 5]).
Proof.
  eexists. split; [vm_compute; reflexivity|].
  destruct (console_transcript sampleMixes None []) as (t1 & t2 & Hc & Hend).
  destruct (Hend _ ltac:(vm_compute; reflexivity)) as [t3 ->].
  split; [|split; [|vm_compute; reflexivity]].
  - rewrite Hc. cbn [lookupOf Map.size length Nat.eqb].
    rewrite !in_app_iff. right. right. right. left. by left.
  - rewrite Hc. rewrite !app_assoc. apply last_snoc.
Defined.

(* ===================================================================== *)
(** * The list of uploaded files                                         *)
(* ===================================================================== *)

Section HomeFiles.
Context {File Workbook : Type} (name : File -> string).

Lemma removeAt_sublist {A} index (l : list A) : forall i,
  length (Home.removeAt index i l) <= length l
  /\ forall P, Forall P l -> Forall P (Home.removeAt index i l).
Proof.
  induction l as [|x l IH]; intros i; cbn; [done|].
  destruct (IH (S i)) as [Hl HP]. destruct (i =? index)%nat; cbn.
  - split; [lia|]. intros P [_ H]%Forall_cons. by apply HP.
  - split; [lia|]. intros P [? H]%Forall_cons. constructor; [done|]. by apply HP.
Qed.

Lemma step_fileInvariant (st : @Home.state File Workbook) e :
  Home.fileInvariant name st -> Home.fileInvariant name (Home.step name st e).
Proof.
  intros [[Hm Ht] Hacc]. destruct e as [acceptedFiles|index|val|]; cbn.
  - unfold Home.onDrop.
    set (validFiles := List.filter _ acceptedFiles).
    assert (Hv : Forall (Home.accepted name) validFiles).
    { apply Forall_forall. intros f Hf. apply list_elem_of_In, filter_In in Hf as [_ Hf].
      unfold Home.accepted. apply orb_true_iff in Hf as [Hf|Hf]; [|tauto].
      apply orb_true_iff in Hf. tauto. }
    destruct (length validFiles =? 0)%nat; [by split|].
    destruct (String.eqb (Home.activeTab st) "mixes") eqn:Hmix; cbn [andb].
    + apply String.eqb_eq in Hmix.
      destruct (Nat.ltb_spec 2 (length validFiles)).
      * split; cbn; [|by apply Forall_take]. unfold sliceTo.
        rewrite length_take. split; [lia|]. rewrite Hmix. done.
      * rewrite Hmix. cbn. split; [|done]. split; [done|done].
    + apply String.eqb_neq in Hmix.
      destruct (String.eqb (Home.activeTab st) "materials") eqn:Hmat; cbn [andb].
      * destruct (Nat.ltb_spec 5 (length validFiles)).
        -- split; cbn; [|by apply Forall_take]. unfold sliceTo.
           rewrite length_take. split; [done|lia].
        -- split; cbn; [|done]. split; [done|lia].
      * apply String.eqb_neq in Hmat. split; cbn; [|done]. split; done.
  - destruct (removeAt_sublist index (Home.files st) 0) as [Hl HP].
    split; cbn; [|by apply HP]. split; intros H; [specialize (Hm H)|specialize (Ht H)]; lia.
  - split; cbn; [|constructor]. split; intros _; lia.
  - split; cbn; [|constructor]. split; intros _; lia.
Qed.

(** X17. After any sequence of file drops, file removals, changes of tab
    and uses of Remove All Files, starting from the first render, the
    page holds at most 2 files while the Mix Conversion tab is active and
    at most 5 while the Material Conversion tab is active, and the name
    of every file it holds ends in .xlsx, .xls or .csv, in lower case. *)
Theorem held_files_within_limits (events : list (@Home.event File)) :
  let st : @Home.state File Workbook := Home.run name events in
  (Home.activeTab st = "mixes" -> length (Home.files st) <= 2)
  /\ (Home.activeTab st = "materials" -> length (Home.files st) <= 5)
  /\ Forall (fun file => Home.endsWith (name file) ".xlsx" = true
                         \/ Home.endsWith (name file) ".xls" = true
                         \/ Home.endsWith (name file) ".csv" = true) (Home.files st).
Proof.
  cbv zeta. unfold Home.run.
  assert (H : Home.fileInvariant name
                (fold_left (Home.step name) events (@Home.initial File Workbook))).
  { assert (H0 : Home.fileInvariant name (@Home.initial File Workbook)).
    { split; [split; cbn; lia|constructor]. }
    revert H0. generalize (@Home.initial File Workbook).
    induction events as [|e events IH]; intros st Hst; [done|].
    cbn. apply IH. by apply step_fileInvariant. }
  destruct H as [[Hm Ht] Hacc]. done.
Qed.

End HomeFiles.

Lemma held_files_within_limits_witness :
  let events := [Home.Switch "mixes";
                 Home.Drop ["mix.xlsx"; "materials.csv"; "old.xls"; "notes.txt"]] in
  let st : @Home.state string unit := Home.run id events in
  Home.files st = ["mix.xlsx"; "materials.csv"]
  /\ length (Home.files st) <= 2.
Proof.
  cbv zeta. split; [vm_compute; reflexivity|].
  apply (@held_files_within_limits string unit id
           [Home.Switch "mixes";
            Home.Drop ["mix.xlsx"; "materials.csv"; "old.xls"; "notes.txt"]]).
  vm_compute. reflexivity.
Defined.

(* ===================================================================== *)
(** * The preview                                                        *)
(* ===================================================================== *)

Lemma ceilDiv_bounds n :
  (0 <= n)%Z ->
  (0 <= Preview.ceilDiv n 100)%Z
  /\ (n <= 100 * Preview.ceilDiv n 100)%Z
  /\ (100 * Preview.ceilDiv n 100 < n + 100)%Z.
Proof.
  intros Hn. unfold Preview.ceilDiv.
  pose proof (Z.mul_div_le (- n) 100 ltac:(lia)).
  pose proof (Z.mul_succ_div_gt (- n) 100 ltac:(lia)).
  lia.
Qed.

Lemma pageOf_eq data p :
  (1 <= p)%Z ->
  pageOf data p = firstn 100 (skipn (Z.to_nat ((p - 1) * 100)) (tl data)).
Proof.
  intros Hp. unfold pageOf, Preview.rows, Preview.slice, Preview.endIndex,
    Preview.startIndex, Preview.allRows, Preview.rowsPerPage.
  cbn [Preview.data Preview.currentPage].
  set (L := tl data). set (s := ((p - 1) * 100)%Z).
  assert (Hs : (0 <= s)%Z) by (subst s; lia).
  destruct (Z.ltb_spec s 0) as [?|_]; [lia|].
  destruct (Z.ltb_spec (s + 100) 0) as [?|_]; [lia|].
  destruct (Z_lt_le_dec s (Z.of_nat (length L))) as [Hlt|Hge].
  - rewrite (Z.min_l s) by lia.
    destruct (Z_lt_le_dec (s + 100) (Z.of_nat (length L))) as [Hlt2|Hge2].
    + rewrite Z.min_l by lia. f_equal. lia.
    + rewrite Z.min_r by lia.
      rewrite !firstn_all2; [done| |]; rewrite length_skipn; lia.
  - rewrite !Z.min_r by lia. rewrite Z.sub_diag. cbn [Z.to_nat firstn].
    rewrite !skipn_all2 by lia. by rewrite firstn_nil.
Qed.

Lemma chunks_concat {A} (L : list A) n m :
  concat (map (fun k => firstn n (skipn (n * k) L)) (seq 0 m)) = firstn (n * m) L.
Proof.
  induction m as [|m IH].
  - by rewrite Nat.mul_0_r.
  - rewrite seq_S, map_app, concat_app, IH. cbn [map concat Nat.add].
    rewrite app_nil_r. replace (n * S m) with (n * m + n) by lia.
    rewrite <- (firstn_skipn (n * m) (firstn (n * m + n) L)) at 1. f_equal.
    + rewrite firstn_firstn. f_equal. lia.
    + rewrite skipn_firstn_comm. f_equal. lia.
Qed.

Lemma turn_page st b :
  let n := Preview.totalPages st in
  Preview.data (Preview.turn st b) = Preview.data st
  /\ ((1 <= n)%Z -> (1 <= Preview.currentPage st <= n)%Z ->
      (1 <= Preview.currentPage (Preview.turn st b) <= n)%Z)
  /\ (n = 0%Z -> (0 <= Preview.currentPage st <= 1)%Z ->
      (0 <= Preview.currentPage (Preview.turn st b) <= 1)%Z).
Proof.
  cbv zeta. destruct b; cbn [Preview.turn]; unfold Preview.clickPrevious, Preview.clickNext.
  - destruct (Z.eqb_spec (Preview.currentPage st) 1); cbn; [done|].
    split; [done|]. split; lia.
  - destruct (Z.eqb_spec (Preview.currentPage st) (Preview.totalPages st)); cbn; [done|].
    split; [done|]. split; lia.
Qed.

(** X18. The pages of the preview partition the rows below the header
    row: the pages 1 to [totalPages], one after the other, give exactly
    those rows in order; each of these pages holds between 1 and 100
    rows, and row [i] of page [p] is row [(p - 1) * 100 + i] of the
    table, the index the click handler computes.  The Previous and Next
    buttons keep the page number between 1 and [totalPages] when there is
    a row to show; without any row the page number stays between 0 and 1,
    and Next leads from the first render to page 0. *)
Theorem pages_partition data :
  let n := Preview.totalPages (Preview.initial data) in
  (0 <= n)%Z
  /\ concat (map (fun p => pageOf data (Z.of_nat p)) (seq 1 (Z.to_nat n))) = tl data
  /\ (forall p, (1 <= p <= n)%Z ->
        1 <= length (pageOf data p) <= 100
        /\ forall i, i < length (pageOf data p) ->
             nth_error (pageOf data p) i
             = nth_error (tl data) (Z.to_nat ((p - 1) * 100) + i))
  /\ (forall clicks,
        let st := fold_left Preview.turn clicks (Preview.initial data) in
        Preview.data st = data
        /\ ((1 <= n)%Z -> (1 <= Preview.currentPage st <= n)%Z)
        /\ (n = 0%Z -> (0 <= Preview.currentPage st <= 1)%Z))
  /\ (n = 0%Z ->
      Preview.currentPage (Preview.clickNext (Preview.initial data)) = 0%Z).
Proof.
  cbv zeta. unfold Preview.totalPages, Preview.totalRows, Preview.allRows,
    Preview.rowsPerPage. cbn [Preview.initial Preview.data].
  set (L := tl data).
  destruct (ceilDiv_bounds (Z.of_nat (length L)) ltac:(lia)) as (H0 & Hup & Hlow).
  set (n := Preview.ceilDiv (Z.of_nat (length L)) 100) in *.
  split; [done|]. split; [|split; [|split]].
  - rewrite <- seq_shift, map_map.
    rewrite (map_ext _ (fun k => firstn 100 (skipn (100 * k) L))).
    + rewrite chunks_concat. apply firstn_all2. lia.
    + intros k. rewrite pageOf_eq by lia. fold L. do 2 f_equal. lia.
  - intros p Hp. rewrite pageOf_eq by lia. fold L.
    set (s := Z.to_nat ((p - 1) * 100)).
    assert (Hs : s < length L) by (subst s; lia).
    split.
    + rewrite length_firstn, length_skipn. lia.
    + intros i Hi. rewrite length_firstn in Hi.
      rewrite nth_error_firstn. destruct (Nat.ltb_spec i 100); [|lia].
      by rewrite nth_error_skipn.
  - intros clicks.
    assert (Hinv : forall st,
      Preview.data st = data ->
      ((1 <= n)%Z -> (1 <= Preview.currentPage st <= n)%Z) ->
      (n = 0%Z -> (0 <= Preview.currentPage st <= 1)%Z) ->
      Preview.data (fold_left Preview.turn clicks st) = data
      /\ ((1 <= n)%Z -> (1 <= Preview.currentPage (fold_left Preview.turn clicks st) <= n)%Z)
      /\ (n = 0%Z -> (0 <= Preview.currentPage (fold_left Preview.turn clicks st) <= 1)%Z)).
    { induction clicks as [|b clicks IH]; intros st Hd H1 H2; [done|].
      cbn [fold_left]. destruct (turn_page st b) as (Hd' & H1' & H2').
      assert (Hn : Preview.totalPages st = n).
      { unfold Preview.totalPages, Preview.totalRows, Preview.allRows,
          Preview.rowsPerPage. by rewrite Hd. }
      rewrite Hn in H1', H2'.
      apply IH; [congruence|auto|auto]. }
    apply Hinv; cbn; [done|lia|lia].
  - intros Hn. unfold Preview.clickNext, Preview.totalPages, Preview.totalRows,
      Preview.allRows, Preview.rowsPerPage. cbn [Preview.initial Preview.data
      Preview.currentPage]. fold L. fold n. rewrite Hn. reflexivity.
Qed.

Lemma elementAt_setAt row col x j :
  elementAt (Preview.setAt VUndefined row col x) j
  = if (j =? col)%nat then x else elementAt row j.
Proof.
  unfold Preview.setAt, elementAt.
  destruct (Nat.ltb_spec col (length row)) as [Hlt|Hge].
  - destruct (Nat.eqb_spec j col) as [->|Hne].
    + apply nth_lookup_Some with (d := VUndefined). by apply list_lookup_insert_eq.
    + destruct (row !! j) as [y|] eqn:Hj.
      * rewrite (nth_lookup_Some _ _ _ y) by (by rewrite list_lookup_insert_ne).
        symmetry. by apply nth_lookup_Some.
      * rewrite !nth_overflow; [done| |].
        -- by apply lookup_ge_None.
        -- rewrite length_insert. by apply lookup_ge_None.
  - destruct (Nat.eqb_spec j col) as [->|Hne].
    + rewrite app_assoc, app_nth2; rewrite ?length_app, ?length_replicate; [|lia].
      replace (col - (length row + (col - length row))) with 0 by lia. done.
    + destruct (Nat.lt_ge_cases j (length row)) as [Hj|Hj].
      * by rewrite app_nth1.
      * rewrite app_nth2 by done. rewrite (nth_overflow row) by done.
        destruct (Nat.lt_ge_cases (j - length row) (col - length row)) as [Hj2|Hj2].
        -- rewrite app_nth1 by (by rewrite length_replicate).
           apply nth_lookup_Some with (d := VUndefined).
           by apply lookup_replicate_2.
        -- rewrite app_nth2 by (by rewrite length_replicate).
           rewrite length_replicate. apply nth_overflow. cbn. lia.
Qed.

Lemma setAt_row (data : table) i r :
  i < length data ->
  length (Preview.setAt [] data i r) = length data
  /\ nth i (Preview.setAt [] data i r) [] = r
  /\ forall i', i' <> i -> nth i' (Preview.setAt [] data i r) [] = nth i' data [].
Proof.
  intros Hi. unfold Preview.setAt.
  destruct (Nat.ltb_spec i (length data)) as [_|?]; [|lia].
  split; [apply length_insert|]. split.
  - apply nth_lookup_Some with (d := []). by apply list_lookup_insert_eq.
  - intros i' Hne. destruct (data !! i') as [y|] eqn:Hy.
    + rewrite (nth_lookup_Some _ _ _ y) by (by rewrite list_lookup_insert_ne).
      symmetry. by apply nth_lookup_Some.
    + rewrite !nth_overflow; [done| |].
      * by apply lookup_ge_None.
      * rewrite length_insert. by apply lookup_ge_None.
Qed.

(** X19. Editing a cell on display, on a page numbered 1 or more: the
    click never throws and opens the editor on the text of the cell (the
    empty text for a falsy cell).  Once a text is typed and the editor
    left, that cell of the table holds the typed text, every other cell
    reads as before, the table has as many rows as before, the page
    number is unchanged and no cell is being edited.  Leaving the editor
    without typing stores the text it opened with: a number becomes its
    text, a falsy cell the empty text. *)
Theorem cell_edit_round_trip st rowIndex colIndex :
  (1 <= Preview.currentPage st)%Z -> rowIndex < length (Preview.rows st) ->
  let i := S (Z.to_nat (Preview.startIndex st) + rowIndex) in
  exists st1,
    Preview.handleCellClick rowIndex colIndex st = (Return tt, st1)
    /\ nth_error (Preview.rows st) rowIndex = nth_error (Preview.data st) i
    /\ Preview.editValue st1
       = ToString (if truthy (cellAt (Preview.data st) i colIndex)
                   then cellAt (Preview.data st) i colIndex else VStr "")
    /\ (forall v,
          let st2 := Preview.handleCellBlur (Preview.typeValue v st1) in
          cellAt (Preview.data st2) i colIndex = VStr v
          /\ (forall i' j', i' <> i \/ j' <> colIndex ->
                cellAt (Preview.data st2) i' j' = cellAt (Preview.data st) i' j')
          /\ length (Preview.data st2) = length (Preview.data st)
          /\ Preview.editingCell st2 = None
          /\ Preview.currentPage st2 = Preview.currentPage st)
    /\ Preview.handleCellBlur st1
       = Preview.handleCellBlur (Preview.typeValue (Preview.editValue st1) st1).
Proof.
  intros Hp Hrow. cbv zeta.
  destruct st as [data p editing ev]. cbn [Preview.currentPage] in Hp.
  assert (Hrows : Preview.rows (Preview.mkState data p editing ev) = pageOf data p)
    by reflexivity.
  rewrite Hrows in *. rewrite pageOf_eq in * by done.
  unfold Preview.startIndex, Preview.rowsPerPage. cbn [Preview.currentPage Preview.data].
  set (s := Z.to_nat ((p - 1) * 100)) in *.
  rewrite length_firstn, length_skipn in Hrow.
  assert (Hi : S (s + rowIndex) < length data).
  { clearbody s. destruct data; cbn [tl length] in *; lia. }
  assert (Hnth : nth_error (tl data) (s + rowIndex) = nth_error data (S (s + rowIndex))).
  { destruct data as [|h d]; [cbn in Hi; lia|reflexivity]. }
  destruct (nth_error data (S (s + rowIndex))) as [row|] eqn:Hr;
    [|apply nth_error_None in Hr; lia].
  assert (Hrow' : nth (S (s + rowIndex)) data [] = row) by by apply nth_error_nth.
  unfold Preview.handleCellClick, Preview.rowAt, Preview.allRows, Preview.startIndex,
    Preview.rowsPerPage. cbn [Preview.currentPage Preview.data].
  destruct (Z.ltb_spec ((p - 1) * 100 + Z.of_nat rowIndex) 0) as [?|_]; [lia|].
  replace (Z.to_nat ((p - 1) * 100 + Z.of_nat rowIndex)) with (s + rowIndex)
    by (subst s; lia).
  rewrite Hnth. eexists. split; [reflexivity|]. split.
  { rewrite nth_error_firstn. destruct (Nat.ltb_spec rowIndex 100); [|lia].
    by rewrite nth_error_skipn, Hnth. }
  cbn [Preview.editValue]. unfold cellAt. rewrite Hrow'. split; [reflexivity|].
  split; [|reflexivity]. intros v.
  unfold Preview.handleCellBlur, Preview.typeValue.
  cbn [Preview.editingCell Preview.data Preview.editValue Preview.currentPage].
  destruct (Z.ltb_spec ((p - 1) * 100 + Z.of_nat rowIndex + 1) 0) as [?|_]; [lia|].
  replace (Z.to_nat ((p - 1) * 100 + Z.of_nat rowIndex + 1)) with (S (s + rowIndex))
    by (subst s; lia).
  rewrite Hr, Hrow'.
  destruct (setAt_row data (S (s + rowIndex))
              (Preview.setAt VUndefined row colIndex (VStr v)) Hi) as (Hlen & Hget & Hother).
  split; [|split; [|split; [done|split; done]]].
  - rewrite Hget, elementAt_setAt. by rewrite Nat.eqb_refl.
  - intros i' j' Hne.
    destruct (Nat.eq_dec i' (S (s + rowIndex))) as [->|Hi'].
    + rewrite Hget, Hrow', elementAt_setAt.
      destruct (Nat.eqb_spec j' colIndex); [|done]. destruct Hne; done.
    + by rewrite Hother.
Qed.

Lemma cell_edit_round_trip_witness :
  let st := Preview.initial [[VStr "Mix Name"; VStr "Quantity"];
                             [VStr "M1"; VNum (ofZ 180)]] in
  exists st1,
    Preview.handleCellClick 0 1 st = (Return tt, st1)
    /\ Preview.editValue st1 = "180"
    /\ Preview.data (Preview.handleCellBlur st1)
       = [[VStr "Mix Name"; VStr "Quantity"]; [VStr "M1"; VStr "180"]]
    /\ cellAt (Preview.data (Preview.handleCellBlur (Preview.typeValue "185" st1))) 1 1
       = VStr "185".
Proof.
  cbv zeta.
  destruct (cell_edit_round_trip
              (Preview.initial [[VStr "Mix Name"; VStr "Quantity"];
                                [VStr "M1"; VNum (ofZ 180)]]) 0 1)
    as (st1 & Hclick & _ & _ & Hcell & _).
  - cbn. lia.
  - vm_compute. lia.
  - exists st1. split; [exact Hclick|].
    assert (Hst1 : st1 = (Preview.handleCellClick 0 1
                            (Preview.initial [[VStr "Mix Name"; VStr "Quantity"];
                                              [VStr "M1"; VNum (ofZ 180)]])).2)
      by by rewrite Hclick.
    split; [rewrite Hst1; vm_compute; reflexivity|].
    split; [rewrite Hst1; vm_compute; reflexivity|].
    exact (proj1 (Hcell "185")).
Defined.

(* ===================================================================== *)
(** * Telling the material files apart                                   *)
(* ===================================================================== *)

Lemma identify_completes s file :
  completes (MaterialFiles.identify s file) (Return (identified s file)).
Proof.
  destruct file as [name data]. unfold MaterialFiles.identify, identified, kindOfName.
  cbv zeta.
  destruct (includes _ "admix" || includes _ "fiber"); [eauto with completes|].
  destruct (includes _ "aggregate" || includes _ "agg"); [eauto with completes|].
  destruct (includes _ "cement" || includes _ "cem"); [eauto with completes|].
  destruct (MaterialFiles.admixData s), (MaterialFiles.aggregateData s), (MaterialFiles.cementData s);
    eauto with completes.
Qed.

Lemma identifyFiles_completes files : forall s,
  completes (forOf files MaterialFiles.identify s) (Return (fold_left identified files s)).
Proof. apply completes_forOf. intros s file _. apply identify_completes. Qed.

Lemma identified_sheet k s file :
  (isKind k file = true -> sheetOf k (identified s file) = Some file.2)
  /\ (isKind k file = false -> forall d,
        sheetOf k s = Some d -> sheetOf k (identified s file) = Some d).
Proof.
  destruct file as [name data], s as [a g c]. unfold identified, isKind. cbn [fst snd].
  destruct (kindOfName name) as [[]|], k; cbn; split; try done;
    intros _ d; cbn; destruct a, g, c; cbn; congruence.
Qed.

Lemma fold_identified_kind k files : forall s,
  (exists file, In file files /\ isKind k file = true) ->
  sheetOf k (fold_left identified files s) = lastOfKind k files.
Proof.
  induction files as [|file files IH] using rev_ind; intros s [f [Hin Hf]]; [done|].
  rewrite fold_left_app. cbn [fold_left]. unfold lastOfKind. rewrite rev_app_distr.
  cbn [rev app List.find].
  destruct (identified_sheet k (fold_left identified files s) file) as [Hyes Hno].
  destruct (isKind k file) eqn:Hk; [by apply Hyes|].
  apply in_app_iff in Hin as [Hin|[<-|[]]]; [|congruence].
  specialize (IH s ltac:(by exists f)). unfold lastOfKind in IH.
  destruct (List.find (isKind k) (rev files)) as [g|] eqn:Hg.
  - by apply Hno.
  - exfalso. rewrite (find_none _ _ Hg f) in Hf; [done|]. by apply in_rev in Hin.
Qed.

Lemma fold_identified_from s files k d :
  sheetOf k (fold_left identified files s) = Some d ->
  sheetOf k s = Some d \/ exists name, In (name, d) files.
Proof.
  revert s. induction files as [|file files IH] using rev_ind; intros s; [by left|].
  rewrite fold_left_app. cbn [fold_left]. intros H.
  assert (Hstep : forall s', sheetOf k (identified s' file) = Some d ->
                             sheetOf k s' = Some d \/ file.2 = d).
  { intros s'. destruct file as [name data]. unfold identified. cbn [snd].
    destruct (kindOfName name) as [[]|], k; cbn; try (by left);
      try (intros [= <-]; by right);
      destruct s' as [[] [] []]; cbn; try (by left); intros [= <-]; by right. }
  apply Hstep in H as [H|H].
  - apply IH in H as [H|[name H]]; [by left|]. right. exists name.
    apply in_app_iff. by left.
  - right. exists file.1. apply in_app_iff. right. left. by destruct file; subst.
Qed.

(** X20. The loop of [handleConvert] that tells the material files apart
    always completes.  Each of the three sheets it hands to the materials
    converter is the data of one of the files or is left at [null].  For
    each kind (admix, aggregate, cement) that the name of some file
    tells, the sheet of that kind is the data of the last such file: an
    earlier file of the same kind, and a file assigned to that kind by
    order, are replaced, and no error is raised. *)
Theorem material_files_by_name files :
  exists s,
    completes (MaterialFiles.identifyFiles files) (Return s)
    /\ (forall k d, sheetOf k s = Some d -> exists name, In (name, d) files)
    /\ (forall k pre file post,
          files = pre ++ file :: post -> isKind k file = true ->
          Forall (fun f => isKind k f = false) post ->
          sheetOf k s = Some file.2).
Proof.
  exists (fold_left identified files
            {| MaterialFiles.admixData := None; MaterialFiles.aggregateData := None;
               MaterialFiles.cementData := None |}).
  split; [apply identifyFiles_completes|]. split.
  - intros k d H. apply fold_identified_from in H as [H|H]; [|done]. by destruct k.
  - intros k pre file post -> Hk Hpost.
    rewrite fold_identified_kind by (exists file; split; [apply in_elt|done]).
    unfold lastOfKind. rewrite rev_app_distr. cbn [rev]. rewrite <- app_assoc.
    cbn [app].
    assert (Hfind : forall l l', Forall (fun f => isKind k f = false) l ->
                      List.find (isKind k) (l ++ l') = List.find (isKind k) l').
    { intros l l' Hl. induction Hl as [|x l Hx _ IHl]; [done|]. cbn. by rewrite Hx. }
    rewrite Hfind by (by apply Forall_rev). cbn. by rewrite Hk.
Qed.

Lemma material_files_by_name_witness :
  exists s,
    completionOf (MaterialFiles.identifyFiles
                    [("agg-2023.xlsx", [[VStr "old"]]); ("list.xlsx", [[VStr "first"]]);
                     ("Aggregates.xlsx", [[VStr "new"]])]) [] = Return s
    /\ sheetOf Aggregate s = Some [[VStr "new"]]
    /\ sheetOf Admix s = Some [[VStr "first"]]
    /\ sheetOf Cement s = None.
Proof.
  destruct (material_files_by_name
              [("agg-2023.xlsx", [[VStr "old"]]); ("list.xlsx", [[VStr "first"]]);
               ("Aggregates.xlsx", [[VStr "new"]])])
    as (s & Hs & _ & Hlast).
  exists s. pose proof (completes_completionOf _ _ [] Hs) as Hc.
  split; [exact Hc|]. split.
  - apply (Hlast Aggregate [("agg-2023.xlsx", [[VStr "old"]]); ("list.xlsx", [[VStr "first"]])]
             ("Aggregates.xlsx", [[VStr "new"]]) []); [reflexivity|reflexivity|constructor].
  - assert (Hs' : Return s = completionOf (MaterialFiles.identifyFiles
                    [("agg-2023.xlsx", [[VStr "old"]]); ("list.xlsx", [[VStr "first"]]);
                     ("Aggregates.xlsx", [[VStr "new"]])]) []) by done.
    vm_compute in Hs'. injection Hs' as ->. split; reflexivity.
Defined.
